(** * P2P analysis: the processing block of [p.py], embedded and verified

    [p.py] is a Streamlit script.  On upload it reads one Excel sheet into a
    pandas [DataFrame], coerces dates and numbers, derives per-record fields,
    builds grouped summary tables and audit subsets, and stores them in
    [st.session_state].

    The embedding follows the script line by line on a small model of the
    pandas operations it calls:

    - a cell is a tagged value; [NA] stands for [NaN], [NaT] and [None];
    - [float64] numbers are idealised as exact rationals ([Qc]); rounding
      error, infinities and overflow of binary floating point are outside the
      model;
    - a [Timestamp] is a number of nanoseconds since the epoch ([Z]);
    - a [DataFrame] is an ordered list of column names and a list of labelled
      rows, each row a finite map from column name to cell;
    - column access by a missing name raises [KeyError];
    - parsing of strings into dates and numbers, and the tie order of numpy's
      default (non-stable) quicksort, belong to the libraries and are taken
      as parameters.  [astype(str)] follows pandas 1.x/2.x, where a missing
      period is formatted as the string NaT. *)

From stdpp Require Import gmap strings list fin_maps numbers sorting pretty.
From Stdlib Require Import QArith Qcanon Qround Lqa.

Local Open Scope string_scope.
Local Open Scope list_scope.
Local Open Scope Qc_scope.

(** ** Cells *)

Inductive cell :=
| NA                      (* NaN / NaT / None *)
| Num (q : Qc)            (* float64, as an exact rational *)
| Str (s : string)        (* Python str *)
| Ts (t : Z)              (* Timestamp: nanoseconds since 1970-01-01 *)
| Td (d : Z)              (* Timedelta: nanoseconds *)
| Per (m : Z)             (* Period[M]: months since 1970-01 *)
| Bool (b : bool).

Global Instance cell_eq_dec : EqDecision cell.
Proof. solve_decision. Defined.

Global Instance cell_inhabited : Inhabited cell := populate NA.

Definition num (z : Z) : cell := Num (Qc_of_Z z).

Definition isna (c : cell) : bool :=
  match c with NA => true | _ => false end.

(** The value a cell adds to a [sum]: pandas skips missing values. *)
Definition num0 (c : cell) : Qc :=
  match c with Num q => q | _ => 0 end.

(** ** Calendar: [Timestamp] to [Period[M]] and its string form *)

Definition ns_per_day : Z := 86400000000000.

(** Days since the epoch, rounding towards minus infinity. *)
Definition days_of_ns (t : Z) : Z := (t / ns_per_day)%Z.

(** Proleptic Gregorian year and month of a day number. *)
Definition civil_year_month (days : Z) : Z * Z :=
  let z := (days + 719468)%Z in
  let era := (z / 146097)%Z in
  let doe := (z - era * 146097)%Z in
  let yoe := ((doe - doe / 1460 + doe / 36524 - doe / 146096) / 365)%Z in
  let doy := (doe - (365 * yoe + yoe / 4 - yoe / 100))%Z in
  let mp := ((5 * doy + 2) / 153)%Z in
  let m := (if (mp <? 10)%Z then mp + 3 else mp - 9)%Z in
  let y := (yoe + era * 400 + (if (m <=? 2)%Z then 1 else 0))%Z in
  (y, m).

Definition month_ordinal (t : Z) : Z :=
  let '(y, m) := civil_year_month (days_of_ns t) in
  ((y - 1970) * 12 + (m - 1))%Z.

Definition pad_left (width : nat) (s : string) : string :=
  String.concat "" (replicate (width - String.length s) "0") +:+ s.

Definition period_str (ord : Z) : string :=
  pad_left 4 (pretty (1970 + ord / 12)%Z) +:+ "-" +:+
  pad_left 2 (pretty (ord `mod` 12 + 1)%Z).

(** ** Scalar operations, as pandas applies them element by element *)

(** [s.dt.to_period('M')] *)
Definition to_period_M (c : cell) : cell :=
  match c with Ts t => Per (month_ordinal t) | _ => NA end.

(** [s.astype(str)] on a period column: a missing period becomes the
    three-letter string, not a missing value. *)
Definition astype_str (c : cell) : cell :=
  match c with
  | Per m => Str (period_str m)
  | Str s => Str s
  | _ => Str "NaT"
  end.

(** [a - b] *)
Definition sub_cell (a b : cell) : cell :=
  match a, b with
  | Ts x, Ts y => Td (x - y)
  | Num x, Num y => Num (x - y)
  | _, _ => NA
  end.

(** [-a] *)
Definition neg_cell (a : cell) : cell :=
  match a with Num x => Num (- x) | Td d => Td (- d) | _ => NA end.

(** [a / b]; a zero divisor gives an infinity or NaN in IEEE arithmetic,
    none of which is a rational: the model collapses them to [NA]. *)
Definition div_cell (a b : cell) : cell :=
  match a, b with
  | Num x, Num y => if decide (y = 0) then NA else Num (x / y)
  | _, _ => NA
  end.

(** [a * b] *)
Definition mul_cell (a b : cell) : cell :=
  match a, b with
  | Num x, Num y => Num (x * y)
  | _, _ => NA
  end.

(** [s.dt.days]: whole days of a timedelta, rounding towards minus infinity. *)
Definition dt_days (c : cell) : cell :=
  match c with Td d => num (d / ns_per_day) | _ => NA end.

(** [s.fillna(v)] *)
Definition fillna (v : cell) (c : cell) : cell :=
  match c with NA => v | _ => c end.

(** Comparisons: any comparison with a missing value is [False]. *)
Definition lt_cell (a b : cell) : cell :=
  match a, b with
  | Ts x, Ts y => Bool (bool_decide (x < y)%Z)
  | Num x, Num y => Bool (bool_decide (x < y))
  | _, _ => Bool false
  end.

Definition gt_cell (a b : cell) : cell := lt_cell b a.

Definition ge_cell (a b : cell) : cell :=
  match a, b with
  | Ts x, Ts y => Bool (bool_decide (y ≤ x)%Z)
  | Num x, Num y => Bool (bool_decide (y ≤ x))
  | _, _ => Bool false
  end.

Definition eq_cell (a b : cell) : cell :=
  match a, b with
  | NA, _ | _, NA => Bool false
  | _, _ => Bool (bool_decide (a = b))
  end.

(** [a | b] on boolean columns *)
Definition or_cell (a b : cell) : cell :=
  match a, b with
  | Bool x, Bool y => Bool (x || y)
  | _, _ => Bool false
  end.

Definition is_true_cell (c : cell) : bool :=
  match c with Bool true => true | _ => false end.

(** [np.where(cond, x, y)] *)
Definition where_cell (cond x y : cell) : cell :=
  if is_true_cell cond then x else y.

(** Round half to even, to an integer ([np.rint]). *)
Definition rint (q : Qc) : Z :=
  let f := Qfloor q in
  let r := q - Qc_of_Z f in
  if decide (r < Q2Qc (1 # 2)) then f
  else if decide (Q2Qc (1 # 2) < r) then (f + 1)%Z
  else if Z.even f then f else (f + 1)%Z.

(** [np.round(x, 2)] *)
Definition round2 (q : Qc) : Qc := Qc_of_Z (rint (q * Qc_of_Z 100)) / Qc_of_Z 100.

Definition round2_cell (c : cell) : cell :=
  match c with Num q => Num (round2 q) | _ => c end.

(** The lambda of line 38:
    [lambda x: 'PO raised after delivery' if x < 0 else ''] *)
Definition why_po_delay (x : cell) : cell :=
  if is_true_cell (lt_cell x (num 0)) then Str "PO raised after delivery" else Str "".

(** ** Rows, frames and exceptions *)

Record Row := mkRow { label : nat; cells : gmap string cell }.

Global Instance Row_eq_dec : EqDecision Row.
Proof. solve_decision. Defined.

(** [r[c]]: the cell of row [r] in column [c]. *)
Definition get (c : string) (r : Row) : cell := cells r !!! c.

Definition set (c : string) (v : cell) (r : Row) : Row :=
  mkRow (label r) (<[c := v]> (cells r)).

Record DataFrame := mkDF { columns : list string; rows : list Row }.

Definition Series := list cell.

Inductive exn :=
| KeyError (c : string)
| ValueError (msg : string).

Inductive result (A : Type) :=
| Ok (a : A)
| Raise (e : exn).
Arguments Ok {A} a.
Arguments Raise {A} e.

Global Instance result_ret : MRet result := λ A, Ok.
Global Instance result_bind : MBind result := λ A B f m,
  match m with Ok a => f a | Raise e => Raise e end.

(** ** Frame operations *)

Definition col (df : DataFrame) (c : string) : Series := get c <$> rows df.

(** [df[c]] *)
Definition getitem (df : DataFrame) (c : string) : result Series :=
  if decide (c ∈ columns df) then Ok (col df c) else Raise (KeyError c).

(** A column list is usable when every name exists; the first missing name
    is the one reported. *)
Definition require (df : DataFrame) (cs : list string) : result unit :=
  match filter (λ c, c ∉ columns df) cs with
  | [] => Ok ()
  | c :: _ => Raise (KeyError c)
  end.

(** [df[c] = s]: a new column goes last, an existing one is overwritten in
    place.  Values are aligned with the rows; a row without a value gets a
    missing one. *)
Definition setitem (df : DataFrame) (c : string) (s : Series) : DataFrame :=
  {| columns := if decide (c ∈ columns df) then columns df else (columns df ++ [c])%list;
     rows := imap (λ i r, set c (default NA (s !! i)) r) (rows df) |}.

(** [df[mask]]: the rows whose mask entry is [True], labels kept. *)
Definition loc (df : DataFrame) (mask : Series) : DataFrame :=
  {| columns := columns df;
     rows := (filter (λ p, is_true_cell p.2) (zip (rows df) mask)).*1 |}.

(** [df[cs]] for a list of names: projection on those columns. *)
Definition project (cs : list string) (r : Row) : Row :=
  mkRow (label r) (filter (λ kv, kv.1 ∈ cs) (cells r)).

Definition projected (df : DataFrame) (cs : list string) : DataFrame :=
  {| columns := cs; rows := project cs <$> rows df |}.

Definition select (df : DataFrame) (cs : list string) : result DataFrame :=
  _ ← require df cs;
  mret (projected df cs).

(** [df.columns = names]: positional renaming. *)
Definition rename_row (old new : list string) (r : Row) : Row :=
  mkRow (label r) (list_to_map (zip new ((λ c, get c r) <$> old))).

Definition renamed (df : DataFrame) (names : list string) : DataFrame :=
  {| columns := names; rows := rename_row (columns df) names <$> rows df |}.

Definition set_columns (df : DataFrame) (names : list string) : result DataFrame :=
  if decide (length names = length (columns df))
  then Ok (renamed df names)
  else Raise (ValueError "Length mismatch").

(** [df.reset_index(drop=True)] *)
Definition reset_index (df : DataFrame) : DataFrame :=
  {| columns := columns df; rows := imap (λ i r, mkRow i (cells r)) (rows df) |}.

(** [df.head(n)] *)
Definition head (n : nat) (df : DataFrame) : DataFrame :=
  {| columns := columns df; rows := take n (rows df) |}.

(** ** Ordering of cells *)

Definition cell_rank (c : cell) : Z :=
  match c with
  | Bool _ => 0 | Num _ => 1 | Td _ => 2 | Ts _ => 3 | Per _ => 4 | Str _ => 5
  | NA => 6
  end.

(** Values of one type by their own order; numbers before strings, as
    pandas sorts mixed object columns; missing values last. *)
Definition cell_cmp (a b : cell) : comparison :=
  match a, b with
  | Bool x, Bool y => Bool.compare x y
  | Num x, Num y => x ?= y
  | Td x, Td y => (x ?= y)%Z
  | Ts x, Ts y => (x ?= y)%Z
  | Per x, Per y => (x ?= y)%Z
  | Str x, Str y => String.compare x y
  | _, _ => (cell_rank a ?= cell_rank b)%Z
  end.

Fixpoint key_cmp (k1 k2 : list cell) : comparison :=
  match k1, k2 with
  | [], [] => Eq
  | [], _ :: _ => Lt
  | _ :: _, [] => Gt
  | a :: k1', b :: k2' =>
      match cell_cmp a b with Eq => key_cmp k1' k2' | c => c end
  end.

Definition not_gt (c : comparison) : bool :=
  match c with Gt => false | _ => true end.

Definition key_le (k1 k2 : list cell) : Prop := not_gt (key_cmp k1 k2) = true.

Global Instance key_le_dec : RelDecision key_le.
Proof. intros k1 k2. unfold key_le. apply _. Defined.

(** ** [groupby(keys).agg(sum).reset_index()] *)

Fixpoint sum_q (l : list Qc) : Qc :=
  match l with [] => 0 | x :: l' => x + sum_q l' end.

Definition key_of (keys : list string) (r : Row) : list cell :=
  (λ k, get k r) <$> keys.

(** Rows with a missing value in a key column belong to no group
    ([dropna=True], the default). *)
Definition complete_key (k : list cell) : Prop := NA ∉ k.

(** The group keys: distinct, in ascending order ([sort=True], the default). *)
Definition group_keys (keys : list string) (rs : list Row) : list (list cell) :=
  merge_sort key_le (remove_dups (filter complete_key (key_of keys <$> rs))).

Definition group_rows (keys : list string) (rs : list Row) (k : list cell) : list Row :=
  filter (λ r, key_of keys r = k) rs.

(** [sum] of one column over a group: missing values are skipped. *)
Definition agg_sum (src : string) (rs : list Row) : Qc :=
  sum_q ((λ r, num0 (get src r)) <$> rs).

(** One output row: the key columns, then one sum per aggregation
    [(out, src)]. *)
Definition group_row (keys : list string) (aggs : list (string * string))
    (rs : list Row) (i : nat) (k : list cell) : Row :=
  mkRow i (list_to_map
    (zip keys k ++ ((λ a, (a.1, Num (agg_sum a.2 (group_rows keys rs k)))) <$> aggs))%list).

Definition grouped (df : DataFrame) (keys : list string)
    (aggs : list (string * string)) : DataFrame :=
  {| columns := (keys ++ aggs.*1)%list;
     rows := imap (group_row keys aggs (rows df)) (group_keys keys (rows df)) |}.

Definition groupby_sum (df : DataFrame) (keys : list string)
    (aggs : list (string * string)) : result DataFrame :=
  _ ← require df keys;
  _ ← require df (aggs.*2);
  mret (grouped df keys aggs).

(** The dictionary form [agg({c: 'sum', ...})] names each output after its
    source column. *)
Definition same_name (cs : list string) : list (string * string) :=
  (λ c, (c, c)) <$> cs.

(** ** Sorting *)

(** Order of two cells under [ascending=asc], missing values last
    ([na_position='last']). *)
Definition order_cell (asc : bool) (a b : cell) : comparison :=
  match a, b with
  | NA, NA => Eq
  | NA, _ => Gt
  | _, NA => Lt
  | _, _ => if asc then cell_cmp a b else cell_cmp b a
  end.

Fixpoint by_cmp (by_ : list (string * bool)) (r1 r2 : Row) : comparison :=
  match by_ with
  | [] => Eq
  | (c, asc) :: by' =>
      match order_cell asc (get c r1) (get c r2) with
      | Eq => by_cmp by' r1 r2
      | o => o
      end
  end.

Section stable_sort.
Context {A : Type} (leb : A → A → bool).

Fixpoint insert_sorted (x : A) (l : list A) : list A :=
  match l with
  | [] => [x]
  | y :: l' => if leb x y then x :: y :: l' else y :: insert_sorted x l'
  end.

(** Insertion from the right: an element stays before the later elements
    it is not greater than, so equal keys keep their input order. *)
Fixpoint stable_sort (l : list A) : list A :=
  match l with
  | [] => []
  | x :: l' => insert_sorted x (stable_sort l')
  end.
End stable_sort.

(** [df.sort_values(by=[...], ascending=[...])] with several keys: pandas
    sorts them with a lexicographic, stable sort. *)
Definition by_leb (by_ : list (string * bool)) (r1 r2 : Row) : bool :=
  not_gt (by_cmp by_ r1 r2).

Definition sorted_lex (df : DataFrame) (by_ : list (string * bool)) : DataFrame :=
  {| columns := columns df; rows := stable_sort (by_leb by_) (rows df) |}.

Definition sort_values_lex (df : DataFrame) (by_ : list (string * bool)) : result DataFrame :=
  _ ← require df (by_.*1);
  mret (sorted_lex df by_).

(** numpy's default sort kind is a quicksort: it returns the values in
    order, and promises nothing on the order of equal values. *)
Record Quicksort := {
  quicksort_desc : ∀ A : Type, list (Qc * A) → list (Qc * A);
  quicksort_desc_perm : ∀ A (l : list (Qc * A)), quicksort_desc A l ≡ₚ l;
  quicksort_desc_sorted : ∀ A (l : list (Qc * A)),
    Sorted (λ x y, y.1 ≤ x.1) (quicksort_desc A l)
}.

Definition is_num (c : cell) : bool :=
  match c with Num _ => true | _ => false end.

(** [df.sort_values(by=c, ascending=False)]: the numbers in descending
    order, then the rows without a number, in their input order. *)
Definition sorted_desc (qs : Quicksort) (df : DataFrame) (c : string) : DataFrame :=
  let nums := filter (λ r, is_num (get c r) = true) (rows df) in
  let nans := filter (λ r, is_num (get c r) = false) (rows df) in
  {| columns := columns df;
     rows := ((quicksort_desc qs Row ((λ r, (num0 (get c r), r)) <$> nums)).*2 ++ nans)%list |}.

Definition sort_values_desc (qs : Quicksort) (df : DataFrame) (c : string) : result DataFrame :=
  _ ← require df [c];
  mret (sorted_desc qs df c).

(** [df.groupby(c).head(n)]: the first [n] rows of each group, in frame
    order; rows with a missing key are in no group. *)
Fixpoint group_head_rows (n : nat) (c : string) (seen : list cell) (rs : list Row) : list Row :=
  match rs with
  | [] => []
  | r :: rs' =>
      let k := get c r in
      if isna k then group_head_rows n c seen rs'
      else if decide (length (filter (λ k', k' = k) seen) < n)%nat
           then r :: group_head_rows n c (k :: seen) rs'
           else group_head_rows n c (k :: seen) rs'
  end.

Definition group_heads (df : DataFrame) (c : string) (n : nat) : DataFrame :=
  {| columns := columns df; rows := group_head_rows n c [] (rows df) |}.

Definition groupby_head (df : DataFrame) (c : string) (n : nat) : result DataFrame :=
  _ ← require df [c];
  mret (group_heads df c n).

(** ** The processing block (lines 20 to 168 of [p.py]) *)

Record Tables := {
  total_spend_by_vendor : DataFrame;
  total_spend_by_material : DataFrame;
  total_spend_by_service_area : DataFrame;
  top_10_vendors : DataFrame;
  top_10_materials : DataFrame;
  top_10_vendors_monthly : DataFrame;
  vendor_summary : DataFrame;
  delayed_pos : DataFrame;
  quantity_errors : DataFrame;
  overbilling_cases : DataFrame;
  session_df : DataFrame;          (* the entry ['df'] *)
  spend_trend : DataFrame;
  vendor_spend : DataFrame;
  entity_spend : DataFrame;
  overbilling_df : DataFrame
}.

Definition ordered_value : string := "PO Ordered Value in Loc. Curr.".
Definition invoice_value : string := "PO Invoice Value in Loc. Curr.".
Definition down_payment : string := "PO Down Payment".

Definition numeric_cols : list string :=
  [ordered_value; invoice_value; "Ordered Quantity"; "Delivery Quantity";
   down_payment; "Still to Deliver"].

Definition vendor_keys : list string :=
  ["Vendor Name"; "Vendor Number"; "Entity Name"; "IT/NON-IT"].

Definition spend_sums : list (string * string) :=
  same_name [ordered_value; invoice_value; down_payment].

Definition total_names : list string :=
  ["Total PO Ordered Value"; "Total PO Invoice Value"; "Total PO Down Payment"].

Definition summary_aggs : list (string * string) :=
  [("Total_Orders", "Ordered Quantity");
   ("Total_Delivered", "Delivery Quantity");
   ("Total_Pending", "Still to Deliver");
   ("PO_Ordered_Value", ordered_value);
   ("PO_Invoice_Value", invoice_value);
   ("PO_Down_Payment", down_payment)].

Definition summary_names : list string :=
  (vendor_keys ++
  ["Total Ordered Quantity"; "Total Delivered Quantity"; "Total Pending Quantity";
   "Total PO Ordered Value"; "Total PO Invoice Value"; "Total PO Down Payment";
   "Delivery Percentage (%)"])%list.

(** Lines 112-116: [np.where(orders > 0, delivered / orders * 100, 0).round(2)];
    both branches of [np.where] are computed for every row. *)
Definition delivery_percentage (cond a b : Series) : Series :=
  round2_cell <$>
    zip_with (λ c x, where_cell c x (num 0))
      ((λ x, gt_cell x (num 0)) <$> cond)
      ((λ x, mul_cell x (num 100)) <$> zip_with div_cell a b).

Definition output_columns : list string :=
  ["Purchasing Document Number"; "Document Date"; "Delivery Date";
   "Delivery Delay"; "Why PO Delay"; "IT/NON-IT"; "Vendor Number"; "Entity Name"].

Section pipeline.
(** What pandas makes of a cell that is neither a timestamp nor missing
    (a string in some date format, a number): its timestamp, or nothing. *)
Context (parse_datetime : cell → option Z).
(** What pandas makes of a cell that is neither a number nor missing. *)
Context (parse_numeric : cell → option Qc).
Context (qs : Quicksort).

(** [pd.to_datetime(s, errors='coerce')] *)
Definition to_datetime (c : cell) : cell :=
  match c with
  | Ts t => Ts t
  | NA => NA
  | _ => from_option Ts NA (parse_datetime c)
  end.

(** [pd.to_numeric(s, errors='coerce')] *)
Definition to_numeric (c : cell) : cell :=
  match c with
  | Num q => Num q
  | NA => NA
  | _ => from_option Num NA (parse_numeric c)
  end.

(** [current_date] is the value of [pd.Timestamp.today()], read from the
    system clock on line 56. *)
Definition process (current_date : Z) (df : DataFrame) : result Tables :=
  (* 25 *)
  s ← getitem df "Document Date";
  let df := setitem df "Document Date" (to_datetime <$> s) in
  (* 26 *)
  s ← getitem df "Delivery Date";
  let df := setitem df "Delivery Date" (to_datetime <$> s) in
  (* 29 *)
  s ← getitem df "Document Date";
  let df := setitem df "Month" (astype_str <$> (to_period_M <$> s)) in
  (* 32 *)
  a ← getitem df "Delivery Date";
  b ← getitem df "Document Date";
  let df := setitem df "Delivery_Date_Anomaly" (zip_with lt_cell a b) in
  (* 33 *)
  a ← getitem df "Delivery Date";
  b ← getitem df "Document Date";
  let df := setitem df "Date_Difference" (dt_days <$> zip_with sub_cell a b) in
  (* 34: date_anomalies, a local that is never stored *)
  _ ← getitem df "Delivery_Date_Anomaly";
  (* 37 *)
  a ← getitem df "Delivery Date";
  b ← getitem df "Document Date";
  let df := setitem df "Delivery Delay"
              (fillna (num (-1)) <$> (dt_days <$> zip_with sub_cell a b)) in
  (* 38 *)
  s ← getitem df "Delivery Delay";
  let df := setitem df "Why PO Delay" (why_po_delay <$> s) in
  (* 41-43 *)
  _ ← require df numeric_cols;
  let df := foldr (λ c d, setitem d c (to_numeric <$> col df c)) df numeric_cols in
  (* 46 *)
  a ← getitem df invoice_value;
  b ← getitem df ordered_value;
  let df := setitem df "Overbilling_Flag" (zip_with gt_cell a b) in
  (* 47 *)
  m ← getitem df "Overbilling_Flag";
  let overbilling_cases := loc df m in
  (* 50 *)
  a ← getitem df invoice_value;
  b ← getitem df ordered_value;
  let df := setitem df "Overbilling Amount" (zip_with sub_cell a b) in
  (* 53 *)
  s ← getitem df "Overbilling Amount";
  let overbilling_df := loc df ((λ x, gt_cell x (num 0)) <$> s) in
  (* 56-57 *)
  a ← getitem df "Delivery Date";
  b ← getitem df "Still to Deliver";
  let df := setitem df "On_Time"
              (zip_with or_cell ((λ x, ge_cell x (Ts current_date)) <$> a)
                                ((λ x, eq_cell x (num 0)) <$> b)) in
  (* 60-66 *)
  t ← groupby_sum df vendor_keys spend_sums;
  total_spend_by_vendor ← set_columns t (vendor_keys ++ total_names)%list;
  (* 69-75 *)
  t ← groupby_sum df ["Material Description"; "IT/NON-IT"] spend_sums;
  total_spend_by_material ←
    set_columns t (["Material Description"; "IT/NON-IT"] ++ total_names)%list;
  (* 78-84 *)
  t ← groupby_sum df ["Service Area"; "IT/NON-IT"] spend_sums;
  total_spend_by_service_area ←
    set_columns t (["Service Area"; "IT/NON-IT"] ++ total_names)%list;
  (* 87 *)
  t ← sort_values_desc qs total_spend_by_vendor "Total PO Ordered Value";
  let top_10_vendors := head 10 t in
  (* 90 *)
  t ← sort_values_desc qs total_spend_by_material "Total PO Ordered Value";
  let top_10_materials := head 10 t in
  (* 93-97 *)
  monthly_spend ← groupby_sum df ("Month" :: vendor_keys) spend_sums;
  (* 98 *)
  monthly_spend ← sort_values_lex monthly_spend [("Month", true); (ordered_value, false)];
  (* 99 *)
  t ← groupby_head monthly_spend "Month" 10;
  let t := reset_index t in
  (* 100 *)
  top_10_vendors_monthly ← set_columns t ("Month" :: vendor_keys ++ total_names)%list;
  (* 104-111 *)
  vendor_summary ← groupby_sum df vendor_keys summary_aggs;
  (* 112-116 *)
  cond ← getitem vendor_summary "Total_Orders";
  a ← getitem vendor_summary "Total_Delivered";
  b ← getitem vendor_summary "Total_Orders";
  let vendor_summary :=
    setitem vendor_summary "Delivery_Percentage" (delivery_percentage cond a b) in
  (* 117-123 *)
  vendor_summary ← set_columns vendor_summary summary_names;
  (* 126 *)
  a ← getitem df "GR Document Number";
  b ← getitem df "IR Document Number";
  let delayed_pos :=
    loc df (zip_with or_cell ((λ x, Bool (isna x)) <$> a) ((λ x, Bool (isna x)) <$> b)) in
  (* 131: only the output columns that exist *)
  let existing_columns := filter (λ c, c ∈ columns df) output_columns in
  (* 132 *)
  delayed_pos ← select delayed_pos existing_columns;
  (* 135 *)
  a ← getitem df "Delivery Quantity";
  b ← getitem df "Ordered Quantity";
  let quantity_errors := loc df (zip_with gt_cell a b) in
  (* 138-141 *)
  spend_trend ← groupby_sum df ["Month"] (same_name [ordered_value; invoice_value]);
  (* 143-146 *)
  vendor_spend ← groupby_sum df ["Vendor Name"] (same_name [ordered_value; invoice_value]);
  (* 148 *)
  entity_spend ← groupby_sum df ["Entity Name"] (same_name [ordered_value]);
  mret {|
    total_spend_by_vendor := total_spend_by_vendor;
    total_spend_by_material := total_spend_by_material;
    total_spend_by_service_area := total_spend_by_service_area;
    top_10_vendors := top_10_vendors;
    top_10_materials := top_10_materials;
    top_10_vendors_monthly := top_10_vendors_monthly;
    vendor_summary := vendor_summary;
    delayed_pos := delayed_pos;
    quantity_errors := quantity_errors;
    overbilling_cases := overbilling_cases;
    session_df := df;
    spend_trend := spend_trend;
    vendor_spend := vendor_spend;
    entity_spend := entity_spend;
    overbilling_df := overbilling_df
  |}.

(** *** The script around the block *)

(** The uploaded sheet: a header line and the data lines below it. *)
Record Sheet := { header : list string; body : list (list cell) }.

(** [pd.read_excel]: one row per data line, labelled from 0. *)
Definition read_excel (f : Sheet) : DataFrame :=
  {| columns := header f;
     rows := imap (λ i line, mkRow i (list_to_map (zip (header f) line))) (body f) |}.

(** [st.session_state]: the flag and the tables of the last processed
    upload; both absent in a fresh session. *)
Record session_state := {
  processed : option bool;
  stored : option Tables
}.

Definition fresh_session : session_state := {| processed := None; stored := None |}.

(** One run of the script, up to the end of the processing block: the new
    session state, and the exception that ended the run if there was one.
    An exception leaves the session as it was before line 20. *)
Definition script (clock : Z) (uploaded_file : option Sheet) (ss : session_state)
    : session_state * option exn :=
  (* 16-17 *)
  let ss := match processed ss with
            | None => {| processed := Some false; stored := stored ss |}
            | Some _ => ss
            end in
  (* 20 *)
  match uploaded_file, processed ss with
  | Some f, Some false =>
      match process clock (read_excel f) with
      | Ok t => ({| processed := Some true; stored := Some t |}, None)
      | Raise e => (ss, Some e)
      end
  | _, _ => (ss, None)
  end.
End pipeline.

(** [underbilling_df] of lines 413-414 and 462-463, computed from the stored
    frame each time the view or the report is produced. *)
Definition underbilling_df (t : Tables) : result DataFrame :=
  s ← getitem (session_df t) "Overbilling Amount";
  let u := loc (session_df t) ((λ x, lt_cell x (num 0)) <$> s) in
  s ← getitem u "Overbilling Amount";
  mret (setitem u "Underbilling Amount" (neg_cell <$> s)).

(** ** The stable sort: permutation, order, stability *)

Section stable_sort_facts.
Context {A : Type} (leb : A → A → bool).
Hypothesis leb_total : ∀ x y, leb x y = false → leb y x = true.

Lemma insert_sorted_perm (x : A) (l : list A) : insert_sorted leb x l ≡ₚ x :: l.
Proof.
  induction l as [|y l IH]; simpl; [done|].
  destruct (leb x y); [done|].
  rewrite IH. apply Permutation_swap.
Qed.

Lemma stable_sort_perm (l : list A) : stable_sort leb l ≡ₚ l.
Proof.
  induction l as [|x l IH]; simpl; [done|].
  by rewrite insert_sorted_perm, IH.
Qed.

Lemma insert_sorted_hd (x y : A) (l : list A) :
  leb y x = true → HdRel (λ a b, leb a b = true) y l →
  HdRel (λ a b, leb a b = true) y (insert_sorted leb x l).
Proof.
  intros Hyx Hhd. destruct l as [|z l]; simpl; [by constructor|].
  destruct (leb x z); constructor; [done|].
  by inversion Hhd.
Qed.

Lemma insert_sorted_sorted (x : A) (l : list A) :
  Sorted (λ a b, leb a b = true) l →
  Sorted (λ a b, leb a b = true) (insert_sorted leb x l).
Proof.
  induction 1 as [|y l Hs IH Hhd]; simpl.
  - repeat constructor.
  - destruct (leb x y) eqn:Hxy.
    + constructor; [by constructor|by constructor].
    + constructor; [done|]. apply insert_sorted_hd; [|done]. by apply leb_total.
Qed.

Lemma stable_sort_sorted (l : list A) :
  Sorted (λ a b, leb a b = true) (stable_sort leb l).
Proof.
  induction l as [|x l IH]; simpl; [constructor|].
  by apply insert_sorted_sorted.
Qed.
End stable_sort_facts.

Lemma Sorted_weaken {A : Type} (R R' : relation A) (l : list A) :
  (∀ x y, R x y → R' x y) → Sorted R l → Sorted R' l.
Proof.
  intros HR. induction 1 as [|x l Hs IH Hhd]; constructor; [done|].
  destruct Hhd; constructor; auto.
Qed.

(** A quicksort that happens to be stable is one admissible behaviour. *)
Definition desc_leb {A : Type} (x y : Qc * A) : bool := bool_decide (y.1 ≤ x.1).

Lemma desc_leb_total {A : Type} (x y : Qc * A) :
  desc_leb x y = false → desc_leb y x = true.
Proof.
  unfold desc_leb. rewrite bool_decide_eq_false, bool_decide_eq_true.
  intros H. apply Qclt_le_weak. by apply Qclt_nge.
Qed.

Program Definition stable_quicksort : Quicksort :=
  {| quicksort_desc := λ A l, stable_sort desc_leb l |}.
Next Obligation. intros. apply stable_sort_perm. Qed.
Next Obligation.
  intros. simpl.
  eapply Sorted_weaken; [|apply (stable_sort_sorted desc_leb desc_leb_total)].
  intros x y. unfold desc_leb. by rewrite bool_decide_eq_true.
Qed.

(** * Reasoning about the frame operations *)

Lemma bind_Ok_inv {A B : Type} (m : result A) (f : A → result B) (b : B) :
  m ≫= f = Ok b → ∃ a, m = Ok a ∧ f a = Ok b.
Proof. destruct m as [a|e]; simpl; [eauto|discriminate]. Qed.

Lemma getitem_Ok_inv (df : DataFrame) (c : string) (s : Series) :
  getitem df c = Ok s → c ∈ columns df ∧ s = col df c.
Proof. unfold getitem. case_decide; [|discriminate]. by intros [= <-]. Qed.

Lemma getitem_Ok (df : DataFrame) (c : string) :
  c ∈ columns df → getitem df c = Ok (col df c).
Proof. intros. unfold getitem. by rewrite decide_True. Qed.

Lemma getitem_Raise (df : DataFrame) (c : string) (e : exn) :
  getitem df c = Raise e → e = KeyError c ∧ c ∉ columns df.
Proof. unfold getitem. case_decide; [discriminate|]. by intros [= <-]. Qed.

Lemma require_Ok_inv (df : DataFrame) (cs : list string) (u : unit) :
  require df cs = Ok u → ∀ c, c ∈ cs → c ∈ columns df.
Proof.
  unfold require. intros H c Hc.
  destruct (filter _ cs) as [|c' l] eqn:E; [|discriminate].
  destruct (decide (c ∈ columns df)) as [|Hn]; [done|].
  assert (c ∈ filter (λ c, c ∉ columns df) cs) as Hf by by apply list_elem_of_filter.
  rewrite E in Hf. by apply not_elem_of_nil in Hf.
Qed.

Lemma require_Ok (df : DataFrame) (cs : list string) :
  (∀ c, c ∈ cs → c ∈ columns df) → require df cs = Ok ().
Proof.
  unfold require. intros H.
  destruct (filter _ cs) as [|c' l] eqn:E; [done|].
  assert (c' ∈ filter (λ c, c ∉ columns df) cs) as Hf by (rewrite E; left).
  apply list_elem_of_filter in Hf as [Hn Hin]. by destruct Hn; apply H.
Qed.

Lemma require_Raise (df : DataFrame) (cs : list string) (e : exn) :
  require df cs = Raise e → ∃ c, e = KeyError c ∧ c ∈ cs ∧ c ∉ columns df.
Proof.
  unfold require. destruct (filter _ cs) as [|c' l] eqn:E; [discriminate|].
  intros [= <-]. exists c'. split; [done|].
  assert (c' ∈ filter (λ c, c ∉ columns df) cs) as Hf by (rewrite E; left).
  apply list_elem_of_filter in Hf as [Hn Hin]. done.
Qed.

Lemma zip_with_fmap_same {A B C D : Type} (f : B → C → D) (g1 : A → B) (g2 : A → C)
    (l : list A) :
  zip_with f (g1 <$> l) (g2 <$> l) = (λ x, f (g1 x) (g2 x)) <$> l.
Proof. induction l as [|x l IH]; csimpl; [done|]. by rewrite IH. Qed.

Lemma imap_set_fmap (l : list Row) (c : string) (g : Row → cell) (h : Row → Row) :
  imap (λ i r, set c (default NA ((g <$> l) !! i)) r) (h <$> l)
  = (λ r, set c (g r) (h r)) <$> l.
Proof.
  apply list_eq. intros i.
  rewrite list_lookup_imap, !list_lookup_fmap.
  destruct (l !! i); simpl; done.
Qed.

(** Assigning a column computed row by row from the frame itself. *)
Lemma rows_setitem (df : DataFrame) (c : string) (g : Row → cell) :
  rows (setitem df c (g <$> rows df)) = (λ r, set c (g r) r) <$> rows df.
Proof.
  unfold setitem; simpl.
  pose proof (imap_set_fmap (rows df) c g id) as H.
  rewrite list_fmap_id in H. exact H.
Qed.

Lemma columns_setitem_mono (df : DataFrame) (c c' : string) (s : Series) :
  c' ∈ columns df → c' ∈ columns (setitem df c s).
Proof.
  intros H. unfold setitem; simpl. case_decide; [done|].
  apply elem_of_app. by left.
Qed.

Lemma columns_setitem_inv (df : DataFrame) (c c' : string) (s : Series) :
  c' ∈ columns (setitem df c s) → c' ≠ c → c' ∈ columns df.
Proof.
  unfold setitem; simpl. case_decide; [done|].
  rewrite elem_of_app, list_elem_of_singleton. intros [?|?] ?; done.
Qed.

Lemma columns_setitem_new (df : DataFrame) (c : string) (s : Series) :
  c ∈ columns (setitem df c s).
Proof.
  unfold setitem; simpl. case_decide; [done|].
  apply elem_of_app. right. left.
Qed.

Lemma filter_zip_fmap {A : Type} (l : list A) (g : A → cell) :
  (filter (λ p, is_true_cell p.2) (zip l (g <$> l))).*1
  = filter (λ x, is_true_cell (g x)) l.
Proof.
  induction l as [|x l IH]; csimpl; [done|].
  rewrite !filter_cons; csimpl. destruct (is_true_cell (g x)); csimpl; by rewrite IH.
Qed.

(** Selecting by a mask computed row by row from the frame itself. *)
Lemma rows_loc (df : DataFrame) (g : Row → cell) :
  rows (loc df (g <$> rows df)) = filter (λ r, is_true_cell (g r)) (rows df).
Proof. unfold loc; simpl. apply filter_zip_fmap. Qed.

Lemma get_set (c c' : string) (v : cell) (r : Row) :
  get c (set c' v r) = if decide (c = c') then v else get c r.
Proof.
  unfold get, set; simpl. case_decide as E.
  - subst. by rewrite lookup_total_insert_eq.
  - by rewrite lookup_total_insert_ne.
Qed.

Lemma get_set_eq (c : string) (v : cell) (r : Row) : get c (set c v r) = v.
Proof. rewrite get_set. by rewrite decide_True. Qed.

Lemma get_set_ne (c c' : string) (v : cell) (r : Row) :
  c ≠ c' → get c (set c' v r) = get c r.
Proof. intros. rewrite get_set. by rewrite decide_False. Qed.

Lemma label_set (c : string) (v : cell) (r : Row) : label (set c v r) = label r.
Proof. done. Qed.

(** [cs] with [c] added at the end unless it is there already. *)
Definition add_col (c : string) (cs : list string) : list string :=
  if decide (c ∈ cs) then cs else (cs ++ [c])%list.

Lemma columns_setitem (df : DataFrame) (c : string) (s : Series) :
  columns (setitem df c s) = add_col c (columns df).
Proof. done. Qed.

Lemma elem_of_add_col (c c' : string) (cs : list string) :
  c ∈ add_col c' cs ↔ c = c' ∨ c ∈ cs.
Proof.
  unfold add_col. case_decide.
  - split; [auto|]. intros [->|]; done.
  - rewrite elem_of_app, list_elem_of_singleton. tauto.
Qed.

Lemma add_col_elem (c : string) (cs : list string) : c ∈ cs → add_col c cs = cs.
Proof. intros. unfold add_col. by rewrite decide_True. Qed.

(** Line 43 on a frame and on one row. *)
Lemma rows_foldr_setitem (df : DataFrame) (f : cell → cell) (cs : list string) :
  rows (foldr (λ c d, setitem d c (f <$> col df c)) df cs)
  = (λ r, foldr (λ c d, set c (f (get c r)) d) r cs) <$> rows df.
Proof.
  induction cs as [|c cs IH]; simpl.
  - by rewrite list_fmap_id.
  - rewrite IH. unfold col. rewrite <- list_fmap_compose.
    apply (imap_set_fmap (rows df) c (f ∘ get c)).
Qed.

Lemma columns_foldr_setitem (df : DataFrame) (f : cell → cell) (cs : list string) :
  (∀ c, c ∈ cs → c ∈ columns df) →
  columns (foldr (λ c d, setitem d c (f <$> col df c)) df cs) = columns df.
Proof.
  induction cs as [|c cs IH]; [done|]. intros H.
  cbn [foldr]. rewrite columns_setitem.
  assert (∀ c', c' ∈ cs → c' ∈ columns df) as H' by (intros c' ?; apply H; by right).
  rewrite (IH H'). apply add_col_elem, H. by left.
Qed.

Lemma get_foldr_set (f : cell → cell) (r : Row) (cs : list string) (c : string) :
  get c (foldr (λ c d, set c (f (get c r)) d) r cs)
  = if decide (c ∈ cs) then f (get c r) else get c r.
Proof.
  induction cs as [|c' cs IH]; cbn [foldr].
  - case_decide as E; [by apply not_elem_of_nil in E|done].
  - rewrite get_set, IH.
    repeat case_decide; subst; try done; rewrite ?elem_of_cons in *; tauto.
Qed.

Lemma label_foldr_set (f : cell → cell) (r : Row) (cs : list string) :
  label (foldr (λ c d, set c (f (get c r)) d) r cs) = label r.
Proof. induction cs as [|c' cs IH]; simpl; done. Qed.

(** ** The derived fields, one row at a time *)

Section derived_rows.
Context (parse_datetime : cell → option Z).
Context (parse_numeric : cell → option Qc).

Local Abbreviation to_datetime := (to_datetime parse_datetime).
Local Abbreviation to_numeric := (to_numeric parse_numeric).

Definition step25 (r : Row) : Row :=
  set "Document Date" (to_datetime (get "Document Date" r)) r.
Definition step26 (r : Row) : Row :=
  set "Delivery Date" (to_datetime (get "Delivery Date" r)) r.
Definition step29 (r : Row) : Row :=
  set "Month" (astype_str (to_period_M (get "Document Date" r))) r.
Definition step32 (r : Row) : Row :=
  set "Delivery_Date_Anomaly" (lt_cell (get "Delivery Date" r) (get "Document Date" r)) r.
Definition step33 (r : Row) : Row :=
  set "Date_Difference"
    (dt_days (sub_cell (get "Delivery Date" r) (get "Document Date" r))) r.
Definition step37 (r : Row) : Row :=
  set "Delivery Delay"
    (fillna (num (-1)) (dt_days (sub_cell (get "Delivery Date" r) (get "Document Date" r)))) r.
Definition step38 (r : Row) : Row :=
  set "Why PO Delay" (why_po_delay (get "Delivery Delay" r)) r.
Definition step43 (r : Row) : Row :=
  foldr (λ c d, set c (to_numeric (get c r)) d) r numeric_cols.
Definition step46 (r : Row) : Row :=
  set "Overbilling_Flag" (gt_cell (get invoice_value r) (get ordered_value r)) r.
Definition step50 (r : Row) : Row :=
  set "Overbilling Amount" (sub_cell (get invoice_value r) (get ordered_value r)) r.
Definition step57 (current_date : Z) (r : Row) : Row :=
  set "On_Time"
    (or_cell (ge_cell (get "Delivery Date" r) (Ts current_date))
             (eq_cell (get "Still to Deliver" r) (num 0))) r.

(** The row as line 47 sees it, as line 53 sees it, and as stored. *)
Definition derive46 (r : Row) : Row :=
  step46 (step43 (step38 (step37 (step33 (step32 (step29 (step26 (step25 r)))))))).
Definition derive50 (r : Row) : Row := step50 (derive46 r).
Definition derive (current_date : Z) (r : Row) : Row :=
  step57 current_date (derive50 r).
End derived_rows.

(** ** The frame after each assignment of the block *)

Section frames.
Context (parse_datetime : cell → option Z).
Context (parse_numeric : cell → option Qc).
Context (qs : Quicksort).

Local Abbreviation to_datetime := (to_datetime parse_datetime).
Local Abbreviation to_numeric := (to_numeric parse_numeric).

Definition frame25 (df : DataFrame) : DataFrame :=
  setitem df "Document Date" (to_datetime <$> col df "Document Date").
Definition frame26 (df : DataFrame) : DataFrame :=
  setitem (frame25 df) "Delivery Date" (to_datetime <$> col (frame25 df) "Delivery Date").
Definition frame29 (df : DataFrame) : DataFrame :=
  setitem (frame26 df) "Month"
    (astype_str <$> (to_period_M <$> col (frame26 df) "Document Date")).
Definition frame32 (df : DataFrame) : DataFrame :=
  setitem (frame29 df) "Delivery_Date_Anomaly"
    (zip_with lt_cell (col (frame29 df) "Delivery Date") (col (frame29 df) "Document Date")).
Definition frame33 (df : DataFrame) : DataFrame :=
  setitem (frame32 df) "Date_Difference"
    (dt_days <$> zip_with sub_cell (col (frame32 df) "Delivery Date")
                                   (col (frame32 df) "Document Date")).
Definition frame37 (df : DataFrame) : DataFrame :=
  setitem (frame33 df) "Delivery Delay"
    (fillna (num (-1)) <$>
       (dt_days <$> zip_with sub_cell (col (frame33 df) "Delivery Date")
                                      (col (frame33 df) "Document Date"))).
Definition frame38 (df : DataFrame) : DataFrame :=
  setitem (frame37 df) "Why PO Delay" (why_po_delay <$> col (frame37 df) "Delivery Delay").
Definition frame43 (df : DataFrame) : DataFrame :=
  foldr (λ c d, setitem d c (to_numeric <$> col (frame38 df) c)) (frame38 df) numeric_cols.
Definition frame46 (df : DataFrame) : DataFrame :=
  setitem (frame43 df) "Overbilling_Flag"
    (zip_with gt_cell (col (frame43 df) invoice_value) (col (frame43 df) ordered_value)).
Definition frame50 (df : DataFrame) : DataFrame :=
  setitem (frame46 df) "Overbilling Amount"
    (zip_with sub_cell (col (frame46 df) invoice_value) (col (frame46 df) ordered_value)).
Definition frame57 (current_date : Z) (df : DataFrame) : DataFrame :=
  setitem (frame50 df) "On_Time"
    (zip_with or_cell
       ((λ x, ge_cell x (Ts current_date)) <$> col (frame50 df) "Delivery Date")
       ((λ x, eq_cell x (num 0)) <$> col (frame50 df) "Still to Deliver")).

(** The names assigned up to each frame, last first. *)
Definition assigned46 : list string :=
  ["Overbilling_Flag"; ordered_value; invoice_value; "Ordered Quantity";
   "Delivery Quantity"; down_payment; "Still to Deliver"; "Why PO Delay";
   "Delivery Delay"; "Date_Difference"; "Delivery_Date_Anomaly"; "Month";
   "Delivery Date"; "Document Date"].
Definition assigned50 : list string := "Overbilling Amount" :: assigned46.
Definition assigned57 : list string := "On_Time" :: assigned50.

Lemma elem_of_columns_setitem (df : DataFrame) (c c' : string) (s : Series) :
  c' ∈ columns (setitem df c s) ↔ c' = c ∨ c' ∈ columns df.
Proof. rewrite columns_setitem. apply elem_of_add_col. Qed.

Lemma elem_of_columns_foldr_setitem (df d : DataFrame) (f : cell → cell)
    (cs : list string) (c : string) :
  c ∈ columns (foldr (λ c d, setitem d c (f <$> col df c)) d cs)
  ↔ c ∈ cs ∨ c ∈ columns d.
Proof.
  induction cs as [|c' cs IH]; cbn [foldr].
  - rewrite elem_of_nil. tauto.
  - rewrite elem_of_columns_setitem, IH, elem_of_cons. tauto.
Qed.

Ltac cols_step prev :=
  intros; rewrite elem_of_columns_setitem, prev, !elem_of_cons; tauto.

Lemma elem_of_columns25 (df : DataFrame) (c : string) :
  c ∈ columns (frame25 df) ↔ c ∈ ["Document Date"] ∨ c ∈ columns df.
Proof.
  unfold frame25. rewrite elem_of_columns_setitem, list_elem_of_singleton. tauto.
Qed.

Lemma elem_of_columns26 (df : DataFrame) (c : string) :
  c ∈ columns (frame26 df) ↔ c ∈ ["Delivery Date"; "Document Date"] ∨ c ∈ columns df.
Proof. unfold frame26. cols_step elem_of_columns25. Qed.

Lemma elem_of_columns29 (df : DataFrame) (c : string) :
  c ∈ columns (frame29 df)
  ↔ c ∈ ["Month"; "Delivery Date"; "Document Date"] ∨ c ∈ columns df.
Proof. unfold frame29. cols_step elem_of_columns26. Qed.

Lemma elem_of_columns32 (df : DataFrame) (c : string) :
  c ∈ columns (frame32 df)
  ↔ c ∈ ["Delivery_Date_Anomaly"; "Month"; "Delivery Date"; "Document Date"]
    ∨ c ∈ columns df.
Proof. unfold frame32. cols_step elem_of_columns29. Qed.

Lemma elem_of_columns33 (df : DataFrame) (c : string) :
  c ∈ columns (frame33 df)
  ↔ c ∈ ["Date_Difference"; "Delivery_Date_Anomaly"; "Month"; "Delivery Date";
         "Document Date"] ∨ c ∈ columns df.
Proof. unfold frame33. cols_step elem_of_columns32. Qed.

Lemma elem_of_columns37 (df : DataFrame) (c : string) :
  c ∈ columns (frame37 df)
  ↔ c ∈ ["Delivery Delay"; "Date_Difference"; "Delivery_Date_Anomaly"; "Month";
         "Delivery Date"; "Document Date"] ∨ c ∈ columns df.
Proof. unfold frame37. cols_step elem_of_columns33. Qed.

Lemma elem_of_columns38 (df : DataFrame) (c : string) :
  c ∈ columns (frame38 df)
  ↔ c ∈ ["Why PO Delay"; "Delivery Delay"; "Date_Difference"; "Delivery_Date_Anomaly";
         "Month"; "Delivery Date"; "Document Date"] ∨ c ∈ columns df.
Proof. unfold frame38. cols_step elem_of_columns37. Qed.

Lemma elem_of_columns43 (df : DataFrame) (c : string) :
  c ∈ columns (frame43 df) ↔ c ∈ tail assigned46 ∨ c ∈ columns df.
Proof.
  unfold frame43. rewrite elem_of_columns_foldr_setitem, elem_of_columns38.
  unfold assigned46, numeric_cols. cbn [tail]. rewrite !elem_of_cons. tauto.
Qed.

Lemma elem_of_columns46 (df : DataFrame) (c : string) :
  c ∈ columns (frame46 df) ↔ c ∈ assigned46 ∨ c ∈ columns df.
Proof.
  unfold frame46. rewrite elem_of_columns_setitem, elem_of_columns43.
  unfold assigned46. cbn [tail]. rewrite !elem_of_cons. tauto.
Qed.

Lemma elem_of_columns50 (df : DataFrame) (c : string) :
  c ∈ columns (frame50 df) ↔ c ∈ assigned50 ∨ c ∈ columns df.
Proof.
  unfold frame50. rewrite elem_of_columns_setitem, elem_of_columns46.
  unfold assigned50. rewrite elem_of_cons. tauto.
Qed.

Lemma elem_of_columns57 (now : Z) (df : DataFrame) (c : string) :
  c ∈ columns (frame57 now df) ↔ c ∈ assigned57 ∨ c ∈ columns df.
Proof.
  unfold frame57. rewrite elem_of_columns_setitem, elem_of_columns50.
  unfold assigned57. rewrite elem_of_cons. tauto.
Qed.

Ltac fuse_series :=
  unfold col;
  repeat first [ rewrite <- list_fmap_compose | rewrite zip_with_fmap_same ];
  apply rows_setitem.

Lemma rows_frame46 (df : DataFrame) :
  rows (frame46 df) = derive46 parse_datetime parse_numeric <$> rows df.
Proof.
  assert (rows (frame25 df) = step25 parse_datetime <$> rows df) as H25
    by (unfold frame25; fuse_series).
  assert (rows (frame26 df) = step26 parse_datetime <$> rows (frame25 df)) as H26
    by (unfold frame26; fuse_series).
  assert (rows (frame29 df) = step29 <$> rows (frame26 df)) as H29
    by (unfold frame29; fuse_series).
  assert (rows (frame32 df) = step32 <$> rows (frame29 df)) as H32
    by (unfold frame32; fuse_series).
  assert (rows (frame33 df) = step33 <$> rows (frame32 df)) as H33
    by (unfold frame33; fuse_series).
  assert (rows (frame37 df) = step37 <$> rows (frame33 df)) as H37
    by (unfold frame37; fuse_series).
  assert (rows (frame38 df) = step38 <$> rows (frame37 df)) as H38
    by (unfold frame38; fuse_series).
  assert (rows (frame43 df) = step43 parse_numeric <$> rows (frame38 df)) as H43
    by (unfold frame43; apply rows_foldr_setitem).
  assert (rows (frame46 df) = step46 <$> rows (frame43 df)) as H46
    by (unfold frame46; fuse_series).
  rewrite H46, H43, H38, H37, H33, H32, H29, H26, H25.
  rewrite <- !list_fmap_compose. reflexivity.
Qed.

Lemma rows_frame50 (df : DataFrame) :
  rows (frame50 df) = derive50 parse_datetime parse_numeric <$> rows df.
Proof.
  assert (rows (frame50 df) = step50 <$> rows (frame46 df)) as H
    by (unfold frame50; fuse_series).
  rewrite H, rows_frame46, <- list_fmap_compose. reflexivity.
Qed.

Lemma rows_frame57 (now : Z) (df : DataFrame) :
  rows (frame57 now df) = derive parse_datetime parse_numeric now <$> rows df.
Proof.
  assert (rows (frame57 now df) = step57 now <$> rows (frame50 df)) as H
    by (unfold frame57; fuse_series).
  rewrite H, rows_frame50, <- list_fmap_compose. reflexivity.
Qed.
End frames.

(** * The block as a whole *)

(** Outcome predicates: [wp m Φ Ψ] holds when [m] returns a value satisfying
    [Φ] or raises an exception satisfying [Ψ]. *)
Definition wp {A : Type} (m : result A) (Φ : A → Prop) (Ψ : exn → Prop) : Prop :=
  match m with Ok a => Φ a | Raise e => Ψ e end.

Lemma wp_bind {A B : Type} (m : result A) (f : A → result B) Φ Ψ :
  wp m (λ a, wp (f a) Φ Ψ) Ψ → wp (m ≫= f) Φ Ψ.
Proof. by destruct m. Qed.

Lemma wp_ret {A : Type} (a : A) (Φ : A → Prop) Ψ : Φ a → wp (mret a) Φ Ψ.
Proof. done. Qed.

Lemma wp_getitem (df : DataFrame) (c : string) (Φ : Series → Prop) Ψ :
  (c ∈ columns df → Φ (col df c)) →
  (c ∉ columns df → Ψ (KeyError c)) →
  wp (getitem df c) Φ Ψ.
Proof. intros HΦ HΨ. unfold getitem. case_decide; simpl; auto. Qed.

Lemma wp_require (df : DataFrame) (cs : list string) (Φ : unit → Prop) Ψ :
  ((∀ c, c ∈ cs → c ∈ columns df) → Φ ()) →
  (∀ c, c ∈ cs → c ∉ columns df → Ψ (KeyError c)) →
  wp (require df cs) Φ Ψ.
Proof.
  intros HΦ HΨ. destruct (require df cs) as [[]|e] eqn:E; simpl.
  - apply HΦ. by eapply require_Ok_inv.
  - apply require_Raise in E as (c & -> & ? & ?). by apply HΨ.
Qed.

Lemma wp_required_op {A : Type} (df : DataFrame) (cs : list string) (a : A) Φ Ψ :
  ((∀ c, c ∈ cs → c ∈ columns df) → Φ a) →
  (∀ c, c ∈ cs → c ∉ columns df → Ψ (KeyError c)) →
  wp (require df cs ≫= λ _, mret a) Φ Ψ.
Proof. intros HΦ HΨ. apply wp_bind, wp_require; [|done]. intros H. by apply HΦ. Qed.

Lemma wp_sort_values_desc qs (df : DataFrame) (c : string) (Φ : DataFrame → Prop) Ψ :
  (c ∈ columns df → Φ (sorted_desc qs df c)) →
  (c ∉ columns df → Ψ (KeyError c)) →
  wp (sort_values_desc qs df c) Φ Ψ.
Proof.
  intros HΦ HΨ. apply wp_required_op.
  - intros H. apply HΦ, H. left.
  - by intros c' ->%list_elem_of_singleton.
Qed.

Lemma wp_sort_values_lex (df : DataFrame) by_ (Φ : DataFrame → Prop) Ψ :
  ((∀ c, c ∈ by_.*1 → c ∈ columns df) → Φ (sorted_lex df by_)) →
  (∀ c, c ∈ by_.*1 → c ∉ columns df → Ψ (KeyError c)) →
  wp (sort_values_lex df by_) Φ Ψ.
Proof. apply wp_required_op. Qed.

Lemma wp_groupby_head (df : DataFrame) (c : string) (n : nat) (Φ : DataFrame → Prop) Ψ :
  (c ∈ columns df → Φ (group_heads df c n)) →
  (c ∉ columns df → Ψ (KeyError c)) →
  wp (groupby_head df c n) Φ Ψ.
Proof.
  intros HΦ HΨ. apply wp_required_op.
  - intros H. apply HΦ, H. left.
  - by intros c' ->%list_elem_of_singleton.
Qed.

Lemma wp_select (df : DataFrame) cs (Φ : DataFrame → Prop) Ψ :
  ((∀ c, c ∈ cs → c ∈ columns df) → Φ (projected df cs)) →
  (∀ c, c ∈ cs → c ∉ columns df → Ψ (KeyError c)) →
  wp (select df cs) Φ Ψ.
Proof. apply wp_required_op. Qed.

Lemma wp_groupby_sum (df : DataFrame) keys aggs (Φ : DataFrame → Prop) Ψ :
  ((∀ c, c ∈ keys ++ aggs.*2 → c ∈ columns df) → Φ (grouped df keys aggs)) →
  (∀ c, c ∈ keys ++ aggs.*2 → c ∉ columns df → Ψ (KeyError c)) →
  wp (groupby_sum df keys aggs) Φ Ψ.
Proof.
  intros HΦ HΨ. unfold groupby_sum.
  apply wp_bind, wp_require; [intros H1|].
  - apply wp_bind, wp_require; [intros H2|].
    + apply HΦ. intros c [?|?]%elem_of_app; auto.
    + intros c ? ?. apply HΨ; [|done]. apply elem_of_app. by right.
  - intros c ? ?. apply HΨ; [|done]. apply elem_of_app. by left.
Qed.

Lemma wp_set_columns (df : DataFrame) names (Φ : DataFrame → Prop) Ψ :
  length names = length (columns df) →
  Φ (renamed df names) →
  wp (set_columns df names) Φ Ψ.
Proof. intros Hl HΦ. unfold set_columns. by rewrite decide_True. Qed.

Lemma columns_grouped df keys aggs : columns (grouped df keys aggs) = (keys ++ aggs.*1)%list.
Proof. done. Qed.
Lemma columns_renamed df names : columns (renamed df names) = names.
Proof. done. Qed.
Lemma columns_sorted_lex df by_ : columns (sorted_lex df by_) = columns df.
Proof. done. Qed.
Lemma columns_sorted_desc qs df c : columns (sorted_desc qs df c) = columns df.
Proof. done. Qed.
Lemma columns_group_heads df c n : columns (group_heads df c n) = columns df.
Proof. done. Qed.
Lemma columns_reset_index df : columns (reset_index df) = columns df.
Proof. done. Qed.
Lemma columns_head n df : columns (head n df) = columns df.
Proof. done. Qed.
Lemma columns_loc df m : columns (loc df m) = columns df.
Proof. done. Qed.

(** The columns the block reads from the upload.  The purchasing document
    number is not among them: line 131 keeps only the output columns that
    exist. *)
Definition required_columns : list string :=
  ["Document Date"; "Delivery Date"; ordered_value; invoice_value;
   "Ordered Quantity"; "Delivery Quantity"; down_payment; "Still to Deliver";
   "Vendor Name"; "Vendor Number"; "Entity Name"; "IT/NON-IT";
   "Material Description"; "Service Area"; "GR Document Number"; "IR Document Number"].

Definition missing_column (df : DataFrame) (e : exn) : Prop :=
  ∃ c, e = KeyError c ∧ c ∈ required_columns ∧ c ∉ columns df.

Section block.
Context (parse_datetime : cell → option Z).
Context (parse_numeric : cell → option Qc).
Context (qs : Quicksort).

Local Abbreviation frame46 := (frame46 parse_datetime parse_numeric).
Local Abbreviation frame50 := (frame50 parse_datetime parse_numeric).
Local Abbreviation frame57 := (frame57 parse_datetime parse_numeric).

(** The tables of a run that raises no exception. *)
Definition tables_of (now : Z) (df : DataFrame) : Tables :=
  let d := frame57 now df in
  let by_vendor := renamed (grouped d vendor_keys spend_sums) (vendor_keys ++ total_names) in
  let by_material :=
    renamed (grouped d ["Material Description"; "IT/NON-IT"] spend_sums)
            (["Material Description"; "IT/NON-IT"] ++ total_names) in
  let by_area :=
    renamed (grouped d ["Service Area"; "IT/NON-IT"] spend_sums)
            (["Service Area"; "IT/NON-IT"] ++ total_names) in
  let monthly :=
    sorted_lex (grouped d ("Month" :: vendor_keys) spend_sums)
               [("Month", true); (ordered_value, false)] in
  let summary := grouped d vendor_keys summary_aggs in
  {| total_spend_by_vendor := by_vendor;
     total_spend_by_material := by_material;
     total_spend_by_service_area := by_area;
     top_10_vendors := head 10 (sorted_desc qs by_vendor "Total PO Ordered Value");
     top_10_materials := head 10 (sorted_desc qs by_material "Total PO Ordered Value");
     top_10_vendors_monthly :=
       renamed (reset_index (group_heads monthly "Month" 10))
               ("Month" :: vendor_keys ++ total_names);
     vendor_summary :=
       renamed (setitem summary "Delivery_Percentage"
                  (delivery_percentage (col summary "Total_Orders")
                     (col summary "Total_Delivered") (col summary "Total_Orders")))
               summary_names;
     delayed_pos :=
       projected
         (loc d (zip_with or_cell ((λ x, Bool (isna x)) <$> col d "GR Document Number")
                                  ((λ x, Bool (isna x)) <$> col d "IR Document Number")))
         (filter (λ c, c ∈ columns d) output_columns);
     quantity_errors :=
       loc d (zip_with gt_cell (col d "Delivery Quantity") (col d "Ordered Quantity"));
     overbilling_cases := loc (frame46 df) (col (frame46 df) "Overbilling_Flag");
     session_df := d;
     spend_trend := grouped d ["Month"] (same_name [ordered_value; invoice_value]);
     vendor_spend := grouped d ["Vendor Name"] (same_name [ordered_value; invoice_value]);
     entity_spend := grouped d ["Entity Name"] (same_name [ordered_value]);
     overbilling_df :=
       loc (frame50 df) ((λ x, gt_cell x (num 0)) <$> col (frame50 df) "Overbilling Amount")
  |}.
End block.

Section block_spec.
Context (parse_datetime : cell → option Z).
Context (parse_numeric : cell → option Qc).
Context (qs : Quicksort).

Ltac in_list := apply (bool_decide_unpack _); vm_compute; exact I.

Ltac frame_cols :=
  lazymatch goal with
  | |- _ ∈ columns (frame57 _ _ _ _) => apply elem_of_columns57
  | |- _ ∈ columns (frame50 _ _ _) => apply elem_of_columns50
  | |- _ ∈ columns (frame46 _ _ _) => apply elem_of_columns46
  | |- _ ∈ columns (frame43 _ _ _) => apply elem_of_columns43
  | |- _ ∈ columns (frame38 _ _) => apply elem_of_columns38
  | |- _ ∈ columns (frame37 _ _) => apply elem_of_columns37
  | |- _ ∈ columns (frame33 _ _) => apply elem_of_columns33
  | |- _ ∈ columns (frame32 _ _) => apply elem_of_columns32
  | |- _ ∈ columns (frame29 _ _) => apply elem_of_columns29
  | |- _ ∈ columns (frame26 _ _) => apply elem_of_columns26
  | |- _ ∈ columns (frame25 _ _) => apply elem_of_columns25
  end.

(** A column that is absent from a frame of the block is either one the
    block assigned before, which cannot be, or a column of the upload. *)
Ltac close_missing Hn :=
  first
    [ exfalso; apply Hn; frame_cols; left; in_list
    | eexists; split; [reflexivity|]; split; [in_list|];
      let Hc := fresh in
      intros Hc; apply Hn; first [ exact Hc | frame_cols; right; exact Hc ] ].

Ltac not_in_list H :=
  exfalso; revert H; apply (bool_decide_eq_false_1 _); vm_compute; reflexivity.

(** A column of the upload that some frame of the block has is a column
    of the upload. *)
Ltac from_frame H :=
  lazymatch type of H with
  | _ ∈ columns (frame57 _ _ _ _) => apply elem_of_columns57 in H as [H|H]
  | _ ∈ columns (frame38 _ _) => apply elem_of_columns38 in H as [H|H]
  | _ ∈ columns (frame25 _ _) => apply elem_of_columns25 in H as [H|H]
  end; [not_in_list H|exact H].

Ltac find_column df :=
  match goal with
  | H : _ ∈ columns df |- _ => exact H
  | H : _ ∈ columns (_ _ _) |- _ => from_frame H
  | H : _ ∈ columns (_ _ _ _) |- _ => from_frame H
  | H : _ ∈ columns (_ _ _ _ _) |- _ => from_frame H
  | H : ∀ c, c ∈ _ → c ∈ columns _ |- ?c ∈ columns _ =>
      let H' := fresh in
      assert (H' := H c ltac:(in_list)); from_frame H'
  end.

Ltac table_cols :=
  rewrite ?columns_head, ?columns_sorted_desc, ?columns_reset_index,
    ?columns_group_heads, ?columns_sorted_lex, ?columns_renamed, ?columns_grouped.

Ltac split_mem Hc :=
  vm_compute in Hc;
  repeat (apply elem_of_cons in Hc as [->|Hc]);
  try (by apply elem_of_nil in Hc).

Ltac step_getitem :=
  apply wp_bind, wp_getitem;
  [ intros ?; cbv beta
  | let Hn := fresh "Hn" in intros Hn;
    first [ close_missing Hn | exfalso; apply Hn; table_cols; in_list ] ].

Ltac close_each :=
  let c := fresh "c" in let Hc := fresh "Hc" in let Hn := fresh "Hn" in
  intros c Hc Hn; split_mem Hc;
  first [ close_missing Hn | exfalso; apply Hn; table_cols; in_list ].

Ltac step_groupby :=
  apply wp_bind, wp_groupby_sum; [ intros ?; cbv beta | close_each ].

Ltac close_one :=
  let Hn := fresh "Hn" in
  intros Hn; first [ close_missing Hn | exfalso; apply Hn; table_cols; in_list ].

Ltac step_set_columns :=
  apply wp_bind, wp_set_columns;
  [ rewrite ?columns_setitem; table_cols; vm_compute; reflexivity | cbv beta ].

Lemma process_spec (now : Z) (df : DataFrame) :
  wp (process parse_datetime parse_numeric qs now df)
     (λ t, t = tables_of parse_datetime parse_numeric qs now df
           ∧ ∀ c, c ∈ required_columns → c ∈ columns df)
     (missing_column df).
Proof.
  unfold process.
  (* 25 *) step_getitem. fold (frame25 parse_datetime df).
  (* 26 *) step_getitem. fold (frame26 parse_datetime df).
  (* 29 *) step_getitem. fold (frame29 parse_datetime df).
  (* 32 *) do 2 step_getitem. fold (frame32 parse_datetime df).
  (* 33 *) do 2 step_getitem. fold (frame33 parse_datetime df).
  (* 34 *) step_getitem.
  (* 37 *) do 2 step_getitem. fold (frame37 parse_datetime df).
  (* 38 *) step_getitem. fold (frame38 parse_datetime df).
  (* 43 *) apply wp_bind, wp_require; [intros ?; cbv beta|close_each].
  fold (frame43 parse_datetime parse_numeric df).
  (* 46 *) do 2 step_getitem. fold (frame46 parse_datetime parse_numeric df).
  (* 47 *) step_getitem.
  (* 50 *) do 2 step_getitem. fold (frame50 parse_datetime parse_numeric df).
  (* 53 *) step_getitem.
  (* 57 *) do 2 step_getitem. fold (frame57 parse_datetime parse_numeric now df).
  (* 60-66 *) step_groupby. step_set_columns.
  (* 69-75 *) step_groupby. step_set_columns.
  (* 78-84 *) step_groupby. step_set_columns.
  (* 87 *) apply wp_bind, wp_sort_values_desc; [intros ?; cbv beta|close_one].
  (* 90 *) apply wp_bind, wp_sort_values_desc; [intros ?; cbv beta|close_one].
  (* 93-97 *) step_groupby.
  (* 98 *) apply wp_bind, wp_sort_values_lex; [intros ?; cbv beta|close_each].
  (* 99 *) apply wp_bind, wp_groupby_head; [intros ?; cbv beta|close_one].
  (* 100 *) step_set_columns.
  (* 104-111 *) step_groupby.
  (* 112-116 *) do 3 step_getitem.
  (* 117-123 *) step_set_columns.
  (* 126 *) do 2 step_getitem.
  (* 132 *) apply wp_bind, wp_select; [intros _; cbv beta|].
  2: { intros c Hc Hn. apply list_elem_of_filter in Hc as [Hc _].
       rewrite columns_loc in Hn. destruct (Hn Hc). }
  (* 135 *) do 2 step_getitem.
  (* 138-148 *) do 3 step_groupby.
  split; [reflexivity|].
  intros c Hc. split_mem Hc; find_column df.
Qed.
End block_spec.

(** Decide a closed proposition by evaluating its decision procedure. *)
Ltac by_compute := apply (bool_decide_unpack _); vm_compute; exact I.

(** * Rounding *)

Lemma Qc_of_Z_this (z : Z) : this (Qc_of_Z z) = inject_Z z.
Proof. reflexivity. Qed.

Ltac qc2q :=
  unfold Qcdiv, Qcinv in *;
  unfold Qcle, Qclt, Qcminus, Qcplus, Qcmult, Qcopp, Q2Qc in *;
  cbn [this] in *; rewrite ?Qred_correct in *.

Lemma floor_bounds (x : Qc) : Qc_of_Z (Qfloor x) ≤ x ∧ x < Qc_of_Z (Qfloor x + 1).
Proof.
  split.
  - unfold Qcle. rewrite Qc_of_Z_this. apply Qfloor_le.
  - unfold Qclt. rewrite Qc_of_Z_this. apply Qlt_floor.
Qed.

(** [rint] is within one half of its argument. *)
Lemma rint_close (x : Qc) :
  x - Q2Qc (1 # 2) ≤ Qc_of_Z (rint x) ∧ Qc_of_Z (rint x) ≤ x + Q2Qc (1 # 2).
Proof.
  destruct (floor_bounds x) as [Hlo Hhi]. unfold rint.
  set (f := Qfloor x) in *.
  assert (this (Qc_of_Z (f + 1)) == inject_Z f + 1)%Q as Hf1.
  { rewrite Qc_of_Z_this, inject_Z_plus. reflexivity. }
  repeat case_decide; try destruct (Z.even f);
    qc2q; rewrite ?Qred_correct in *; rewrite ?Hf1 in *; rewrite ?Qc_of_Z_this in *;
    split; lra.
Qed.

(** [round2] gives a whole number of hundredths, within half a hundredth of
    its argument. *)
Lemma round2_close (x : Qc) :
  x - Q2Qc (1 # 200) ≤ round2 x ∧ round2 x ≤ x + Q2Qc (1 # 200).
Proof.
  destruct (rint_close (x * Qc_of_Z 100)) as [Hlo Hhi]. unfold round2.
  set (k := rint (x * Qc_of_Z 100)) in *. clearbody k.
  qc2q. rewrite ?Qred_correct in *. rewrite ?Qc_of_Z_this in *.
  change (/ inject_Z 100)%Q with (1 # 100)%Q.
  change (inject_Z 100) with (100 # 1)%Q in *.
  split; lra.
Qed.

Lemma round2_hundredths (x : Qc) : ∃ k : Z, round2 x = Qc_of_Z k / Qc_of_Z 100.
Proof. by exists (rint (x * Qc_of_Z 100)). Qed.

(** ** Reading a derived row *)

Lemma get_set_b c c' v r :
  get c (set c' v r) = if String.eqb c c' then v else get c r.
Proof.
  rewrite get_set. destruct (String.eqb_spec c c'); [by rewrite decide_True|by rewrite decide_False].
Qed.

Section row_steps.
Context (parse_datetime : cell → option Z).
Context (parse_numeric : cell → option Qc).

Local Abbreviation to_datetime := (to_datetime parse_datetime).
Local Abbreviation to_numeric := (to_numeric parse_numeric).

Lemma get_step25 c r :
  get c (step25 parse_datetime r)
  = if String.eqb c "Document Date" then to_datetime (get "Document Date" r) else get c r.
Proof. apply get_set_b. Qed.
Lemma get_step26 c r :
  get c (step26 parse_datetime r)
  = if String.eqb c "Delivery Date" then to_datetime (get "Delivery Date" r) else get c r.
Proof. apply get_set_b. Qed.
Lemma get_step29 c r :
  get c (step29 r)
  = if String.eqb c "Month" then astype_str (to_period_M (get "Document Date" r))
    else get c r.
Proof. apply get_set_b. Qed.
Lemma get_step32 c r :
  get c (step32 r)
  = if String.eqb c "Delivery_Date_Anomaly"
    then lt_cell (get "Delivery Date" r) (get "Document Date" r) else get c r.
Proof. apply get_set_b. Qed.
Lemma get_step33 c r :
  get c (step33 r)
  = if String.eqb c "Date_Difference"
    then dt_days (sub_cell (get "Delivery Date" r) (get "Document Date" r))
    else get c r.
Proof. apply get_set_b. Qed.
Lemma get_step37 c r :
  get c (step37 r)
  = if String.eqb c "Delivery Delay"
    then fillna (num (-1))
           (dt_days (sub_cell (get "Delivery Date" r) (get "Document Date" r)))
    else get c r.
Proof. apply get_set_b. Qed.
Lemma get_step38 c r :
  get c (step38 r)
  = if String.eqb c "Why PO Delay" then why_po_delay (get "Delivery Delay" r)
    else get c r.
Proof. apply get_set_b. Qed.
Lemma get_step43 c r :
  get c (step43 parse_numeric r)
  = if existsb (String.eqb c) numeric_cols then to_numeric (get c r) else get c r.
Proof.
  unfold step43. rewrite get_foldr_set.
  destruct (existsb (String.eqb c) numeric_cols) eqn:E.
  - apply existsb_exists in E as (x & Hx & ->%String.eqb_eq).
    by rewrite decide_True by by apply list_elem_of_In.
  - rewrite decide_False; [done|]. intros Hc%list_elem_of_In.
    assert (existsb (String.eqb c) numeric_cols = true) as E'
      by (apply existsb_exists; exists c; split; [done|apply String.eqb_refl]).
    congruence.
Qed.
Lemma get_step46 c r :
  get c (step46 r)
  = if String.eqb c "Overbilling_Flag"
    then gt_cell (get invoice_value r) (get ordered_value r) else get c r.
Proof. apply get_set_b. Qed.
Lemma get_step50 c r :
  get c (step50 r)
  = if String.eqb c "Overbilling Amount"
    then sub_cell (get invoice_value r) (get ordered_value r) else get c r.
Proof. apply get_set_b. Qed.
Lemma get_step57 now c r :
  get c (step57 now r)
  = if String.eqb c "On_Time"
    then or_cell (ge_cell (get "Delivery Date" r) (Ts now))
                 (eq_cell (get "Still to Deliver" r) (num 0))
    else get c r.
Proof. apply get_set_b. Qed.

End row_steps.

(** Peel the assignments of a derived row off a [get], outermost first,
    deciding each comparison of column names by computation. *)
Ltac peel :=
  unfold derive, derive50, derive46;
  repeat
    (first [ rewrite get_step57 | rewrite get_step50 | rewrite get_step46
           | rewrite get_step43 | rewrite get_step38 | rewrite get_step37
           | rewrite get_step33 | rewrite get_step32 | rewrite get_step29
           | rewrite get_step26 | rewrite get_step25 ];
     cbn [String.eqb Ascii.eqb Bool.eqb existsb orb andb numeric_cols
          ordered_value invoice_value down_payment]).

Section block_results.
Context (parse_datetime : cell → option Z).
Context (parse_numeric : cell → option Qc).
Context (qs : Quicksort).

Local Abbreviation process := (process parse_datetime parse_numeric qs).
Local Abbreviation tables_of := (tables_of parse_datetime parse_numeric qs).
Local Abbreviation derive := (derive parse_datetime parse_numeric).
Local Abbreviation derive50 := (derive50 parse_datetime parse_numeric).
Local Abbreviation derive46 := (derive46 parse_datetime parse_numeric).
Local Abbreviation to_datetime := (to_datetime parse_datetime).
Local Abbreviation to_numeric := (to_numeric parse_numeric).
Local Abbreviation frame46 := (frame46 parse_datetime parse_numeric).
Local Abbreviation frame50 := (frame50 parse_datetime parse_numeric).
Local Abbreviation frame57 := (frame57 parse_datetime parse_numeric).

Lemma process_Ok_inv (now : Z) (df : DataFrame) (t : Tables) :
  process now df = Ok t →
  t = tables_of now df ∧ ∀ c, c ∈ required_columns → c ∈ columns df.
Proof. intros H. pose proof (process_spec parse_datetime parse_numeric qs now df) as Hs.
  by rewrite H in Hs. Qed.

Lemma process_Raise_inv (now : Z) (df : DataFrame) (e : exn) :
  process now df = Raise e → missing_column df e.
Proof. intros H. pose proof (process_spec parse_datetime parse_numeric qs now df) as Hs.
  by rewrite H in Hs. Qed.

Lemma process_Ok (now : Z) (df : DataFrame) :
  (∀ c, c ∈ required_columns → c ∈ columns df) →
  process now df = Ok (tables_of now df).
Proof.
  intros Hall. destruct (process now df) as [t|e] eqn:E.
  - apply process_Ok_inv in E as [-> _]. done.
  - apply process_Raise_inv in E as (c & _ & Hc & Hn). destruct Hn. by apply Hall.
Qed.

Lemma derived_document_date now r :
  get "Document Date" (derive now r) = to_datetime (get "Document Date" r).
Proof. by peel. Qed.

Lemma derived_delivery_date now r :
  get "Delivery Date" (derive now r) = to_datetime (get "Delivery Date" r).
Proof. by peel. Qed.

Lemma derived_delay now r :
  get "Delivery Delay" (derive now r)
  = fillna (num (-1))
      (dt_days (sub_cell (get "Delivery Date" (derive now r))
                         (get "Document Date" (derive now r)))).
Proof. by peel. Qed.

Lemma derived_month now r :
  get "Month" (derive now r) = astype_str (to_period_M (get "Document Date" (derive now r))).
Proof. by peel. Qed.

Lemma derived_invoice now r :
  get invoice_value (derive now r) = to_numeric (get invoice_value r).
Proof. by peel. Qed.

Lemma derived_ordered now r :
  get ordered_value (derive now r) = to_numeric (get ordered_value r).
Proof. by peel. Qed.

Lemma derived_down_payment now r :
  get down_payment (derive now r) = to_numeric (get down_payment r).
Proof. by peel. Qed.

Lemma derived_still now r :
  get "Still to Deliver" (derive now r) = to_numeric (get "Still to Deliver" r).
Proof. by peel. Qed.

Lemma derived_amount now r :
  get "Overbilling Amount" (derive now r)
  = sub_cell (get invoice_value (derive now r)) (get ordered_value (derive now r)).
Proof. by peel. Qed.

Lemma derived_on_time now r :
  get "On_Time" (derive now r)
  = or_cell (ge_cell (get "Delivery Date" (derive now r)) (Ts now))
            (eq_cell (get "Still to Deliver" (derive now r)) (num 0)).
Proof. by peel. Qed.

Lemma derived46_flag r :
  get "Overbilling_Flag" (derive46 r)
  = gt_cell (to_numeric (get invoice_value r)) (to_numeric (get ordered_value r)).
Proof. by peel. Qed.

Lemma derived50_amount r :
  get "Overbilling Amount" (derive50 r)
  = sub_cell (to_numeric (get invoice_value r)) (to_numeric (get ordered_value r)).
Proof. by peel. Qed.

Lemma to_datetime_cases (c : cell) : to_datetime c = NA ∨ ∃ t, to_datetime c = Ts t.
Proof. destruct c; simpl; eauto; destruct (parse_datetime _); simpl; eauto. Qed.

Lemma to_numeric_cases (c : cell) : to_numeric c = NA ∨ ∃ q, to_numeric c = Num q.
Proof. destruct c; simpl; eauto; destruct (parse_numeric _); simpl; eauto. Qed.

(** *** The stored frames, row by row *)

Lemma rows_session_df now df :
  rows (session_df (tables_of now df)) = derive now <$> rows df.
Proof. unfold tables_of. cbn [session_df]. apply rows_frame57. Qed.

Lemma rows_overbilling_cases now df :
  rows (overbilling_cases (tables_of now df))
  = filter (λ r, is_true_cell (get "Overbilling_Flag" r)) (derive46 <$> rows df).
Proof.
  unfold tables_of. cbn [overbilling_cases]. unfold col.
  by rewrite rows_loc, rows_frame46.
Qed.

Lemma rows_overbilling_df now df :
  rows (overbilling_df (tables_of now df))
  = filter (λ r, is_true_cell (gt_cell (get "Overbilling Amount" r) (num 0)))
           (derive50 <$> rows df).
Proof.
  unfold tables_of. cbn [overbilling_df]. unfold col.
  rewrite <- list_fmap_compose.
  by rewrite (rows_loc _ (λ r, gt_cell (get "Overbilling Amount" r) (num 0))), rows_frame50.
Qed.

Lemma session_row (now : Z) (df : DataFrame) (t : Tables) (i : nat) (r : Row) :
  process now df = Ok t → rows (session_df t) !! i = Some r →
  ∃ r0, rows df !! i = Some r0 ∧ r = derive now r0.
Proof.
  intros [-> _]%process_Ok_inv. rewrite rows_session_df, list_lookup_fmap.
  destruct (rows df !! i) as [r0|]; [|discriminate].
  intros [= <-]. eauto.
Qed.
End block_results.

(** * Grouped sums *)

Lemma filter_ext_in {A : Type} (P Q : A → Prop)
    `{!∀ x, Decision (P x), !∀ x, Decision (Q x)} (l : list A) :
  (∀ x, x ∈ l → P x ↔ Q x) → filter P l = filter Q l.
Proof.
  induction l as [|x l IH]; intros Hext; [done|].
  rewrite !filter_cons.
  assert (P x ↔ Q x) as Hx by (apply Hext; left).
  rewrite IH by (intros y ?; apply Hext; by right).
  destruct (decide (P x)), (decide (Q x)); tauto.
Qed.

Lemma get_list_to_map (l : nat) (kvs : list (string * cell)) (c : string) (v : cell) :
  NoDup kvs.*1 → (c, v) ∈ kvs → get c (mkRow l (list_to_map kvs)) = v.
Proof.
  intros Hnd Hin. unfold get; simpl. apply lookup_total_correct.
  by apply elem_of_list_to_map_1.
Qed.

(** A renamed row has under each new name the cell of the old name at the
    same position. *)
Lemma get_rename_row (old new : list string) (r : Row) (j : nat) (c c' : string) :
  NoDup new → length old = length new →
  new !! j = Some c' → old !! j = Some c →
  get c' (rename_row old new r) = get c r.
Proof.
  intros Hnd Hlen Hn Ho. unfold rename_row. apply get_list_to_map.
  - rewrite fst_zip; [done|]. rewrite length_fmap. lia.
  - refine (elem_of_lookup_zip_with_2 pair _ _ _ _ (c', get c r) j Hn _).
    by rewrite list_lookup_fmap, Ho.
Qed.

Lemma rows_renamed (df : DataFrame) (names : list string) :
  rows (renamed df names) = rename_row (columns df) names <$> rows df.
Proof. done. Qed.

Lemma label_rename_row (old new : list string) (r : Row) :
  label (rename_row old new r) = label r.
Proof. done. Qed.

Lemma key_of_length (keys : list string) (r : Row) : length (key_of keys r) = length keys.
Proof. unfold key_of. by rewrite length_fmap. Qed.

Lemma elem_of_group_keys (keys : list string) (rs : list Row) (k : list cell) :
  k ∈ group_keys keys rs ↔ complete_key k ∧ ∃ r, r ∈ rs ∧ key_of keys r = k.
Proof.
  unfold group_keys. rewrite merge_sort_Permutation, elem_of_remove_dups.
  rewrite list_elem_of_filter, list_elem_of_fmap.
  split; intros [Hc (r & H1 & H2)]; split; eauto.
Qed.

Lemma NoDup_group_keys (keys : list string) (rs : list Row) : NoDup (group_keys keys rs).
Proof. unfold group_keys. rewrite merge_sort_Permutation. apply NoDup_remove_dups. Qed.

(** The sum column [out] of the output row of group [k]. *)
Lemma get_group_row_agg keys aggs rs i k out src :
  length k = length keys → out ∉ keys → NoDup aggs.*1 → (out, src) ∈ aggs →
  get out (group_row keys aggs rs i k) = Num (agg_sum src (group_rows keys rs k)).
Proof.
  intros Hlen Hout Hnd Hin. unfold group_row, get; simpl.
  apply lookup_total_correct. rewrite list_to_map_app.
  rewrite lookup_union_r.
  - apply elem_of_list_to_map_1.
    + rewrite <- list_fmap_compose.
      by replace (fst ∘ _) with (@fst string string) by done.
    + apply list_elem_of_fmap. by exists (out, src).
  - apply not_elem_of_list_to_map_1. rewrite fst_zip by lia. done.
Qed.

(** The key column number [j] of the output row of group [k]. *)
Lemma get_group_row_key keys aggs rs i k j c v :
  length k = length keys → NoDup keys → keys !! j = Some c → k !! j = Some v →
  get c (group_row keys aggs rs i k) = v.
Proof.
  intros Hlen Hnd Hc Hv. unfold group_row, get; simpl.
  apply lookup_total_correct. rewrite list_to_map_app.
  apply lookup_union_Some_l. apply elem_of_list_to_map_1.
  - rewrite fst_zip by lia. done.
  - exact (elem_of_lookup_zip_with_2 pair _ _ _ _ (c, v) j Hc Hv).
Qed.

Lemma sum_q_app (l1 l2 : list Qc) : sum_q (l1 ++ l2) = sum_q l1 + sum_q l2.
Proof. induction l1 as [|x l1 IH]; simpl; [ring|]. rewrite IH. ring. Qed.

Lemma sum_q_zero {A : Type} (l : list A) : sum_q ((λ _, 0) <$> l) = 0.
Proof. induction l as [|x l IH]; csimpl; [done|]. rewrite IH. ring. Qed.

Lemma sum_q_plus {A : Type} (f g : A → Qc) (l : list A) :
  sum_q ((λ x, f x + g x) <$> l) = sum_q (f <$> l) + sum_q (g <$> l).
Proof. induction l as [|x l IH]; csimpl; [ring|]. rewrite IH. ring. Qed.

(** A value counted under the one group it belongs to, summed over distinct
    groups, is counted once if its group is listed and not at all otherwise. *)
Lemma sum_q_indicator {K : Type} `{EqDecision K} (ks : list K) (k0 : K) (v : Qc) :
  NoDup ks →
  sum_q ((λ k, if decide (k0 = k) then v else 0) <$> ks)
  = if decide (k0 ∈ ks) then v else 0.
Proof.
  induction 1 as [|k ks Hk Hnd IH]; csimpl.
  - destruct (decide (k0 ∈ [])) as [E|E]; [by apply not_elem_of_nil in E|done].
  - rewrite IH. destruct (decide (k0 = k)) as [->|Hne].
    + rewrite (decide_False (P := k ∈ ks)) by done.
      rewrite (decide_True (P := k ∈ k :: ks)) by left. ring.
    + destruct (decide (k0 ∈ ks)) as [Hin|Hin].
      * rewrite (decide_True (P := k0 ∈ k :: ks)) by by right. ring.
      * rewrite (decide_False (P := k0 ∈ k :: ks)); [ring|].
        rewrite elem_of_cons. tauto.
Qed.

(** Conservation: the sums of the groups add up to the sum over the rows
    whose key is one of the groups. *)
Lemma sum_q_groups {K : Type} `{EqDecision K} (key : Row → K) (f : Row → Qc)
    (ks : list K) (rs : list Row) :
  NoDup ks →
  sum_q ((λ k, sum_q (f <$> filter (λ r, key r = k) rs)) <$> ks)
  = sum_q (f <$> filter (λ r, key r ∈ ks) rs).
Proof.
  intros Hnd. induction rs as [|r rs IH]; csimpl.
  - apply sum_q_zero.
  - rewrite (filter_cons (λ r, key r ∈ ks)).
    transitivity (sum_q ((λ k, (if decide (key r = k) then f r else 0)
                               + sum_q (f <$> filter (λ r, key r = k) rs)) <$> ks)).
    { f_equal. apply list_fmap_ext. intros _ k _.
      rewrite filter_cons. destruct (decide (key r = k)); csimpl; ring. }
    rewrite sum_q_plus, IH, sum_q_indicator by done.
    destruct (decide (key r ∈ ks)); csimpl; ring.
Qed.

Lemma imap_as_fmap {A B : Type} (h : nat → A → B) (g : A → B) (l : list A) :
  (∀ i x, l !! i = Some x → h i x = g x) → imap h l = g <$> l.
Proof. intros H. rewrite <- imap_const. by apply imap_ext. Qed.

Lemma grouped_rows_sum (df : DataFrame) keys aggs out src :
  out ∉ keys → NoDup aggs.*1 → (out, src) ∈ aggs →
  sum_q ((λ r, num0 (get out r)) <$> rows (grouped df keys aggs))
  = sum_q ((λ r, num0 (get src r))
             <$> filter (λ r, complete_key (key_of keys r)) (rows df)).
Proof.
  intros Hout Hnd Hin. unfold grouped; cbn [rows].
  rewrite fmap_imap.
  rewrite (imap_as_fmap _ (λ k, agg_sum src (group_rows keys (rows df) k))).
  2:{ intros i k Hk. apply list_elem_of_lookup_2 in Hk.
      apply elem_of_group_keys in Hk as (_ & r & _ & <-). simpl.
      rewrite (get_group_row_agg _ _ _ _ _ out src); [done| |done..].
      apply key_of_length. }
  unfold agg_sum, group_rows.
  rewrite (sum_q_groups (key_of keys) (λ r, num0 (get src r))) by apply NoDup_group_keys.
  f_equal. f_equal. apply filter_ext_in.
  intros r Hr. rewrite elem_of_group_keys. naive_solver.
Qed.

(** * The order of cells and of rows *)

Lemma ascii_compare_refl (a : Ascii.ascii) : Ascii.compare a a = Eq.
Proof. unfold Ascii.compare. apply N.compare_refl. Qed.

Lemma ascii_compare_lt_trans (a b c : Ascii.ascii) :
  Ascii.compare a b = Lt → Ascii.compare b c = Lt → Ascii.compare a c = Lt.
Proof. unfold Ascii.compare. rewrite !N.compare_lt_iff. lia. Qed.

Lemma string_compare_refl (s : string) : String.compare s s = Eq.
Proof. induction s as [|a s IH]; simpl; [done|]. by rewrite ascii_compare_refl. Qed.

Lemma string_compare_lt_trans (s1 s2 s3 : string) :
  String.compare s1 s2 = Lt → String.compare s2 s3 = Lt → String.compare s1 s3 = Lt.
Proof.
  revert s2 s3. induction s1 as [|a s1 IH]; intros [|b s2] [|c s3]; simpl; try done.
  destruct (Ascii.compare a b) eqn:Eab; try done;
    destruct (Ascii.compare b c) eqn:Ebc; try done.
  - apply Ascii.compare_eq_iff in Eab, Ebc. subst. rewrite ascii_compare_refl. apply IH.
  - apply Ascii.compare_eq_iff in Eab. subst. by rewrite Ebc.
  - apply Ascii.compare_eq_iff in Ebc. subst. by rewrite Eab.
  - by rewrite (ascii_compare_lt_trans _ _ _ Eab Ebc).
Qed.

Lemma Qc_compare_refl (q : Qc) : (q ?= q) = Eq.
Proof. by apply Qceq_alt. Qed.

Lemma Qc_compare_antisym (p q : Qc) : (p ?= q) = CompOpp (q ?= p).
Proof. unfold Qccompare. by rewrite <- Qcompare_antisym. Qed.

Lemma Qc_compare_lt_trans (p q r : Qc) : (p ?= q) = Lt → (q ?= r) = Lt → (p ?= r) = Lt.
Proof. rewrite <- !Qclt_alt. apply Qclt_trans. Qed.

Lemma Z_compare_lt_trans (x y z : Z) : (x ?= y)%Z = Lt → (y ?= z)%Z = Lt → (x ?= z)%Z = Lt.
Proof. rewrite !Z.compare_lt_iff. lia. Qed.

Lemma cell_cmp_refl (a : cell) : cell_cmp a a = Eq.
Proof.
  destruct a as [|q|s|t|d|m|[]]; simpl;
    auto using Qc_compare_refl, string_compare_refl, Z.compare_refl.
Qed.

Lemma cell_cmp_eq (a b : cell) : cell_cmp a b = Eq → a = b.
Proof.
  destruct a as [|q|s|t|d|m|[]], b as [|q'|s'|t'|d'|m'|[]]; simpl; try done.
  - by intros ->%Qceq_alt.
  - by intros ->%String.compare_eq_iff.
  - by intros ->%Z.compare_eq.
  - by intros ->%Z.compare_eq.
  - by intros ->%Z.compare_eq.
Qed.

Lemma cell_cmp_antisym (a b : cell) : cell_cmp a b = CompOpp (cell_cmp b a).
Proof.
  destruct a as [|q|s|t|d|m|[]], b as [|q'|s'|t'|d'|m'|[]]; simpl; try done;
    auto using Qc_compare_antisym, String.compare_antisym, Z.compare_antisym.
Qed.

Lemma cell_cmp_lt_trans (a b c : cell) :
  cell_cmp a b = Lt → cell_cmp b c = Lt → cell_cmp a c = Lt.
Proof.
  destruct a as [|q|s|t|d|m|[]], b as [|q'|s'|t'|d'|m'|[]], c as [|q''|s''|t''|d''|m''|[]];
    simpl; try done;
    eauto using Qc_compare_lt_trans, string_compare_lt_trans, Z_compare_lt_trans.
Qed.

(** A comparison function that is a total order up to its own notion of
    equality. *)
Record lawful {A : Type} (cmp : A → A → comparison) : Prop := {
  lawful_refl x : cmp x x = Eq;
  lawful_antisym x y : cmp x y = CompOpp (cmp y x);
  lawful_lt_trans x y z : cmp x y = Lt → cmp y z = Lt → cmp x z = Lt;
  lawful_eq_l x y z : cmp x y = Eq → cmp x z = cmp y z
}.

Lemma lawful_eq_r {A : Type} (cmp : A → A → comparison) (x y z : A) :
  lawful cmp → cmp x y = Eq → cmp z x = cmp z y.
Proof.
  intros L H. rewrite (lawful_antisym cmp L z x), (lawful_antisym cmp L z y).
  f_equal. by apply lawful_eq_l.
Qed.

Lemma lawful_total {A : Type} (cmp : A → A → comparison) (x y : A) :
  lawful cmp → not_gt (cmp x y) = false → not_gt (cmp y x) = true.
Proof. intros L. rewrite (lawful_antisym cmp L y x). by destruct (cmp x y). Qed.

Lemma lawful_trans {A : Type} (cmp : A → A → comparison) (x y z : A) :
  lawful cmp → not_gt (cmp x y) = true → not_gt (cmp y z) = true →
  not_gt (cmp x z) = true.
Proof.
  intros L Hxy Hyz.
  destruct (cmp x y) eqn:Exy; try done.
  - by rewrite (lawful_eq_l cmp L x y z Exy).
  - destruct (cmp y z) eqn:Eyz; try done.
    + by rewrite <- (lawful_eq_r cmp y z x L Eyz), Exy.
    + by rewrite (lawful_lt_trans cmp L x y z Exy Eyz).
Qed.

Lemma order_cell_lawful (asc : bool) : lawful (order_cell asc).
Proof.
  split.
  - intros x. unfold order_cell. destruct x, asc; try done; apply cell_cmp_refl.
  - intros x y. unfold order_cell.
    destruct x, y, asc; try done; apply cell_cmp_antisym.
  - intros x y z. unfold order_cell.
    destruct asc.
    + destruct x, y, z; try done; apply cell_cmp_lt_trans.
    + destruct x, y, z; try done;
        intros H1 H2; exact (cell_cmp_lt_trans _ _ _ H2 H1).
  - intros x y z. unfold order_cell. intros Hxy.
    assert (x = y) as ->; [|done].
    destruct x, y; try done; destruct asc;
      first [ by apply cell_cmp_eq | symmetry; by apply cell_cmp_eq ].
Qed.

Lemma by_cmp_lawful (by_ : list (string * bool)) : lawful (by_cmp by_).
Proof.
  induction by_ as [|[c asc] by_ IH]; [by split|].
  pose proof (order_cell_lawful asc) as L.
  split; simpl.
  - intros x. by rewrite (lawful_refl _ L), (lawful_refl _ IH).
  - intros x y. rewrite (lawful_antisym _ L (get c x) (get c y)).
    destruct (order_cell asc (get c y) (get c x)); simpl; [|done..].
    apply (lawful_antisym _ IH).
  - intros x y z.
    destruct (order_cell asc (get c x) (get c y)) eqn:Exy; try done.
    + rewrite (lawful_eq_l _ L _ _ (get c z) Exy).
      destruct (order_cell asc (get c y) (get c z)); try done.
      apply (lawful_lt_trans _ IH).
    + intros _.
      destruct (order_cell asc (get c y) (get c z)) eqn:Eyz; try done.
      * by rewrite <- (lawful_eq_r _ _ _ (get c x) L Eyz), Exy.
      * by rewrite (lawful_lt_trans _ L _ _ _ Exy Eyz).
  - intros x y z.
    destruct (order_cell asc (get c x) (get c y)) eqn:Exy; try done.
    intros Hrest. rewrite (lawful_eq_l _ L _ _ (get c z) Exy).
    destruct (order_cell asc (get c y) (get c z)); try done.
    by apply (lawful_eq_l _ IH).
Qed.

Lemma by_leb_total by_ (x y : Row) : by_leb by_ x y = false → by_leb by_ y x = true.
Proof. apply lawful_total, by_cmp_lawful. Qed.

Lemma by_leb_trans by_ (x y z : Row) :
  by_leb by_ x y = true → by_leb by_ y z = true → by_leb by_ x z = true.
Proof. apply lawful_trans, by_cmp_lawful. Qed.

(** * Stability of the sort, and the heads of groups *)

Section stable_sort_more.
Context {A : Type} (leb : A → A → bool).
Hypothesis leb_total : ∀ x y, leb x y = false → leb y x = true.
Hypothesis leb_trans : ∀ x y z, leb x y = true → leb y z = true → leb x z = true.

Lemma stable_sort_strongly_sorted (l : list A) :
  StronglySorted (λ a b, leb a b = true) (stable_sort leb l).
Proof.
  apply Sorted_StronglySorted.
  - intros x y z. apply leb_trans.
  - by apply stable_sort_sorted.
Qed.

(** Inserting into a sorted list commutes with selecting. *)
Lemma filter_insert_sorted (P : A → Prop) `{!∀ x, Decision (P x)} (x : A) (l : list A) :
  StronglySorted (λ a b, leb a b = true) l →
  filter P (insert_sorted leb x l)
  = if decide (P x) then insert_sorted leb x (filter P l) else filter P l.
Proof.
  induction 1 as [|y l Hs IH Hall]; simpl.
  - rewrite filter_cons, filter_nil. by destruct (decide (P x)).
  - destruct (leb x y) eqn:Exy.
    + rewrite (filter_cons _ x). destruct (decide (P x)) as [HP|HP]; [|done].
      assert (Forall (λ z, leb x z = true) (filter P (y :: l))) as Hle.
      { apply Forall_forall. intros z [_ Hz]%list_elem_of_filter.
        apply elem_of_cons in Hz as [->|Hz]; [done|].
        apply leb_trans with y; [done|]. by eapply Forall_forall in Hall. }
      destruct (filter P (y :: l)) as [|z l']; simpl; [done|].
      by rewrite (Forall_inv Hle).
    + rewrite (filter_cons _ y), IH, (filter_cons _ y).
      destruct (decide (P x)), (decide (P y)); simpl; try done.
      by rewrite Exy.
Qed.

(** A stable sort commutes with selecting: the selected elements come out
    in the order the sort would give them alone. *)
Lemma filter_stable_sort (P : A → Prop) `{!∀ x, Decision (P x)} (l : list A) :
  filter P (stable_sort leb l) = stable_sort leb (filter P l).
Proof.
  induction l as [|x l IH]; simpl; [done|].
  rewrite filter_insert_sorted by apply stable_sort_strongly_sorted.
  rewrite filter_cons, IH. by destruct (decide (P x)).
Qed.
End stable_sort_more.

Lemma insert_sorted_ext {A : Type} (leb1 leb2 : A → A → bool) (x : A) (l : list A) :
  (∀ y, y ∈ l → leb1 x y = leb2 x y) →
  insert_sorted leb1 x l = insert_sorted leb2 x l.
Proof.
  induction l as [|y l IH]; intros Hext; simpl; [done|].
  rewrite (Hext y) by left. rewrite IH; [done|]. intros z ?. apply Hext. by right.
Qed.

Lemma stable_sort_ext {A : Type} (leb1 leb2 : A → A → bool) (l : list A) :
  (∀ x y, x ∈ l → y ∈ l → leb1 x y = leb2 x y) →
  stable_sort leb1 l = stable_sort leb2 l.
Proof.
  induction l as [|x l IH]; intros Hext; simpl; [done|].
  rewrite IH by (intros y z ? ?; apply Hext; by right).
  apply insert_sorted_ext. intros y Hy. apply Hext; [left|right].
  by rewrite <- (stable_sort_perm leb2 l).
Qed.

(** Elements none of which is greater than another stay as they are. *)
Lemma stable_sort_id {A : Type} (leb : A → A → bool) (l : list A) :
  (∀ x y, x ∈ l → y ∈ l → leb x y = true) → stable_sort leb l = l.
Proof.
  induction l as [|x l IH]; intros Hle; simpl; [done|].
  rewrite IH by (intros y z ? ?; apply Hle; by right).
  destruct l as [|y l]; simpl; [done|].
  rewrite Hle; [done|left|right; left].
Qed.

(** [groupby(c).head(n)], one group at a time. *)
Lemma filter_group_head_rows (n : nat) (c : string) (p : cell) (seen : list cell)
    (rs : list Row) :
  p ≠ NA →
  filter (λ r, get c r = p) (group_head_rows n c seen rs)
  = take (n - length (filter (λ k, k = p) seen)) (filter (λ r, get c r = p) rs).
Proof.
  intros Hp. revert seen. induction rs as [|r rs IH]; intros seen; simpl.
  - rewrite !filter_nil. by rewrite take_nil.
  - rewrite (filter_cons _ r rs).
    destruct (isna (get c r)) eqn:Ena.
    { rewrite IH. destruct (decide (get c r = p)) as [E|E]; [|done].
      rewrite E in Ena. by destruct p. }
    destruct (decide (length (filter (λ k', k' = get c r) seen) < n)%nat) as [Hlt|Hge].
    + rewrite filter_cons, IH, filter_cons.
      destruct (decide (get c r = p)) as [E|E]; [|done].
      rewrite E in Hlt. cbn [length].
      destruct (n - length (filter (λ k, k = p) seen))%nat as [|m] eqn:Em; [lia|].
      cbn [take]. do 2 f_equal. lia.
    + rewrite IH, filter_cons.
      destruct (decide (get c r = p)) as [E|E]; [|done].
      rewrite E in Hge. cbn [length].
      replace (n - length (filter (λ k, k = p) seen))%nat with 0%nat by lia.
      by replace (n - S (length (filter (λ k, k = p) seen)))%nat with 0%nat by lia.
Qed.

(** * Sample uploads *)

(** Parsers that recognise nothing: every cell that is not already a
    timestamp (a number) is coerced to a missing value. *)
Definition no_dates : cell → option Z := λ _, None.
Definition no_numbers : cell → option Qc := λ _, None.

Definition all_columns : list string :=
  ["Vendor Name"; "Vendor Number"; "Entity Name"; "IT/NON-IT"; "Material Description";
   "Service Area"; "Purchasing Document Number"; "Document Date"; "Delivery Date";
   "Ordered Quantity"; "Delivery Quantity"; "Still to Deliver"; ordered_value;
   invoice_value; down_payment; "GR Document Number"; "IR Document Number"].

(** Midnight of day [n] after the epoch. *)
Definition day (n : Z) : cell := Ts (n * ns_per_day).

(** One purchase-order line of vendor [v]: document and delivery date,
    still-to-deliver quantity, ordered and invoiced value. *)
Definition po_line (v : string) (doc del still ordered invoiced : cell) : list cell :=
  [Str v; num 7; Str "E1"; Str "IT"; Str "Laptop"; Str "Hardware"; num 4500000001;
   doc; del; num 10; num 10; still; ordered; invoiced; num 0; num 5000000001; NA].

(** 2024-03-15 is day 19797. *)
Definition sheet_late : Sheet :=
  {| header := all_columns;
     body := [po_line "A" (day 19797) (day 19796) (num 1) (num 500) (num 500)] |}.

Abbreviation run now f :=
  (process no_dates no_numbers stable_quicksort now (read_excel f)).

(** Two lines of vendor A dated 2024-03-15 and one line of vendor B without
    a document date. *)
Definition sheet_undated : Sheet :=
  {| header := all_columns;
     body := [po_line "A" (day 19797) (day 19800) (num 0) (num 1000) (num 1200);
              po_line "A" (day 19797) (day 19800) (num 0) (num 500) (num 500);
              po_line "B" NA (day 19800) (num 0) (num 300) (num 250)] |}.

(** One line without an invoiced value. *)
Definition sheet_null_invoice : Sheet :=
  {| header := all_columns;
     body := [po_line "A" (day 19797) (day 19800) (num 0) (num 500) NA] |}.

(** One line to be delivered at midnight of day 19797, one unit still open. *)
Definition sheet_due : Sheet :=
  {| header := all_columns;
     body := [po_line "A" (day 19790) (day 19797) (num 1) (num 500) (num 500)] |}.

(** One line with 12 units delivered against 10 ordered, due on day 19797. *)
Definition sheet_over_delivered : Sheet :=
  {| header := all_columns;
     body := [[Str "A"; num 7; Str "E1"; Str "IT"; Str "Laptop"; Str "Hardware";
               num 4500000001; day 19790; day 19797; num 10; num 12; num 1;
               num 500; num 500; num 0; num 5000000001; NA]] |}.

(** The first sample without its "Purchasing Document Number" column, and
    without its "Service Area" column. *)
Definition sheet_no_po_number : Sheet :=
  {| header := delete 6%nat all_columns;
     body := delete 6%nat <$> body sheet_late |}.

Definition sheet_no_service_area : Sheet :=
  {| header := delete 5%nat all_columns;
     body := delete 5%nat <$> body sheet_late |}.

Section claims.
Context (parse_datetime : cell → option Z).
Context (parse_numeric : cell → option Qc).
Context (qs : Quicksort).

Local Abbreviation process := (process parse_datetime parse_numeric qs).
Local Abbreviation tables_of := (tables_of parse_datetime parse_numeric qs).
Local Abbreviation derive := (derive parse_datetime parse_numeric).
Local Abbreviation to_datetime := (to_datetime parse_datetime).
Local Abbreviation to_numeric := (to_numeric parse_numeric).

(** C4 (amended).  In every stored record the two dates are timestamps or
    missing.  The delivery delay is the number of whole days from document
    date to delivery date, rounded towards minus infinity, when both dates
    are present, and -1 when either is missing.  Hence it is -1 exactly
    when a date is missing or the delivery falls on the day before the
    document date. *)
Theorem delivery_delay_days (now : Z) (df : DataFrame) (t : Tables) (i : nat) (r : Row) :
  process now df = Ok t →
  rows (session_df t) !! i = Some r →
  let del := get "Delivery Date" r in
  let doc := get "Document Date" r in
  let delay := get "Delivery Delay" r in
  (del = NA ∨ ∃ t1, del = Ts t1) ∧
  (doc = NA ∨ ∃ t0, doc = Ts t0) ∧
  (del = NA ∨ doc = NA → delay = num (-1)) ∧
  (∀ t1 t0, del = Ts t1 → doc = Ts t0 → delay = num ((t1 - t0) / ns_per_day)) ∧
  (∀ d1 d0, del = day d1 → doc = day d0 → delay = num (d1 - d0)) ∧
  (delay = num (-1) ↔
     del = NA ∨ doc = NA ∨
     ∃ t1 t0, del = Ts t1 ∧ doc = Ts t0 ∧ ((t1 - t0) / ns_per_day = -1)%Z).
Proof.
  intros Hp Hr. destruct (session_row _ _ _ _ _ _ _ _ Hp Hr) as (r0 & _ & ->).
  cbv zeta. rewrite derived_delay, derived_delivery_date, derived_document_date.
  assert (∀ z, num z = num (-1) → z = (-1)%Z) as Hinj.
  { intros z [= Hz]. exact Hz. }
  destruct (to_datetime_cases parse_datetime (get "Delivery Date" r0)) as [Hd|[t1 Hd]];
    destruct (to_datetime_cases parse_datetime (get "Document Date" r0)) as [Hc|[t0 Hc]];
    rewrite Hd, Hc; cbn [sub_cell dt_days]; unfold num in *; cbn [fillna].
  - split_and!; eauto; try done. split; auto.
  - split_and!; eauto; try done. split; auto.
  - split_and!; eauto; try done. split; auto.
  - split_and!; eauto.
    + intros [?|?]; done.
    + by intros ? ? [= <-] [= <-].
    + intros d1 d0 [= ->] [= ->]. do 2 f_equal.
      rewrite <- Z.mul_sub_distr_r. by apply Z.div_mul.
    + split.
      * intros Hz%Hinj. right. right. eauto 6.
      * intros [?|[?|(? & ? & [= <-] & [= <-] & ->)]]; done.
Qed.
End claims.

(** A row without one column. *)
Definition drop_column (c : string) (r : Row) : Row :=
  mkRow (label r) (delete c (cells r)).

(** The records whose overbilling amount is zero.  The script builds no such
    table; the set is the third part of the partition the specification
    speaks of. *)
Definition exact_matches (t : Tables) : result DataFrame :=
  s ← getitem (session_df t) "Overbilling Amount";
  mret (loc (session_df t) ((λ x, eq_cell x (num 0)) <$> s)).

Lemma fmap_filter_ext {A B C : Type} (P : B → Prop) (Q : C → Prop)
    `{∀ x, Decision (P x)} `{∀ x, Decision (Q x)}
    (f : A → B) (g : A → C) {D : Type} (h : B → D) (h' : C → D) (l : list A) :
  (∀ x, P (f x) ↔ Q (g x)) → (∀ x, h (f x) = h' (g x)) →
  h <$> filter P (f <$> l) = h' <$> filter Q (g <$> l).
Proof.
  intros HPQ Hh. induction l as [|x l IH]; csimpl; [done|].
  rewrite !filter_cons.
  destruct (decide (P (f x))) as [HP|HP], (decide (Q (g x))) as [HQ|HQ]; csimpl.
  - by rewrite Hh, IH.
  - by apply HPQ in HP.
  - by apply HPQ in HQ.
  - done.
Qed.

Lemma drop_column_set (c : string) (v : cell) (r : Row) :
  drop_column c (set c v r) = drop_column c r.
Proof. unfold drop_column, set; simpl. by rewrite delete_insert_eq. Qed.

Lemma gt_sub_zero (a b : Qc) : 0 < a - b ↔ b < a.
Proof.
  rewrite (Qcplus_lt_mono_r 0 (a - b) b).
  replace (a - b + b) with a by ring. by rewrite Qcplus_0_l.
Qed.

Lemma label_setitem (df : DataFrame) (c : string) (s : Series) :
  label <$> rows (setitem df c s) = label <$> rows df.
Proof.
  unfold setitem; simpl. apply list_eq. intros i.
  rewrite !list_lookup_fmap, list_lookup_imap.
  by destruct (rows df !! i).
Qed.

Lemma underbilling_df_Ok (t : Tables) :
  "Overbilling Amount" ∈ columns (session_df t) →
  ∃ u, underbilling_df t = Ok u ∧
       label <$> rows u
       = label <$> filter (λ r, is_true_cell (lt_cell (get "Overbilling Amount" r) (num 0)))
                          (rows (session_df t)).
Proof.
  intros Hin. unfold underbilling_df.
  rewrite (getitem_Ok _ _ Hin). cbn [mbind result_bind].
  rewrite getitem_Ok by (by rewrite columns_loc).
  cbn [mbind result_bind mret result_ret].
  eexists. split; [reflexivity|].
  rewrite label_setitem. unfold col. by rewrite <- list_fmap_compose, rows_loc.
Qed.

Lemma exact_matches_Ok (t : Tables) :
  "Overbilling Amount" ∈ columns (session_df t) →
  ∃ e, exact_matches t = Ok e ∧
       rows e = filter (λ r, is_true_cell (eq_cell (get "Overbilling Amount" r) (num 0)))
                       (rows (session_df t)).
Proof.
  intros Hin. unfold exact_matches.
  rewrite (getitem_Ok _ _ Hin). cbn [mbind result_bind mret result_ret].
  eexists. split; [reflexivity|].
  unfold col. by rewrite <- list_fmap_compose, rows_loc.
Qed.

(** The sign of the overbilling amount of a record, when it has one. *)
Definition amount_sign (r : Row) : option comparison :=
  match get "Overbilling Amount" r with
  | Num q => Some (q ?= 0)
  | _ => None
  end.

Lemma positive_sign (r : Row) :
  is_true_cell (gt_cell (get "Overbilling Amount" r) (num 0)) ↔ amount_sign r = Some Gt.
Proof.
  unfold amount_sign, gt_cell, num. destruct (get "Overbilling Amount" r); try done.
  cbn [lt_cell is_true_cell]. rewrite Z2Qc_inj_0.
  destruct (decide (0 < q)) as [H|H].
  - rewrite bool_decide_eq_true_2 by done. split; [intros _|done].
    f_equal; by apply Qcgt_alt.
  - rewrite bool_decide_eq_false_2 by done. split; [done|].
    intros [= Hc]. by apply Qcgt_alt in Hc.
Qed.

Lemma negative_sign (r : Row) :
  is_true_cell (lt_cell (get "Overbilling Amount" r) (num 0)) ↔ amount_sign r = Some Lt.
Proof.
  unfold amount_sign, num. destruct (get "Overbilling Amount" r); try done.
  cbn [lt_cell is_true_cell]. rewrite Z2Qc_inj_0.
  destruct (decide (q < 0)) as [H|H].
  - rewrite bool_decide_eq_true_2 by done. split; [intros _|done].
    f_equal; by apply Qclt_alt.
  - rewrite bool_decide_eq_false_2 by done. split; [done|].
    intros [= Hc]. by apply Qclt_alt in Hc.
Qed.

Lemma zero_sign (r : Row) :
  is_true_cell (eq_cell (get "Overbilling Amount" r) (num 0)) ↔ amount_sign r = Some Eq.
Proof.
  unfold amount_sign, num. destruct (get "Overbilling Amount" r); try done.
  cbn [eq_cell is_true_cell]. rewrite Z2Qc_inj_0.
  destruct (decide (q = 0)) as [->|H].
  - rewrite bool_decide_eq_true_2 by done. split; [intros _|done].
    f_equal; by apply Qceq_alt.
  - rewrite bool_decide_eq_false_2 by congruence. split; [done|].
    intros [= Hc]. by apply Qceq_alt in Hc.
Qed.

Section billing.
Context (parse_datetime : cell → option Z).
Context (parse_numeric : cell → option Qc).
Context (qs : Quicksort).

Local Abbreviation process := (process parse_datetime parse_numeric qs).
Local Abbreviation tables_of := (tables_of parse_datetime parse_numeric qs).
Local Abbreviation derive := (derive parse_datetime parse_numeric).
Local Abbreviation derive50 := (derive50 parse_datetime parse_numeric).
Local Abbreviation derive46 := (derive46 parse_datetime parse_numeric).
Local Abbreviation to_numeric := (to_numeric parse_numeric).

Lemma flag_iff_positive_amount (r : Row) :
  is_true_cell (gt_cell (get "Overbilling Amount" (derive50 r)) (num 0))
  ↔ is_true_cell (get "Overbilling_Flag" (derive46 r)).
Proof.
  rewrite derived50_amount, derived46_flag.
  destruct (to_numeric_cases parse_numeric (get invoice_value r)) as [->|[a ->]];
    destruct (to_numeric_cases parse_numeric (get ordered_value r)) as [->|[b ->]];
    try done.
  unfold gt_cell, num; cbn [sub_cell lt_cell is_true_cell].
  rewrite Z2Qc_inj_0.
  destruct (decide (b < a)) as [Hlt|Hnlt].
  - rewrite !bool_decide_eq_true_2; [done|done|by apply gt_sub_zero].
  - rewrite !bool_decide_eq_false_2; [done|done|by rewrite gt_sub_zero].
Qed.

(** C10.  The table selected by the flag [invoiced > ordered] (line 47) and
    the table selected by [invoiced - ordered > 0] (line 53) hold the same
    records in the same order: same labels, and the same cells in every
    column but the overbilling amount, which line 50 assigns in between. *)
Theorem overbilling_tables_agree (now : Z) (df : DataFrame) (t : Tables) :
  process now df = Ok t →
  drop_column "Overbilling Amount" <$> rows (overbilling_df t)
  = drop_column "Overbilling Amount" <$> rows (overbilling_cases t)
  ∧ label <$> rows (overbilling_df t) = label <$> rows (overbilling_cases t)
  ∧ ∀ c, c ∈ columns (overbilling_df t)
         ↔ c = "Overbilling Amount" ∨ c ∈ columns (overbilling_cases t).
Proof.
  intros [-> _]%process_Ok_inv.
  rewrite rows_overbilling_df, rows_overbilling_cases.
  assert (∀ r, drop_column "Overbilling Amount" (derive50 r)
               = drop_column "Overbilling Amount" (derive46 r)) as Hdrop.
  { intros r. unfold derive50, step50. apply drop_column_set. }
  split_and!.
  - apply fmap_filter_ext; [apply flag_iff_positive_amount|apply Hdrop].
  - apply fmap_filter_ext; [apply flag_iff_positive_amount|].
    intros r. exact (f_equal label (Hdrop r)).
  - intros c. unfold tables_of. cbn [overbilling_df overbilling_cases].
    rewrite !columns_loc. unfold frame50. apply elem_of_columns_setitem.
Qed.

Lemma amount_unchanged now r :
  get "Overbilling Amount" (derive now r) = get "Overbilling Amount" (derive50 r).
Proof. unfold derive. by rewrite get_step57. Qed.

(** C5 (amended).  The overbilling table, the underbilling table and the
    exact matches are the stored records whose overbilling amount is
    positive, negative and zero, each in frame order.  A record has an
    amount, and so lies in exactly one of the three, when its ordered and
    invoiced values are both present; a record with a missing value has a
    missing amount and lies in none of them. *)
Theorem billing_partition (now : Z) (df : DataFrame) (t : Tables) :
  process now df = Ok t →
  ∃ u e, underbilling_df t = Ok u ∧ exact_matches t = Ok e ∧
    label <$> rows (overbilling_df t)
      = label <$> filter (λ r, amount_sign r = Some Gt) (rows (session_df t)) ∧
    label <$> rows u
      = label <$> filter (λ r, amount_sign r = Some Lt) (rows (session_df t)) ∧
    label <$> rows e
      = label <$> filter (λ r, amount_sign r = Some Eq) (rows (session_df t)) ∧
    ∀ i r, rows (session_df t) !! i = Some r →
      (amount_sign r = None
         ↔ get invoice_value r = NA ∨ get ordered_value r = NA) ∧
      (amount_sign r = None ∨ amount_sign r = Some Gt
         ∨ amount_sign r = Some Lt ∨ amount_sign r = Some Eq).
Proof.
  intros Hp. pose proof Hp as [-> _]%process_Ok_inv.
  assert ("Overbilling Amount" ∈ columns (session_df (tables_of now df))) as Hin.
  { unfold tables_of. cbn [session_df]. apply elem_of_columns57. left.
    apply (bool_decide_unpack _). vm_compute. exact I. }
  destruct (underbilling_df_Ok _ Hin) as (u & Hu & Hlu).
  destruct (exact_matches_Ok _ Hin) as (e & He & Hle).
  exists u, e. split; [exact Hu|]. split; [exact He|].
  rewrite Hlu, Hle. clear Hu Hlu He Hle Hin.
  rewrite rows_overbilling_df, rows_session_df.
  split_and!.
  - apply fmap_filter_ext; [|done].
    intros r. rewrite <- positive_sign. by rewrite amount_unchanged.
  - f_equal. apply list_filter_iff. intros r. apply negative_sign.
  - f_equal. apply list_filter_iff. intros r. apply zero_sign.
  - intros i r Hr. rewrite list_lookup_fmap in Hr.
    destruct (rows df !! i) as [r0|]; [|discriminate]. injection Hr as <-.
    unfold amount_sign. rewrite derived_amount, derived_invoice, derived_ordered.
    destruct (to_numeric_cases parse_numeric (get invoice_value r0)) as [->|[a ->]];
      destruct (to_numeric_cases parse_numeric (get ordered_value r0)) as [->|[b ->]];
      cbn [sub_cell].
    + split; [split; auto|auto].
    + split; [split; auto|auto].
    + split; [split; auto|auto].
    + split.
      * split; [done|]. intros [?|?]; done.
      * right. destruct (a - b ?= 0); auto.
Qed.

(** C8 (amended).  [now] is the system time the block read on line 56.
    A stored record is flagged on time exactly when its delivery date is
    present and not before [now], or its still-to-deliver quantity is the
    number zero. *)
Theorem on_time_flag (now : Z) (df : DataFrame) (t : Tables) (i : nat) (r : Row) :
  process now df = Ok t →
  rows (session_df t) !! i = Some r →
  (get "On_Time" r = Bool true
     ↔ (∃ d, get "Delivery Date" r = Ts d ∧ (now ≤ d)%Z)
       ∨ get "Still to Deliver" r = num 0) ∧
  (get "On_Time" r = Bool true ∨ get "On_Time" r = Bool false).
Proof.
  intros Hp Hr. destruct (session_row _ _ _ _ _ _ _ _ Hp Hr) as (r0 & _ & ->).
  rewrite derived_on_time, derived_delivery_date, derived_still.
  destruct (to_datetime_cases parse_datetime (get "Delivery Date" r0)) as [->|[d ->]];
    destruct (to_numeric_cases parse_numeric (get "Still to Deliver" r0)) as [->|[q ->]];
    unfold num; cbn [ge_cell eq_cell or_cell orb].
  - split; [|auto]. split; [done|]. intros [(? & ? & _)|?]; done.
  - split; [|destruct (bool_decide _); auto]. split.
    + intros [= H%bool_decide_eq_true]. by right.
    + intros [(? & ? & _)|H]; [done|]. by rewrite bool_decide_eq_true_2.
  - rewrite orb_false_r. split; [|destruct (bool_decide _); auto]. split.
    + intros [= H%bool_decide_eq_true]. left. eauto.
    + intros [(? & [= <-] & H)|?]; [|done]. by rewrite bool_decide_eq_true_2.
  - split; [|destruct (_ || _); auto]. split.
    + intros [= [H%bool_decide_eq_true|H%bool_decide_eq_true]%orb_true_iff]; eauto.
    + intros [(? & [= <-] & H)|H].
      * by rewrite (bool_decide_eq_true_2 _ H).
      * rewrite (bool_decide_eq_true_2 _ H). by rewrite orb_true_r.
Qed.
End billing.

Section conservation.
Context (parse_datetime : cell → option Z).
Context (parse_numeric : cell → option Qc).
Context (qs : Quicksort).

Local Abbreviation process := (process parse_datetime parse_numeric qs).
Local Abbreviation tables_of := (tables_of parse_datetime parse_numeric qs).
Local Abbreviation derive := (derive parse_datetime parse_numeric).
Local Abbreviation to_numeric := (to_numeric parse_numeric).
Local Abbreviation frame57 := (frame57 parse_datetime parse_numeric).

(** The sum of a metric over the uploaded records with a complete key:
    the value of a record is its coerced cell, 0 when that is missing. *)
Definition records_sum (keys : list string) (src : string) (df : DataFrame) : Qc :=
  sum_q ((λ r, num0 (to_numeric (get src r)))
           <$> filter (λ r, complete_key (key_of keys r)) (rows df)).

Definition column_sum (c : string) (table : DataFrame) : Qc :=
  sum_q ((λ r, num0 (get c r)) <$> rows table).

(** Each total column of [table] adds up to the sum of its source column
    over the uploaded records with a complete key. *)
Definition conserved (table : DataFrame) (keys : list string) (df : DataFrame) : Prop :=
  column_sum "Total PO Ordered Value" table = records_sum keys ordered_value df ∧
  column_sum "Total PO Invoice Value" table = records_sum keys invoice_value df ∧
  column_sum "Total PO Down Payment" table = records_sum keys down_payment df.

Lemma renamed_total_sum now df keys j src total :
  NoDup (keys ++ total_names) → src ∉ keys →
  [ordered_value; invoice_value; down_payment] !! j = Some src →
  total_names !! j = Some total →
  (∀ r, key_of keys (derive now r) = key_of keys r) →
  (∀ r, get src (derive now r) = to_numeric (get src r)) →
  column_sum total (renamed (grouped (frame57 now df) keys spend_sums) (keys ++ total_names))
  = records_sum keys src df.
Proof.
  intros Hnd Hsrc Hj Ht Hkey Hval. unfold column_sum. rewrite rows_renamed.
  rewrite <- list_fmap_compose.
  rewrite (list_fmap_ext _ (λ r, num0 (get src r))).
  2:{ intros i r _. unfold compose. f_equal. rewrite columns_grouped.
      apply (get_rename_row _ _ _ (length keys + j)); [done| | |].
      - rewrite !length_app. f_equal.
      - by rewrite lookup_app_r, Nat.add_comm, Nat.add_sub by lia.
      - rewrite lookup_app_r, Nat.add_comm, Nat.add_sub by lia.
        destruct j as [|[|[|j]]]; simplify_eq/=; done. }
  rewrite (grouped_rows_sum _ _ _ src src); [|done| |].
  - rewrite rows_frame57. unfold records_sum.
    rewrite <- (list_fmap_id (rows df)) at 2.
    f_equal. apply (fmap_filter_ext _ _ (derive now) id).
    + intros r. by rewrite Hkey.
    + intros r. unfold id. by rewrite Hval.
  - apply (bool_decide_unpack _). vm_compute. exact I.
  - destruct j as [|[|[|j]]]; simplify_eq/=;
      apply (bool_decide_unpack _); vm_compute; exact I.
Qed.

Ltac total_sum now df j :=
  apply (renamed_total_sum now df _ j);
  [ by_compute | by_compute | reflexivity | reflexivity
  | intros r; unfold key_of, vendor_keys; cbn [fmap list_fmap]; by peel
  | intros r; by peel ].

End conservation.

(** * The delivery percentage *)

(** Lines 112-116 for one summary row with [orders] and [delivered]. *)
Definition percentage (orders delivered : cell) : cell :=
  round2_cell
    (where_cell (gt_cell orders (num 0))
       (mul_cell (div_cell delivered orders) (num 100)) (num 0)).

Lemma rows_with_percentage (g : DataFrame) :
  rows (setitem g "Delivery_Percentage"
          (delivery_percentage (col g "Total_Orders") (col g "Total_Delivered")
             (col g "Total_Orders")))
  = (λ r, set "Delivery_Percentage"
            (percentage (get "Total_Orders" r) (get "Total_Delivered" r)) r) <$> rows g.
Proof.
  unfold delivery_percentage, col.
  repeat first [ rewrite <- list_fmap_compose | rewrite zip_with_fmap_same ].
  apply rows_setitem.
Qed.

Lemma round2_zero : round2 0 = 0.
Proof. apply Qc_is_canon. reflexivity. Qed.

Lemma percentage_num (o d : Qc) :
  percentage (Num o) (Num d)
  = Num (if decide (0 < o) then round2 (Qc_of_Z 100 * d / o) else 0).
Proof.
  unfold percentage, gt_cell, num. cbn [lt_cell]. rewrite Z2Qc_inj_0.
  destruct (decide (0 < o)) as [Hpos|Hneg].
  - rewrite bool_decide_eq_true_2 by done. cbn [where_cell is_true_cell].
    assert (o ≠ 0) as Hne by (intros ->; by apply Qclt_not_eq in Hpos).
    cbn [div_cell]. rewrite decide_False by done. cbn [mul_cell round2_cell].
    do 2 f_equal. field. done.
  - rewrite bool_decide_eq_false_2 by done. cbn [where_cell is_true_cell round2_cell].
    by rewrite round2_zero.
Qed.

(** The columns of the summary before line 117 renames them. *)
Definition summary_old : list string :=
  vendor_keys ++ (summary_aggs.*1 ++ ["Delivery_Percentage"]).

Lemma columns_with_percentage (df : DataFrame) (s : Series) :
  columns (setitem (grouped df vendor_keys summary_aggs) "Delivery_Percentage" s)
  = summary_old.
Proof. rewrite columns_setitem, columns_grouped. vm_compute. reflexivity. Qed.

Lemma summary_row_cells (rs : list Row) (i : nat) (k : list cell) :
  length k = length vendor_keys →
  let g := group_row vendor_keys summary_aggs rs i k in
  let r := rename_row summary_old summary_names
             (set "Delivery_Percentage"
                (percentage (get "Total_Orders" g) (get "Total_Delivered" g)) g) in
  ∃ o d : Qc,
    get "Total Ordered Quantity" r = Num o ∧
    get "Total Delivered Quantity" r = Num d ∧
    get "Delivery Percentage (%)" r
      = Num (if decide (0 < o) then round2 (Qc_of_Z 100 * d / o) else 0).
Proof.
  intros Hk g r.
  assert (NoDup summary_names) as Hnd by (apply (bool_decide_unpack _); vm_compute; exact I).
  assert (length summary_old = length summary_names) as Hlen by (vm_compute; reflexivity).
  assert (∀ out src, bool_decide ((out ∉ vendor_keys) ∧ NoDup (summary_aggs.*1)
                                  ∧ (out, src) ∈ summary_aggs) = true →
            get out g = Num (agg_sum src (group_rows vendor_keys rs k))) as Hagg.
  { intros out src (? & ? & ?)%bool_decide_eq_true. by apply get_group_row_agg. }
  exists (agg_sum "Ordered Quantity" (group_rows vendor_keys rs k)),
         (agg_sum "Delivery Quantity" (group_rows vendor_keys rs k)).
  subst r. split_and!.
  - rewrite (get_rename_row summary_old summary_names _ 4 "Total_Orders");
      [|done|done|reflexivity|vm_compute; reflexivity].
    rewrite get_set_ne by done. apply Hagg. vm_compute. reflexivity.
  - rewrite (get_rename_row summary_old summary_names _ 5 "Total_Delivered");
      [|done|done|reflexivity|vm_compute; reflexivity].
    rewrite get_set_ne by done. apply Hagg. vm_compute. reflexivity.
  - rewrite (get_rename_row summary_old summary_names _ 10 "Delivery_Percentage");
      [|done|done|reflexivity|vm_compute; reflexivity].
    rewrite get_set_eq.
    rewrite (Hagg "Total_Orders" "Ordered Quantity") by (vm_compute; reflexivity).
    rewrite (Hagg "Total_Delivered" "Delivery Quantity") by (vm_compute; reflexivity).
    apply percentage_num.
Qed.

Section summary.
Context (parse_datetime : cell → option Z).
Context (parse_numeric : cell → option Qc).
Context (qs : Quicksort).

Local Abbreviation process := (process parse_datetime parse_numeric qs).
Local Abbreviation tables_of := (tables_of parse_datetime parse_numeric qs).
Local Abbreviation frame57 := (frame57 parse_datetime parse_numeric).

End summary.

(** * Top-N tables *)

(** The number in column [c] of a row, and the order "not smaller than". *)
Definition value (c : string) (r : Row) : Qc := num0 (get c r).
Definition descending (c : string) : relation Row := λ a b, value c b ≤ value c a.

Lemma Sorted_weaken_in {A : Type} (P : A → Prop) (R R' : relation A) (l : list A) :
  Forall P l → (∀ x y, P x → P y → R x y → R' x y) → Sorted R l → Sorted R' l.
Proof.
  intros HP HR Hs. induction Hs as [|x l Hs IH Hhd]; [constructor|].
  apply Forall_cons in HP as [Hx Hl]. constructor; [by apply IH|].
  destruct Hhd as [|y l' Hxy]; constructor.
  apply Forall_cons in Hl as [Hy _]. by apply HR.
Qed.

Lemma Sorted_take {A : Type} (R : relation A) (n : nat) (l : list A) :
  Sorted R l → Sorted R (take n l).
Proof.
  intros Hs. revert n. induction Hs as [|x l Hs IH Hhd]; intros [|n]; simpl;
    try constructor; [apply IH|].
  destruct Hhd as [|y l' Hxy]; destruct n; simpl; by constructor.
Qed.

Lemma filter_all {A : Type} (P : A → Prop) `{!∀ x, Decision (P x)} (l : list A) :
  Forall P l → filter P l = l.
Proof.
  induction 1 as [|x l Hx Hl IH]; [done|].
  by rewrite filter_cons, decide_True, IH.
Qed.

Lemma filter_none {A : Type} (P : A → Prop) `{!∀ x, Decision (P x)} (l : list A) :
  Forall (λ x, ¬ P x) l → filter P l = [].
Proof.
  induction 1 as [|x l Hx Hl IH]; [done|].
  by rewrite filter_cons, decide_False, IH.
Qed.

Lemma Sorted_values (c : string) (l : list (Qc * Row)) :
  Forall (λ p, p.1 = value c p.2) l →
  Sorted (λ x y, y.1 ≤ x.1) l → Sorted (descending c) l.*2.
Proof.
  intros Hval Hs. induction Hs as [|p l Hs IH Hhd]; csimpl; [constructor|].
  apply Forall_cons in Hval as [Hp Hl]. constructor; [by apply IH|].
  destruct Hhd as [|q l' Hpq]; csimpl; constructor.
  apply Forall_cons in Hl as [Hq _]. unfold descending. by rewrite <- Hp, <- Hq.
Qed.

(** [sort_values(by=c, ascending=False)] on a column of numbers: the same
    rows, in descending order of the column. *)
Lemma sorted_desc_rows (qs : Quicksort) (df : DataFrame) (c : string) :
  Forall (λ r, is_num (get c r) = true) (rows df) →
  rows (sorted_desc qs df c) ≡ₚ rows df ∧
  Sorted (descending c) (rows (sorted_desc qs df c)).
Proof.
  intros Hnum. unfold sorted_desc; cbn [rows].
  rewrite (filter_all _ _ Hnum).
  rewrite (filter_none (λ r, is_num (get c r) = false)), app_nil_r.
  2:{ eapply Forall_impl; [exact Hnum|]. intros r ->. done. }
  set (pairs := (λ r, (num0 (get c r), r)) <$> rows df).
  pose proof (quicksort_desc_perm qs Row pairs) as Hperm.
  pose proof (quicksort_desc_sorted qs Row pairs) as Hsorted.
  split.
  - rewrite Hperm. subst pairs. rewrite <- list_fmap_compose.
    by rewrite list_fmap_id.
  - apply Sorted_values; [|done].
    rewrite Hperm. subst pairs. apply Forall_fmap, Forall_forall. by intros r _.
Qed.

Lemma by_leb_desc_value (c : string) (a b : Row) :
  is_num (get c a) = true → is_num (get c b) = true →
  by_leb [(c, false)] a b = true → descending c a b.
Proof.
  unfold by_leb, descending, value; simpl.
  destruct (get c a) as [|x| | | | |]; try done.
  destruct (get c b) as [|y| | | | |]; try done.
  intros _ _. simpl. destruct (y ?= x) eqn:E; try done; intros _.
  - apply Qceq_alt in E. subst. apply Qcle_refl.
  - apply Qclt_alt in E. by apply Qclt_le_weak.
Qed.

(** Rows with the same cell in the sort column keep their order. *)
Lemma stable_sort_keeps_ties (c : string) (v : cell) (l : list Row) :
  filter (λ r, get c r = v) (stable_sort (by_leb [(c, false)]) l)
  = filter (λ r, get c r = v) l.
Proof.
  rewrite filter_stable_sort by (apply by_leb_total || apply by_leb_trans).
  apply stable_sort_id. intros x y [Hx _]%list_elem_of_filter [Hy _]%list_elem_of_filter.
  unfold by_leb; simpl. rewrite Hx, Hy.
  by rewrite (lawful_refl _ (order_cell_lawful false)).
Qed.

(** Within one period the two-key sort is the sort by value alone. *)
Lemma stable_sort_within_period (c : string) (p : cell) (l : list Row) :
  Forall (λ r, get "Month" r = p) l →
  stable_sort (by_leb [("Month", true); (c, false)]) l
  = stable_sort (by_leb [(c, false)]) l.
Proof.
  intros Hp. apply stable_sort_ext. intros x y Hx Hy.
  rewrite Forall_forall in Hp. unfold by_leb; simpl.
  rewrite (Hp x Hx), (Hp y Hy).
  by rewrite (lawful_refl _ (order_cell_lawful true)).
Qed.

Lemma grouped_num (df : DataFrame) keys aggs out src :
  out ∉ keys → NoDup aggs.*1 → (out, src) ∈ aggs →
  Forall (λ r, is_num (get out r) = true) (rows (grouped df keys aggs)).
Proof.
  intros Hout Hnd Hin. unfold grouped; cbn [rows]. apply Forall_forall.
  intros r (i & k & -> & Hk)%elem_of_lookup_imap.
  apply list_elem_of_lookup_2, elem_of_group_keys in Hk as (_ & r' & _ & <-).
  rewrite (get_group_row_agg _ _ _ _ _ out src); [done| |done..].
  apply key_of_length.
Qed.

Lemma renamed_totals_num (d : DataFrame) (keys : list string) :
  NoDup (keys ++ total_names) → ordered_value ∉ keys →
  Forall (λ r, is_num (get "Total PO Ordered Value" r) = true)
         (rows (renamed (grouped d keys spend_sums) (keys ++ total_names))).
Proof.
  intros Hnd Hk. rewrite rows_renamed. apply Forall_fmap.
  eapply Forall_impl; [apply (grouped_num d keys spend_sums ordered_value ordered_value)|].
  - done.
  - apply (bool_decide_unpack _). vm_compute. exact I.
  - apply (bool_decide_unpack _). vm_compute. exact I.
  - intros r Hr. unfold compose. rewrite columns_grouped.
    rewrite (get_rename_row _ _ _ (length keys + 0) ordered_value); [done|done| | |].
    + rewrite !length_app. f_equal.
    + by rewrite lookup_app_r, Nat.add_comm, Nat.add_sub by lia.
    + by rewrite lookup_app_r, Nat.add_comm, Nat.add_sub by lia.
Qed.

(** [sorted] ranks the rows [l] by column [c], largest first. *)
Definition ranked (c : string) (l sorted : list Row) : Prop :=
  sorted ≡ₚ l ∧ Sorted (descending c) sorted.

(** ... and rows with the same value stay in the order they have in [l]. *)
Definition ties_in_order (c : string) (l sorted : list Row) : Prop :=
  ∀ v, filter (λ r, get c r = v) sorted = filter (λ r, get c r = v) l.

(** [top] is the first ten rows of a descending ranking of [full] by [c]:
    all of the ranking when [full] has at most ten rows. *)
Definition top_of (c : string) (full top : DataFrame) : Prop :=
  ∃ sorted, ranked c (rows full) sorted ∧
    rows top = take 10 sorted ∧
    length (rows top) = (length (rows full) `min` 10)%nat ∧
    ((length (rows full) ≤ 10)%nat → rows top = sorted).

(** Line 93: the totals per period and vendor, before they are sorted. *)
Definition monthly_spend (d : DataFrame) : DataFrame :=
  grouped d ("Month" :: vendor_keys) spend_sums.

(** Lines 99 to 101 on the kept rows [heads]: new labels 0, 1, ... and the
    columns renamed by position. *)
Definition relabelled (old new : list string) (heads : list Row) : list Row :=
  rename_row old new <$> imap (λ i r, mkRow i (cells r)) heads.

(** [top] keeps, of each period, the first ten rows of a descending ranking
    of the period's rows of [monthly] by ordered value, ties in the order
    they have in [monthly]. *)
Definition top_per_period (monthly top : DataFrame) : Prop :=
  ∃ heads,
    rows top = relabelled (columns monthly) ("Month" :: vendor_keys ++ total_names) heads ∧
    ∀ p, p ≠ NA →
      let period := filter (λ r, get "Month" r = p) (rows monthly) in
      ∃ sorted, ranked ordered_value period sorted ∧
        ties_in_order ordered_value period sorted ∧
        filter (λ r, get "Month" r = p) heads = take 10 sorted ∧
        ((length period ≤ 10)%nat → filter (λ r, get "Month" r = p) heads = sorted).

Lemma top_of_head (qs : Quicksort) (c : string) (full : DataFrame) :
  Forall (λ r, is_num (get c r) = true) (rows full) →
  top_of c full (head 10 (sorted_desc qs full c)).
Proof.
  intros Hnum. destruct (sorted_desc_rows qs full c Hnum) as [Hperm Hsorted].
  exists (rows (sorted_desc qs full c)). split_and!; [done..| |].
  - cbn [head rows]. rewrite length_take, <- Hperm. lia.
  - intros Hlen. cbn [head rows]. apply take_ge. by rewrite Hperm.
Qed.

Lemma top_per_period_heads (monthly : DataFrame) :
  Forall (λ r, is_num (get ordered_value r) = true) (rows monthly) →
  top_per_period monthly
    (renamed (reset_index (group_heads
                (sorted_lex monthly [("Month", true); (ordered_value, false)]) "Month" 10))
             ("Month" :: vendor_keys ++ total_names)).
Proof.
  intros Hnum.
  exists (group_head_rows 10 "Month" []
            (stable_sort (by_leb [("Month", true); (ordered_value, false)]) (rows monthly))).
  split; [done|]. intros p Hp period.
  exists (stable_sort (by_leb [(ordered_value, false)]) period).
  assert (filter (λ r, get "Month" r = p)
            (group_head_rows 10 "Month" []
               (stable_sort (by_leb [("Month", true); (ordered_value, false)]) (rows monthly)))
          = take 10 (stable_sort (by_leb [(ordered_value, false)]) period)) as Heads.
  { rewrite filter_group_head_rows by done. cbn [filter list_filter length Nat.sub].
    rewrite filter_stable_sort by (apply by_leb_total || apply by_leb_trans).
    rewrite (stable_sort_within_period _ p); [done|].
    apply Forall_forall. by intros r [? _]%list_elem_of_filter. }
  split; [split|split_and!].
  - apply stable_sort_perm.
  - eapply (Sorted_weaken_in (λ r, is_num (get ordered_value r) = true)).
    + rewrite stable_sort_perm. subst period. apply Forall_forall.
      intros r [_ Hr]%list_elem_of_filter. revert r Hr. by apply Forall_forall.
    + intros x y Hx Hy H. exact (by_leb_desc_value _ _ _ Hx Hy H).
    + apply stable_sort_sorted. apply by_leb_total.
  - intros v. apply stable_sort_keeps_ties.
  - exact Heads.
  - intros Hlen. rewrite Heads. apply take_ge. by rewrite stable_sort_perm.
Qed.

Section top_n.
Context (parse_datetime : cell → option Z).
Context (parse_numeric : cell → option Qc).
Context (qs : Quicksort).

Local Abbreviation process := (process parse_datetime parse_numeric qs).
Local Abbreviation tables_of := (tables_of parse_datetime parse_numeric qs).

(** C7.  The two overall Top-10 tables are the first ten rows of their full
    table ranked by "Total PO Ordered Value", largest first; a full table
    of at most ten rows is returned whole, ranked, with no row added.  The
    monthly Top-10 table holds, for each period, the first ten rows of the
    period's rows of the monthly totals ranked by ordered value, largest
    first, equal values in the order of the monthly totals; a period of at
    most ten rows is kept whole. *)
Theorem top_n_tables (now : Z) (df : DataFrame) (t : Tables) :
  process now df = Ok t →
  top_of "Total PO Ordered Value" (total_spend_by_vendor t) (top_10_vendors t) ∧
  top_of "Total PO Ordered Value" (total_spend_by_material t) (top_10_materials t) ∧
  top_per_period (monthly_spend (session_df t)) (top_10_vendors_monthly t).
Proof.
  intros [-> _]%process_Ok_inv. unfold tables_of.
  cbn [total_spend_by_vendor total_spend_by_material top_10_vendors top_10_materials
       top_10_vendors_monthly session_df].
  split_and!.
  - apply top_of_head, renamed_totals_num; apply (bool_decide_unpack _); vm_compute; exact I.
  - apply top_of_head, renamed_totals_num; apply (bool_decide_unpack _); vm_compute; exact I.
  - apply top_per_period_heads.
    apply (grouped_num _ _ _ ordered_value ordered_value);
      apply (bool_decide_unpack _); vm_compute; exact I.
Qed.
End top_n.

(** * Dependence on the clock *)

(** Two frames with the same columns and, column [c] apart, the same rows. *)
Definition same_but (c : string) (d1 d2 : DataFrame) : Prop :=
  columns d1 = columns d2 ∧ drop_column c <$> rows d1 = drop_column c <$> rows d2.

Lemma DataFrame_eq (d1 d2 : DataFrame) :
  columns d1 = columns d2 → rows d1 = rows d2 → d1 = d2.
Proof. destruct d1, d2; simpl. by intros -> ->. Qed.

(** The grouped sums read the key columns and the summed columns only. *)
Lemma grouped_ext (d1 d2 : DataFrame) keys aggs (f g : Row → Row) (l : list Row) :
  rows d1 = f <$> l → rows d2 = g <$> l →
  (∀ r c, c ∈ keys ++ aggs.*2 → get c (f r) = get c (g r)) →
  grouped d1 keys aggs = grouped d2 keys aggs.
Proof.
  intros H1 H2 Hext. unfold grouped. f_equal. rewrite H1, H2.
  assert (∀ r, key_of keys (f r) = key_of keys (g r)) as Hkey.
  { intros r. unfold key_of. apply list_fmap_ext. intros j c Hc. apply Hext.
    apply elem_of_app; left. by eapply list_elem_of_lookup_2. }
  assert (group_keys keys (f <$> l) = group_keys keys (g <$> l)) as ->.
  { unfold group_keys. rewrite <- !list_fmap_compose. do 3 f_equal.
    apply list_fmap_ext. intros j r _. apply Hkey. }
  apply imap_ext. intros i k _. unfold group_row. do 3 f_equal.
  apply list_fmap_ext. intros j a Ha. do 2 f_equal.
  unfold agg_sum, group_rows. f_equal.
  apply (fmap_filter_ext (λ r, key_of keys r = k) (λ r, key_of keys r = k) f g).
  - intros r. by rewrite Hkey.
  - intros r. f_equal. apply Hext. apply elem_of_app; right.
    apply list_elem_of_fmap. exists a. split; [done|]. by eapply list_elem_of_lookup_2.
Qed.

Lemma project_set (cs : list string) (c : string) (v : cell) (r : Row) :
  c ∉ cs → project cs (set c v r) = project cs (mkRow (label r) (delete c (cells r))).
Proof.
  intros Hc. unfold project, set; simpl. f_equal.
  by rewrite map_filter_insert_False.
Qed.

Lemma rows_loc_compare (d : DataFrame) (op : cell → cell → cell) (f g : cell → cell)
    (a b : string) :
  rows (loc d (zip_with op (f <$> col d a) (g <$> col d b)))
  = filter (λ r, is_true_cell (op (f (get a r)) (g (get b r)))) (rows d).
Proof.
  unfold col. rewrite <- !list_fmap_compose, zip_with_fmap_same.
  apply (rows_loc d (λ r, op (f (get a r)) (g (get b r)))).
Qed.

Section clock.
Context (parse_datetime : cell → option Z).
Context (parse_numeric : cell → option Qc).
Context (qs : Quicksort).

Local Abbreviation process := (process parse_datetime parse_numeric qs).
Local Abbreviation tables_of := (tables_of parse_datetime parse_numeric qs).
Local Abbreviation derive := (derive parse_datetime parse_numeric).
Local Abbreviation frame57 := (frame57 parse_datetime parse_numeric).
Local Abbreviation script := (script parse_datetime parse_numeric qs).

Lemma derive_other (now1 now2 : Z) (r : Row) (c : string) :
  c ≠ "On_Time" → get c (derive now1 r) = get c (derive now2 r).
Proof. intros Hc. unfold derive, step57. by rewrite !get_set_ne. Qed.

Lemma derive_drop_on_time (now1 now2 : Z) (r : Row) :
  drop_column "On_Time" (derive now1 r) = drop_column "On_Time" (derive now2 r).
Proof. unfold derive, step57. by rewrite !drop_column_set. Qed.

Lemma derive_project (now1 now2 : Z) (cs : list string) (r : Row) :
  "On_Time" ∉ cs → project cs (derive now1 r) = project cs (derive now2 r).
Proof. intros Hc. unfold derive, step57. by rewrite !project_set. Qed.

Lemma grouped_clock (now1 now2 : Z) (df : DataFrame) keys aggs :
  "On_Time" ∉ keys ++ aggs.*2 →
  grouped (frame57 now1 df) keys aggs = grouped (frame57 now2 df) keys aggs.
Proof.
  intros Hc. apply (grouped_ext _ _ _ _ (derive now1) (derive now2) (rows df));
    [apply rows_frame57..|].
  intros r c Hin. apply derive_other. by intros ->.
Qed.

Lemma columns_frame57_clock (now1 now2 : Z) (df : DataFrame) :
  columns (frame57 now1 df) = columns (frame57 now2 df).
Proof. unfold frame57. by rewrite !columns_setitem. Qed.

(** The tables of two runs on the same upload at two instants: all the
    same, but for the column "On_Time", which the stored frame and the
    quantity-error table carry. *)
Definition same_but_on_time (t1 t2 : Tables) : Prop :=
  total_spend_by_vendor t1 = total_spend_by_vendor t2 ∧
  total_spend_by_material t1 = total_spend_by_material t2 ∧
  total_spend_by_service_area t1 = total_spend_by_service_area t2 ∧
  top_10_vendors t1 = top_10_vendors t2 ∧
  top_10_materials t1 = top_10_materials t2 ∧
  top_10_vendors_monthly t1 = top_10_vendors_monthly t2 ∧
  vendor_summary t1 = vendor_summary t2 ∧
  delayed_pos t1 = delayed_pos t2 ∧
  overbilling_cases t1 = overbilling_cases t2 ∧
  spend_trend t1 = spend_trend t2 ∧
  vendor_spend t1 = vendor_spend t2 ∧
  entity_spend t1 = entity_spend t2 ∧
  overbilling_df t1 = overbilling_df t2 ∧
  same_but "On_Time" (session_df t1) (session_df t2) ∧
  same_but "On_Time" (quantity_errors t1) (quantity_errors t2).

Lemma delayed_pos_clock (now1 now2 : Z) (df : DataFrame) :
  delayed_pos (tables_of now1 df) = delayed_pos (tables_of now2 df).
Proof.
  unfold tables_of. cbn [delayed_pos].
  rewrite (columns_frame57_clock now1 now2).
  unfold projected. apply (f_equal (mkDF _)).
  rewrite !rows_loc_compare, !rows_frame57.
  apply fmap_filter_ext.
  - intros r. by rewrite !(derive_other now1 now2) by done.
  - intros r. apply derive_project.
    intros [_ Hin]%list_elem_of_filter. revert Hin. by_compute.
Qed.

Lemma quantity_errors_clock (now1 now2 : Z) (df : DataFrame) :
  same_but "On_Time" (quantity_errors (tables_of now1 df))
                     (quantity_errors (tables_of now2 df)).
Proof.
  unfold tables_of. cbn [quantity_errors]. split.
  - rewrite !columns_loc. apply columns_frame57_clock.
  - rewrite <- (list_fmap_id (col (frame57 now1 df) "Delivery Quantity")).
    rewrite <- (list_fmap_id (col (frame57 now1 df) "Ordered Quantity")).
    rewrite <- (list_fmap_id (col (frame57 now2 df) "Delivery Quantity")).
    rewrite <- (list_fmap_id (col (frame57 now2 df) "Ordered Quantity")).
    rewrite !rows_loc_compare, !rows_frame57.
    apply fmap_filter_ext.
    + intros r. unfold id. by rewrite !(derive_other now1 now2) by done.
    + intros r. apply derive_drop_on_time.
Qed.

Lemma session_df_clock (now1 now2 : Z) (df : DataFrame) :
  same_but "On_Time" (session_df (tables_of now1 df)) (session_df (tables_of now2 df)).
Proof.
  split.
  - unfold tables_of. cbn [session_df]. apply columns_frame57_clock.
  - rewrite !rows_session_df, <- !list_fmap_compose.
    apply list_fmap_ext. intros i r _. apply derive_drop_on_time.
Qed.

(** Once an upload is processed, later runs of the script in the session
    leave the stored tables as they are, whatever is uploaded. *)
Lemma script_processed_once (clock : Z) (f : option Sheet) (ss : session_state) :
  processed ss = Some true → script clock f ss = (ss, None).
Proof. intros H. unfold script. rewrite H. cbn beta iota zeta. rewrite H. by destruct f. Qed.

(** C9 (amended).  A run that succeeds at one instant succeeds at every
    other instant, and the two runs store the same tables, except that the
    stored frame and the quantity-error table agree in every column but
    "On_Time", the flag computed from the system time. *)
Theorem rerun_same_but_on_time (now1 now2 : Z) (df : DataFrame) (t1 : Tables) :
  process now1 df = Ok t1 →
  ∃ t2, process now2 df = Ok t2 ∧ same_but_on_time t1 t2.
Proof.
  intros [-> Hcols]%process_Ok_inv. exists (tables_of now2 df).
  split; [by apply process_Ok|]. unfold same_but_on_time.
  repeat lazymatch goal with
  | |- same_but _ (session_df _) _ ∧ _ => split; [apply session_df_clock|]
  | |- same_but _ (quantity_errors _) _ => apply quantity_errors_clock
  | |- delayed_pos _ = _ ∧ _ => split; [apply delayed_pos_clock|]
  | |- _ ∧ _ =>
      split; [unfold tables_of;
              cbn [total_spend_by_vendor total_spend_by_material
                   total_spend_by_service_area top_10_vendors top_10_materials
                   top_10_vendors_monthly vendor_summary overbilling_cases
                   spend_trend vendor_spend entity_spend overbilling_df];
              rewrite ?(grouped_clock now1 now2) by by_compute; reflexivity|]
  end.
Qed.
End clock.

(** * Uploads with a missing column *)

Section schema.
Context (parse_datetime : cell → option Z).
Context (parse_numeric : cell → option Qc).
Context (qs : Quicksort).

Local Abbreviation process := (process parse_datetime parse_numeric qs).
Local Abbreviation tables_of := (tables_of parse_datetime parse_numeric qs).
Local Abbreviation script := (script parse_datetime parse_numeric qs).

Lemma script_runs_block (clock : Z) (f : Sheet) (ss : session_state) :
  processed ss ≠ Some true →
  script clock (Some f) ss
  = match process clock (read_excel f) with
    | Ok t => ({| processed := Some true; stored := Some t |}, None)
    | Raise e => ({| processed := Some false; stored := stored ss |}, Some e)
    end.
Proof.
  intros Hp. unfold script. destruct ss as [[[|]|] st]; cbn [processed stored]; done.
Qed.

End schema.

(** * Further properties of the stored records *)

Lemma floor_days_negative (d : Z) : (d / ns_per_day < 0 ↔ d < 0)%Z.
Proof.
  assert (0 < ns_per_day)%Z as Hpos by done. split; intros H.
  - destruct (decide (d < 0)%Z) as [|Hn]; [done|].
    pose proof (Z.div_pos d ns_per_day ltac:(lia) Hpos). lia.
  - by apply Z.div_lt_upper_bound.
Qed.

Lemma why_po_delay_cases (x : cell) :
  why_po_delay x = Str "PO raised after delivery" ∨ why_po_delay x = Str "".
Proof. unfold why_po_delay. destruct (is_true_cell _); auto. Qed.

Lemma why_po_delay_num (z : Z) :
  why_po_delay (Num (Qc_of_Z z)) = Str "PO raised after delivery" ↔ (z < 0)%Z.
Proof.
  unfold why_po_delay, num; cbn [lt_cell is_true_cell].
  destruct (decide (z < 0)%Z) as [H|H].
  - by rewrite (bool_decide_eq_true_2 _ (proj1 (Z2Qc_inj_lt z 0) H)).
  - rewrite bool_decide_eq_false_2; [done|].
    intros Hq. apply H. by apply Z2Qc_inj_lt.
Qed.

(** The columns the block assigns: the eight it adds and the eight it
    coerces in place. *)
Definition added_columns : list string :=
  ["Month"; "Delivery_Date_Anomaly"; "Date_Difference"; "Delivery Delay"; "Why PO Delay";
   "Overbilling_Flag"; "Overbilling Amount"; "On_Time"].

Definition coerced_columns : list string :=
  ["Document Date"; "Delivery Date"] ++ numeric_cols.

Section derived_fields.
Context (parse_datetime : cell → option Z).
Context (parse_numeric : cell → option Qc).
Context (qs : Quicksort).

Local Abbreviation process := (process parse_datetime parse_numeric qs).
Local Abbreviation tables_of := (tables_of parse_datetime parse_numeric qs).
Local Abbreviation derive := (derive parse_datetime parse_numeric).
Local Abbreviation to_datetime := (to_datetime parse_datetime).
Local Abbreviation to_numeric := (to_numeric parse_numeric).

Lemma derived_why now r :
get "Why PO Delay" (derive now r) = why_po_delay (get "Delivery Delay" (derive now r)).
Proof. by peel. Qed.

Lemma derived_anomaly now r :
get "Delivery_Date_Anomaly" (derive now r)
= lt_cell (get "Delivery Date" (derive now r)) (get "Document Date" (derive now r)).
Proof. by peel. Qed.

Lemma derived_difference now r :
get "Date_Difference" (derive now r)
= dt_days (sub_cell (get "Delivery Date" (derive now r))
                    (get "Document Date" (derive now r))).
Proof. by peel. Qed.

Lemma derived_flag now r :
get "Overbilling_Flag" (derive now r)
= gt_cell (get invoice_value (derive now r)) (get ordered_value (derive now r)).
Proof. by peel. Qed.

Lemma derived_numeric now r c :
c ∈ numeric_cols → get c (derive now r) = to_numeric (get c r).
Proof.
intros Hc. unfold numeric_cols in Hc.
repeat (apply elem_of_cons in Hc as [->|Hc]; [by peel|]).
by apply not_elem_of_nil in Hc.
Qed.

Lemma derived_untouched now r c :
c ∉ added_columns → c ∉ coerced_columns → get c (derive now r) = get c r.
Proof.
intros Ha Hc.
assert (∀ c', bool_decide (c' ∈ added_columns ++ coerced_columns) = true →
              String.eqb c c' = false) as Hne.
{ intros c' [?|?]%bool_decide_eq_true%elem_of_app; apply String.eqb_neq; by intros ->. }
assert (existsb (String.eqb c) numeric_cols = false) as Hnum.
{ destruct (existsb _ _) eqn:E; [|done].
  apply existsb_exists in E as (x & Hx%list_elem_of_In & ->%String.eqb_eq).
  destruct Hc. apply elem_of_app. by right. }
unfold derive, derive50, derive46.
rewrite get_step57, Hne by reflexivity. rewrite get_step50, Hne by reflexivity.
rewrite get_step46, Hne by reflexivity. rewrite get_step43, Hnum.
rewrite get_step38, Hne by reflexivity. rewrite get_step37, Hne by reflexivity.
rewrite get_step33, Hne by reflexivity. rewrite get_step32, Hne by reflexivity.
rewrite get_step29, Hne by reflexivity. rewrite get_step26, Hne by reflexivity.
by rewrite get_step25, Hne by reflexivity.
Qed.

Lemma label_derive now r : label (derive now r) = label r.
Proof. reflexivity. Qed.

(** X1.  Line 38.  A stored record carries the reason "PO raised after delivery"
  exactly when one of its two dates is missing or its delivery date is
  before its document date; otherwise the reason is the empty string. *)
Theorem delay_reason (now : Z) (df : DataFrame) (t : Tables) (i : nat) (r : Row) :
process now df = Ok t →
rows (session_df t) !! i = Some r →
(get "Why PO Delay" r = Str "PO raised after delivery" ↔
   get "Delivery Date" r = NA ∨ get "Document Date" r = NA ∨
   ∃ t1 t0, get "Delivery Date" r = Ts t1 ∧ get "Document Date" r = Ts t0 ∧ (t1 < t0)%Z) ∧
(get "Why PO Delay" r = Str "PO raised after delivery" ∨ get "Why PO Delay" r = Str "").
Proof.
intros Hp Hr. destruct (session_row _ _ _ _ _ _ _ _ Hp Hr) as (r0 & _ & ->).
split; [|rewrite derived_why; apply why_po_delay_cases].
rewrite derived_why, derived_delay, derived_delivery_date, derived_document_date.
destruct (to_datetime_cases parse_datetime (get "Delivery Date" r0)) as [->|[t1 ->]];
  destruct (to_datetime_cases parse_datetime (get "Document Date" r0)) as [->|[t0 ->]];
  cbn [sub_cell dt_days fillna]; unfold num; cbn [fillna]; rewrite why_po_delay_num.
- split; [auto|done].
- split; [auto|done].
- split; [auto|done].
- rewrite floor_days_negative. split.
  + intros H. right. right. exists t1, t0. split_and!; [done..|lia].
  + intros [?|[?|(? & ? & [= <-] & [= <-] & H)]]; [done..|lia].
Qed.

(** X2.  Lines 32, 33 and 37.  The anomaly flag of a stored record is true
  exactly when both dates are present and the delivery date is the
  earlier; the date difference is missing exactly when a date is missing,
  and when it is present the delivery delay is the same number; a flagged
  record always carries the reason "PO raised after delivery". *)
Theorem date_anomaly (now : Z) (df : DataFrame) (t : Tables) (i : nat) (r : Row) :
process now df = Ok t →
rows (session_df t) !! i = Some r →
(get "Delivery_Date_Anomaly" r = Bool true ↔
   ∃ t1 t0, get "Delivery Date" r = Ts t1 ∧ get "Document Date" r = Ts t0 ∧ (t1 < t0)%Z) ∧
(get "Date_Difference" r = NA ↔
   get "Delivery Date" r = NA ∨ get "Document Date" r = NA) ∧
(∀ q, get "Date_Difference" r = Num q → get "Delivery Delay" r = Num q) ∧
(get "Delivery_Date_Anomaly" r = Bool true →
   get "Why PO Delay" r = Str "PO raised after delivery").
Proof.
intros Hp Hr. destruct (session_row _ _ _ _ _ _ _ _ Hp Hr) as (r0 & _ & ->).
rewrite derived_why, derived_delay, derived_anomaly, derived_difference,
  derived_delivery_date, derived_document_date.
destruct (to_datetime_cases parse_datetime (get "Delivery Date" r0)) as [->|[t1 ->]];
  destruct (to_datetime_cases parse_datetime (get "Document Date" r0)) as [->|[t0 ->]];
  cbn [sub_cell dt_days fillna lt_cell]; unfold num; cbn [fillna].
- split_and!; try done; [split; [done|]; by intros (? & ? & ? & _)|split; auto].
- split_and!; try done; [split; [done|]; by intros (? & ? & ? & _)|split; auto].
- split_and!; try done; [split; [done|]; by intros (? & ? & _ & ? & _)|split; auto].
- split_and!.
  + split.
    * intros [= H%bool_decide_eq_true]. eauto.
    * intros (? & ? & [= <-] & [= <-] & H). by rewrite bool_decide_eq_true_2.
  + split; [done|]. intros [?|?]; done.
  + done.
  + intros [= H%bool_decide_eq_true]. apply why_po_delay_num, floor_days_negative. lia.
Qed.

(** X3.  Lines 25 to 57 keep the uploaded records: the stored frame has the
  uploaded rows in their order, with their labels; a column the block does
  not assign has the uploaded cell; the stored columns are the uploaded
  ones and the eight the block adds. *)
Theorem stored_frame_keeps_upload (now : Z) (df : DataFrame) (t : Tables) :
process now df = Ok t →
label <$> rows (session_df t) = label <$> rows df ∧
(∀ c, c ∈ columns (session_df t) ↔ c ∈ columns df ∨ c ∈ added_columns) ∧
(∀ i r0, rows df !! i = Some r0 →
   ∃ r, rows (session_df t) !! i = Some r ∧
        ∀ c, c ∉ added_columns → c ∉ coerced_columns → get c r = get c r0).
Proof.
intros Hp. pose proof Hp as [-> Hall]%process_Ok_inv. rewrite rows_session_df.
split_and!.
- rewrite <- list_fmap_compose. apply list_fmap_ext. intros i r _. apply label_derive.
- intros c. unfold tables_of. cbn [session_df]. rewrite elem_of_columns57. split.
  + intros [Hc|Hc]; [|by left].
    destruct (decide (c ∈ added_columns)) as [|Hn]; [by right|]. left.
    apply Hall. unfold assigned57, assigned50, assigned46 in Hc.
    repeat (apply elem_of_cons in Hc as [->|Hc];
            [first [ by apply (bool_decide_unpack _)
                   | destruct Hn; by apply (bool_decide_unpack _) ]|]).
    by apply not_elem_of_nil in Hc.
  + intros [Hc|Hc]; [by right|]. left. revert Hc.
    unfold assigned57, assigned50, assigned46, added_columns.
    rewrite !elem_of_cons. tauto.
- intros i r0 Hr0. exists (derive now r0). rewrite list_lookup_fmap, Hr0. split; [done|].
  intros c Ha Hc. by apply derived_untouched.
Qed.
End derived_fields.

(** * Further properties of the stored tables *)

(** A record without a goods-receipt or an invoice-receipt reference. *)
Definition incomplete (r : Row) : Prop :=
  get "GR Document Number" r = NA ∨ get "IR Document Number" r = NA.

Global Instance incomplete_dec (r : Row) : Decision (incomplete r).
Proof. unfold incomplete. apply _. Defined.

Lemma isna_true (c : cell) : isna c = true ↔ c = NA.
Proof. by destruct c. Qed.

Lemma label_project (cs : list string) (r : Row) : label (project cs r) = label r.
Proof. done. Qed.

Section stored_tables.
Context (parse_datetime : cell → option Z).
Context (parse_numeric : cell → option Qc).
Context (qs : Quicksort).

Local Abbreviation process := (process parse_datetime parse_numeric qs).
Local Abbreviation tables_of := (tables_of parse_datetime parse_numeric qs).
Local Abbreviation derive := (derive parse_datetime parse_numeric).
Local Abbreviation frame57 := (frame57 parse_datetime parse_numeric).
Local Abbreviation to_numeric := (to_numeric parse_numeric).

Lemma rows_delayed_pos (now : Z) (df : DataFrame) :
rows (delayed_pos (tables_of now df))
= project (columns (delayed_pos (tables_of now df)))
    <$> filter incomplete (derive now <$> rows df).
Proof.
unfold tables_of. cbn [delayed_pos]. unfold projected. cbn [rows columns].
rewrite rows_loc_compare, rows_frame57. f_equal.
apply list_filter_iff. intros r. unfold incomplete.
destruct (get "GR Document Number" r), (get "IR Document Number" r); simpl; intuition done.
Qed.

Lemma rows_quantity_errors (now : Z) (df : DataFrame) :
rows (quantity_errors (tables_of now df))
= filter (λ r, is_true_cell (gt_cell (get "Delivery Quantity" r) (get "Ordered Quantity" r)))
         (derive now <$> rows df).
Proof.
unfold tables_of. cbn [quantity_errors].
rewrite <- (list_fmap_id (col (frame57 now df) "Delivery Quantity")).
rewrite <- (list_fmap_id (col (frame57 now df) "Ordered Quantity")).
by rewrite rows_loc_compare, rows_frame57.
Qed.

(** X4.  Lines 126 to 132.  The delayed-PO table holds the records whose
  goods-receipt or invoice-receipt reference is missing in the upload, in
  upload order and with their labels, cut down to the eight output
  columns, or to the seven without "Purchasing Document Number" when the
  upload has no such column. *)
Theorem delayed_pos_records (now : Z) (df : DataFrame) (t : Tables) :
process now df = Ok t →
columns (delayed_pos t)
  = (if decide ("Purchasing Document Number" ∈ columns df)
     then output_columns else tail output_columns) ∧
rows (delayed_pos t)
  = project (columns (delayed_pos t)) <$> filter incomplete (rows (session_df t)) ∧
label <$> rows (delayed_pos t) = label <$> filter incomplete (rows df).
Proof.
intros Hp. pose proof Hp as [-> Hall]%process_Ok_inv.
rewrite rows_delayed_pos, rows_session_df. split_and!.
- unfold tables_of. cbn [delayed_pos]. unfold projected. cbn [columns].
  unfold output_columns. rewrite filter_cons. cbn [tail].
  rewrite (filter_all (λ c, c ∈ columns (frame57 now df))).
  2:{ repeat (apply Forall_cons; split;
              [apply elem_of_columns57;
               first [ left; by apply (bool_decide_unpack _)
                     | right; apply Hall; by apply (bool_decide_unpack _) ]|]).
      apply Forall_nil_2. }
  destruct (decide ("Purchasing Document Number" ∈ columns df)) as [Hin|Hout].
  + rewrite decide_True; [done|]. apply elem_of_columns57. by right.
  + rewrite decide_False; [done|]. intros [Hc|Hc]%elem_of_columns57; [|done].
    revert Hc. by apply (bool_decide_unpack _).
- done.
- rewrite <- list_fmap_compose.
  rewrite <- (list_fmap_id (rows df)) at 2.
  apply (fmap_filter_ext incomplete incomplete (derive now) id).
  + intros r. unfold incomplete, id.
    by rewrite !(derived_untouched parse_datetime parse_numeric now r)
      by by apply (bool_decide_unpack _).
  + intros r. unfold compose, id. by rewrite label_project, label_derive.
Qed.

(** X5.  Line 135.  The quantity-error table holds, in frame order, exactly the
  stored records whose ordered and delivered quantities are both numbers
  with more delivered than ordered; a record with a missing or
  non-numeric quantity is never in it. *)
Theorem quantity_error_records (now : Z) (df : DataFrame) (t : Tables) :
process now df = Ok t →
columns (quantity_errors t) = columns (session_df t) ∧
rows (quantity_errors t) `sublist_of` rows (session_df t) ∧
∀ r, r ∈ rows (quantity_errors t) ↔
     r ∈ rows (session_df t) ∧
     ∃ o d : Qc, get "Ordered Quantity" r = Num o ∧
                 get "Delivery Quantity" r = Num d ∧ o < d.
Proof.
intros Hp. pose proof Hp as [-> Hall]%process_Ok_inv.
rewrite rows_quantity_errors, rows_session_df. split_and!.
- unfold tables_of. cbn [quantity_errors session_df]. apply columns_loc.
- apply sublist_filter.
- intros r. rewrite list_elem_of_filter. split.
  + intros [Hgt Hr]. split; [done|].
    apply list_elem_of_fmap in Hr as (r0 & -> & _). revert Hgt.
    rewrite !(derived_numeric parse_datetime parse_numeric now r0)
      by by apply (bool_decide_unpack _).
    destruct (to_numeric_cases parse_numeric (get "Ordered Quantity" r0)) as [->|[o ->]];
      destruct (to_numeric_cases parse_numeric (get "Delivery Quantity" r0)) as [->|[d ->]];
      try done.
    unfold gt_cell; cbn [lt_cell is_true_cell]. intros Hlt. exists o, d.
    split_and!; [done..|]. apply (bool_decide_unpack _).
    by destruct (bool_decide (o < d)).
  + intros [Hr (o & d & Ho & Hd & Hlt)]. split; [|done].
    rewrite Ho, Hd. unfold gt_cell; cbn [lt_cell is_true_cell].
    by rewrite bool_decide_eq_true_2.
Qed.
End stored_tables.

(** * Grouped tables: keys and totals *)

Lemma key_cmp_antisym (k1 k2 : list cell) : key_cmp k1 k2 = CompOpp (key_cmp k2 k1).
Proof.
  revert k2. induction k1 as [|a k1 IH]; intros [|b k2]; simpl; try done.
  rewrite (cell_cmp_antisym a b), IH. by destruct (cell_cmp b a).
Qed.

Global Instance key_le_total : Total key_le.
Proof.
  intros k1 k2. unfold key_le. rewrite (key_cmp_antisym k2 k1).
  destruct (key_cmp k1 k2); simpl; auto.
Qed.

(** [table] has one row per distinct complete key of [records], keys in
    ascending order, rows labelled 0, 1, ... *)
Definition keyed_by (keys : list string) (records : list Row) (table : DataFrame) : Prop :=
  let ks := key_of keys <$> rows table in
  NoDup ks ∧ Sorted key_le ks ∧
  (∀ k, k ∈ ks ↔ complete_key k ∧ ∃ r, r ∈ records ∧ key_of keys r = k) ∧
  label <$> rows table = seq 0 (length (rows table)).

Lemma key_of_group_row keys aggs rs i k :
  NoDup keys → length k = length keys → key_of keys (group_row keys aggs rs i k) = k.
Proof.
  intros Hnd Hlen. unfold key_of. apply list_eq. intros j.
  rewrite list_lookup_fmap.
  destruct (keys !! j) as [c|] eqn:Ec; simpl.
  - destruct (lookup_lt_is_Some_2 k j) as [v Hv].
    { rewrite Hlen. by eapply lookup_lt_Some. }
    rewrite Hv. f_equal. by apply (get_group_row_key _ _ _ _ _ j).
  - symmetry. apply lookup_ge_None. rewrite Hlen. by apply lookup_ge_None.
Qed.

Lemma keys_of_grouped (df : DataFrame) keys aggs :
  NoDup keys →
  key_of keys <$> rows (grouped df keys aggs) = group_keys keys (rows df).
Proof.
  intros Hnd. unfold grouped; cbn [rows]. rewrite fmap_imap.
  rewrite (imap_as_fmap _ id); [apply list_fmap_id|].
  intros i k Hk. unfold compose, id. apply key_of_group_row; [done|].
  apply list_elem_of_lookup_2, elem_of_group_keys in Hk as (_ & r & _ & <-).
  apply key_of_length.
Qed.

Lemma labels_of_grouped (df : DataFrame) keys aggs :
  label <$> rows (grouped df keys aggs) = seq 0 (length (rows (grouped df keys aggs))).
Proof.
  unfold grouped; cbn [rows]. rewrite fmap_imap, length_imap.
  generalize (group_keys keys (rows df)). intros l.
  rewrite (imap_ext _ (λ i _, i)) by done.
  apply list_eq. intros i. rewrite list_lookup_imap.
  destruct (l !! i) eqn:E; simpl.
  - symmetry. apply lookup_seq. split; [done|]. by eapply lookup_lt_Some.
  - symmetry. apply lookup_ge_None. rewrite length_seq. by apply lookup_ge_None.
Qed.

Lemma grouped_keyed_by (df : DataFrame) keys aggs :
  NoDup keys → keyed_by keys (rows df) (grouped df keys aggs).
Proof.
  intros Hnd. unfold keyed_by. cbv zeta. rewrite keys_of_grouped by done. split_and!.
  - apply NoDup_group_keys.
  - unfold group_keys. apply Sorted_merge_sort. apply _.
  - apply elem_of_group_keys.
  - apply labels_of_grouped.
Qed.

Lemma key_of_rename_row (keys old new : list string) (r : Row) :
  NoDup new → length old = length new →
  (∀ j c, keys !! j = Some c → old !! j = Some c ∧ new !! j = Some c) →
  key_of keys (rename_row old new r) = key_of keys r.
Proof.
  intros Hnd Hlen Hk. unfold key_of. apply list_fmap_ext. intros j c Hc.
  destruct (Hk j c Hc) as [Ho Hn]. by apply (get_rename_row old new r j).
Qed.

Lemma renamed_keyed_by (g : DataFrame) (keys names : list string) (records : list Row) :
  NoDup names → length (columns g) = length names →
  (∀ j c, keys !! j = Some c → columns g !! j = Some c ∧ names !! j = Some c) →
  keyed_by keys records g → keyed_by keys records (renamed g names).
Proof.
  intros Hnd Hlen Hk. unfold keyed_by. cbv zeta. rewrite rows_renamed, length_fmap.
  assert (key_of keys <$> (rename_row (columns g) names <$> rows g)
          = key_of keys <$> rows g) as ->.
  { rewrite <- list_fmap_compose. apply list_fmap_ext.
    intros i r _. by apply key_of_rename_row. }
  assert (label <$> (rename_row (columns g) names <$> rows g) = label <$> rows g) as ->.
  { rewrite <- list_fmap_compose. by apply list_fmap_ext. }
  done.
Qed.

Section grouped_tables.
Context (parse_datetime : cell → option Z).
Context (parse_numeric : cell → option Qc).
Context (qs : Quicksort).

Local Abbreviation process := (process parse_datetime parse_numeric qs).
Local Abbreviation tables_of := (tables_of parse_datetime parse_numeric qs).
Local Abbreviation derive := (derive parse_datetime parse_numeric).
Local Abbreviation frame57 := (frame57 parse_datetime parse_numeric).
Local Abbreviation to_numeric := (to_numeric parse_numeric).
Local Abbreviation records_sum := (records_sum parse_numeric).

Ltac total_keys :=
apply renamed_keyed_by;
[ by apply (bool_decide_unpack _)
| reflexivity
| intros j c Hc; rewrite columns_grouped;
  repeat (destruct j as [|j]; [injection Hc as <-; by split|]); discriminate Hc
| apply grouped_keyed_by; by apply (bool_decide_unpack _) ].

(** X6.  Lines 60 to 84 and 138 to 148.  Each grouped table has exactly one row
  for every distinct combination of its key columns that occurs among the
  stored records with no key missing, and no other row; the rows come in
  ascending order of the key and are labelled 0, 1, 2, ... *)
Theorem one_row_per_key (now : Z) (df : DataFrame) (t : Tables) :
process now df = Ok t →
let records := rows (session_df t) in
keyed_by vendor_keys records (total_spend_by_vendor t) ∧
keyed_by ["Material Description"; "IT/NON-IT"] records (total_spend_by_material t) ∧
keyed_by ["Service Area"; "IT/NON-IT"] records (total_spend_by_service_area t) ∧
keyed_by ["Month"] records (spend_trend t) ∧
keyed_by ["Vendor Name"] records (vendor_spend t) ∧
keyed_by ["Entity Name"] records (entity_spend t).
Proof.
intros [-> _]%process_Ok_inv. unfold tables_of.
cbn [session_df total_spend_by_vendor total_spend_by_material
     total_spend_by_service_area spend_trend vendor_spend entity_spend].
cbv zeta. split_and!;
  first [ apply grouped_keyed_by; by apply (bool_decide_unpack _) | total_keys ].
Qed.

(** The sum of column [src] over all uploaded records, a cell that is not a
  number counting as 0. *)
Definition upload_sum (src : string) (df : DataFrame) : Qc :=
sum_q ((λ r, num0 (to_numeric (get src r))) <$> rows df).

Lemma grouped_column_sum now df keys aggs src :
src ∉ keys → NoDup aggs.*1 → (src, src) ∈ aggs →
(∀ r, key_of keys (derive now r) = key_of keys r) →
(∀ r, get src (derive now r) = to_numeric (get src r)) →
column_sum src (grouped (frame57 now df) keys aggs) = records_sum keys src df.
Proof.
intros Hsrc Hnd Hin Hkey Hval. unfold column_sum.
rewrite (grouped_rows_sum _ _ _ src src) by done.
rewrite rows_frame57. unfold records_sum.
rewrite <- (list_fmap_id (rows df)) at 2.
f_equal. apply (fmap_filter_ext _ _ (derive now) id).
- intros r. by rewrite Hkey.
- intros r. unfold id. by rewrite Hval.
Qed.

Lemma month_is_a_string now r : ∃ s, get "Month" (derive now r) = Str s.
Proof.
rewrite derived_month. destruct (get "Document Date" _); simpl; eauto.
Qed.

Lemma spend_trend_column_sum now df src :
(src, src) ∈ same_name [ordered_value; invoice_value] →
(∀ r, get src (derive now r) = to_numeric (get src r)) →
column_sum src (grouped (frame57 now df) ["Month"] (same_name [ordered_value; invoice_value]))
= upload_sum src df.
Proof.
intros Hin Hval. unfold column_sum.
rewrite (grouped_rows_sum _ _ _ src src); [| |by apply (bool_decide_unpack _)|done].
- rewrite rows_frame57, filter_all.
  + unfold upload_sum. rewrite <- list_fmap_compose. f_equal.
    apply list_fmap_ext. intros i r _. unfold compose. by rewrite Hval.
  + apply Forall_fmap, Forall_forall. intros r _. unfold compose, complete_key, key_of.
    cbn [fmap list_fmap]. destruct (month_is_a_string now r) as [s ->].
    by intros [= ]%list_elem_of_singleton.
- revert Hin. unfold same_name. cbn [fmap list_fmap].
  rewrite !elem_of_cons. intros [[= -> _]|[[= -> _]|[]%not_elem_of_nil]];
    by apply (bool_decide_unpack _).
Qed.

End grouped_tables.

(** * The session, empty uploads, rounding *)

Lemma grouped_nil (d : DataFrame) keys aggs : rows d = [] → rows (grouped d keys aggs) = [].
Proof. intros H. unfold grouped; cbn [rows]. by rewrite H. Qed.

Lemma sorted_desc_nil (qs : Quicksort) (d : DataFrame) (c : string) :
  rows d = [] → rows (sorted_desc qs d c) = [].
Proof.
  intros H. unfold sorted_desc; cbn [rows]. rewrite H, !filter_nil. cbn [fmap list_fmap].
  rewrite app_nil_r.
  by rewrite (proj1 (Permutation_nil_r _) (quicksort_desc_perm qs Row [])).
Qed.

Lemma loc_nil (d : DataFrame) (m : Series) : rows d = [] → rows (loc d m) = [].
Proof. intros H. unfold loc; cbn [rows]. by rewrite H. Qed.

Lemma round2_hundred : round2 (Qc_of_Z 100) = Qc_of_Z 100.
Proof. apply Qc_is_canon. reflexivity. Qed.

Section session.
Context (parse_datetime : cell → option Z).
Context (parse_numeric : cell → option Qc).
Context (qs : Quicksort).

Local Abbreviation process := (process parse_datetime parse_numeric qs).
Local Abbreviation tables_of := (tables_of parse_datetime parse_numeric qs).
Local Abbreviation script := (script parse_datetime parse_numeric qs).
Local Abbreviation frame57 := (frame57 parse_datetime parse_numeric).
Local Abbreviation frame50 := (frame50 parse_datetime parse_numeric).
Local Abbreviation frame46 := (frame46 parse_datetime parse_numeric).


Lemma rows_frame57_nil (now : Z) (df : DataFrame) : rows df = [] → rows (frame57 now df) = [].
Proof. intros H. by rewrite rows_frame57, H. Qed.

(** X9.  An upload with the columns the block reads and no data line is
  processed without an exception, and every stored table is empty. *)
Theorem empty_upload_gives_empty_tables (now : Z) (df : DataFrame) (t : Tables) :
process now df = Ok t → rows df = [] →
rows (total_spend_by_vendor t) = [] ∧ rows (total_spend_by_material t) = [] ∧
rows (total_spend_by_service_area t) = [] ∧ rows (top_10_vendors t) = [] ∧
rows (top_10_materials t) = [] ∧ rows (top_10_vendors_monthly t) = [] ∧
rows (vendor_summary t) = [] ∧ rows (delayed_pos t) = [] ∧
rows (quantity_errors t) = [] ∧ rows (overbilling_cases t) = [] ∧
rows (session_df t) = [] ∧ rows (spend_trend t) = [] ∧
rows (vendor_spend t) = [] ∧ rows (entity_spend t) = [] ∧
rows (overbilling_df t) = [].
Proof.
intros [-> _]%process_Ok_inv Hnil.
pose proof (rows_frame57_nil now df Hnil) as H57.
assert (rows (frame50 df) = []) as H50 by by rewrite rows_frame50, Hnil.
assert (rows (frame46 df) = []) as H46 by by rewrite rows_frame46, Hnil.
unfold tables_of.
cbn [total_spend_by_vendor total_spend_by_material total_spend_by_service_area
     top_10_vendors top_10_materials top_10_vendors_monthly vendor_summary delayed_pos
     quantity_errors overbilling_cases session_df spend_trend vendor_spend entity_spend
     overbilling_df].
assert (∀ keys aggs, rows (grouped (frame57 now df) keys aggs) = []) as Hg
  by (intros; by apply grouped_nil).
split_and!.
- by rewrite rows_renamed, Hg.
- by rewrite rows_renamed, Hg.
- by rewrite rows_renamed, Hg.
- unfold head; cbn [rows]. rewrite sorted_desc_nil; [done|]. by rewrite rows_renamed, Hg.
- unfold head; cbn [rows]. rewrite sorted_desc_nil; [done|]. by rewrite rows_renamed, Hg.
- rewrite rows_renamed. unfold reset_index, group_heads, sorted_lex; cbn [rows].
  by rewrite Hg.
- rewrite rows_renamed, rows_with_percentage. by rewrite Hg.
- unfold projected; cbn [rows]. by rewrite loc_nil.
- by apply loc_nil.
- by apply loc_nil.
- done.
- apply Hg.
- apply Hg.
- apply Hg.
- by apply loc_nil.
Qed.

End session.

(** * The report (lines 438 to 476) *)

(** [df.to_excel(writer, sheet_name=..., index=False)]: the header line and
    one line of cells per row; the row labels are left out. *)
Definition to_excel (df : DataFrame) : Sheet :=
  {| header := columns df;
     body := (λ r, (λ c, get c r) <$> columns df) <$> rows df |}.

(** The column list of lines 452 to 457 and 464 to 468. *)
Definition analysis_columns (amount : string) : list string :=
  ["Purchasing Document Number"; "Document Date"; "Delivery Date";
   "Vendor Name"; "Vendor Number"; "Entity Name"; "IT/NON-IT";
   ordered_value; invoice_value; amount].

(** Lines 452 to 458 *)
Definition overbilling_analysis (qs : Quicksort) (t : Tables) : result DataFrame :=
  d ← select (overbilling_df t) (analysis_columns "Overbilling Amount");
  sort_values_desc qs d "Overbilling Amount".

(** Lines 462 to 469 *)
Definition underbilling_analysis (qs : Quicksort) (t : Tables) : result DataFrame :=
  u ← underbilling_df t;
  d ← select u (analysis_columns "Underbilling Amount");
  sort_values_desc qs d "Underbilling Amount".

(** Lines 438 to 476: the sheets of the workbook, in the order they are
    written.  An exception leaves the run without a workbook to download. *)
Definition report (qs : Quicksort) (t : Tables) : result (list (string * Sheet)) :=
  let sheets :=
    [("Total Spend by Vendor", to_excel (total_spend_by_vendor t));
     ("Total Spend by Material", to_excel (total_spend_by_material t));
     ("Total Spend by Service Area", to_excel (total_spend_by_service_area t));
     ("Top 10 Vendors", to_excel (top_10_vendors t));
     ("Top 10 Materials", to_excel (top_10_materials t));
     ("Top 10 Vendors Monthly", to_excel (top_10_vendors_monthly t));
     ("Vendor Analysis", to_excel (vendor_summary t));
     ("Delayed POs", to_excel (delayed_pos t));
     ("Quantity Errors", to_excel (quantity_errors t))] in
  o ← overbilling_analysis qs t;
  let sheets := sheets ++ [("Overbilling Analysis", to_excel o)] in
  u ← underbilling_analysis qs t;
  mret (sheets ++ [("Underbilling Analysis", to_excel u)]).

Definition sheet_names : list string :=
  ["Total Spend by Vendor"; "Total Spend by Material"; "Total Spend by Service Area";
   "Top 10 Vendors"; "Top 10 Materials"; "Top 10 Vendors Monthly"; "Vendor Analysis";
   "Delayed POs"; "Quantity Errors"; "Overbilling Analysis"; "Underbilling Analysis"].

(** The frame of lines 413-414 and 462-463, when the amount column exists. *)
Definition underbilling_frame (d : DataFrame) : DataFrame :=
  let u := loc d ((λ x, lt_cell x (num 0)) <$> col d "Overbilling Amount") in
  setitem u "Underbilling Amount" (neg_cell <$> col u "Overbilling Amount").

Lemma underbilling_df_frame (t : Tables) :
  "Overbilling Amount" ∈ columns (session_df t) →
  underbilling_df t = Ok (underbilling_frame (session_df t)).
Proof.
  intros Hin. unfold underbilling_df.
  rewrite (getitem_Ok _ _ Hin). cbn [mbind result_bind].
  rewrite getitem_Ok by (by rewrite columns_loc). done.
Qed.

Lemma rows_underbilling_frame (d : DataFrame) :
  rows (underbilling_frame d)
  = (λ r, set "Underbilling Amount" (neg_cell (get "Overbilling Amount" r)) r)
      <$> filter (λ r, is_true_cell (lt_cell (get "Overbilling Amount" r) (num 0))) (rows d).
Proof.
  unfold underbilling_frame. cbv zeta. unfold col at 2.
  rewrite <- list_fmap_compose, rows_setitem. f_equal.
  unfold col. rewrite <- list_fmap_compose.
  apply (rows_loc d (λ r, lt_cell (get "Overbilling Amount" r) (num 0))).
Qed.

Lemma columns_underbilling_frame (d : DataFrame) :
  columns (underbilling_frame d) = add_col "Underbilling Amount" (columns d).
Proof. done. Qed.

Lemma get_project (cs : list string) (c : string) (r : Row) :
  get c (project cs r) = if decide (c ∈ cs) then get c r else NA.
Proof.
  unfold get, project; cbn [cells]. unfold lookup_total, map_lookup_total.
  destruct (decide (c ∈ cs)) as [Hin|Hout].
  - destruct (cells r !! c) as [v|] eqn:E.
    + by rewrite (map_lookup_filter_Some_2 _ _ c v E Hin).
    + by rewrite (proj2 (map_lookup_filter_None _ _ c) (or_introl E)).
  - rewrite (proj2 (map_lookup_filter_None _ _ c)); [done|].
    right. intros v _. exact Hout.
Qed.

Lemma select_Ok (df : DataFrame) (cs : list string) :
  (∀ c, c ∈ cs → c ∈ columns df) → select df cs = Ok (projected df cs).
Proof. intros H. unfold select. by rewrite require_Ok. Qed.

Lemma select_first_missing (df : DataFrame) (c : string) (cs : list string) :
  c ∉ columns df → select df (c :: cs) = Raise (KeyError c).
Proof. intros H. unfold select, require. by rewrite filter_cons, decide_True. Qed.

Lemma sort_values_desc_Ok (qs : Quicksort) (df : DataFrame) (c : string) :
  c ∈ columns df → sort_values_desc qs df c = Ok (sorted_desc qs df c).
Proof.
  intros H. unfold sort_values_desc. rewrite require_Ok; [done|].
  by intros c' ->%list_elem_of_singleton.
Qed.

Lemma select_Ok_inv (df d : DataFrame) (cs : list string) :
  select df cs = Ok d → d = projected df cs.
Proof. unfold select. destruct (require df cs); simpl; [by intros [= <-]|discriminate]. Qed.

Lemma sort_values_desc_Ok_inv (qs : Quicksort) (df d : DataFrame) (c : string) :
  sort_values_desc qs df c = Ok d → d = sorted_desc qs df c.
Proof.
  unfold sort_values_desc. destruct (require df [c]); simpl; [by intros [= <-]|discriminate].
Qed.

Lemma positive_amount (c : cell) :
  is_true_cell (gt_cell c (num 0)) → ∃ q, c = Num q ∧ 0 < q.
Proof.
  unfold gt_cell, num. destruct c as [|q| | | | |]; try done.
  cbn [lt_cell is_true_cell]. rewrite Z2Qc_inj_0. intros H.
  exists q. split; [done|]. apply (bool_decide_unpack _). by destruct (bool_decide _).
Qed.

Lemma negative_amount (c : cell) :
  is_true_cell (lt_cell c (num 0)) → ∃ q, c = Num q ∧ q < 0.
Proof.
  unfold num. destruct c as [|q| | | | |]; try done.
  cbn [lt_cell is_true_cell]. rewrite Z2Qc_inj_0. intros H.
  exists q. split; [done|]. apply (bool_decide_unpack _). by destruct (bool_decide _).
Qed.

Section report_facts.
Context (parse_datetime : cell → option Z).
Context (parse_numeric : cell → option Qc).
Context (qs : Quicksort).

Local Abbreviation process := (process parse_datetime parse_numeric qs).
Local Abbreviation tables_of := (tables_of parse_datetime parse_numeric qs).
Local Abbreviation derive := (derive parse_datetime parse_numeric).
Local Abbreviation derive50 := (derive50 parse_datetime parse_numeric).
Local Abbreviation frame57 := (frame57 parse_datetime parse_numeric).
Local Abbreviation frame50 := (frame50 parse_datetime parse_numeric).
Local Abbreviation to_numeric := (to_numeric parse_numeric).

Lemma amount_in_session (now : Z) (df : DataFrame) :
"Overbilling Amount" ∈ columns (session_df (tables_of now df)).
Proof.
unfold tables_of. cbn [session_df]. apply elem_of_columns57. left.
by apply (bool_decide_unpack _).
Qed.

Lemma columns_overbilling_df (now : Z) (df : DataFrame) (c : string) :
c ∈ columns (overbilling_df (tables_of now df)) ↔ c ∈ assigned50 ∨ c ∈ columns df.
Proof. unfold tables_of. cbn [overbilling_df]. rewrite columns_loc. apply elem_of_columns50. Qed.

Lemma columns_session_df (now : Z) (df : DataFrame) (c : string) :
c ∈ columns (session_df (tables_of now df)) ↔ c ∈ assigned57 ∨ c ∈ columns df.
Proof. unfold tables_of. cbn [session_df]. apply elem_of_columns57. Qed.

Lemma overbilling_columns_present (now : Z) (df : DataFrame) :
(∀ c, c ∈ required_columns → c ∈ columns df) →
"Purchasing Document Number" ∈ columns df →
∀ c, c ∈ analysis_columns "Overbilling Amount" →
     c ∈ columns (overbilling_df (tables_of now df)).
Proof.
intros Hall Hpo. apply Forall_forall.
repeat (apply Forall_cons; split;
        [apply columns_overbilling_df;
         first [ left; by apply (bool_decide_unpack _)
               | right; apply Hall; by apply (bool_decide_unpack _)
               | right; exact Hpo ]|]).
apply Forall_nil_2.
Qed.

Lemma underbilling_columns_present (now : Z) (df : DataFrame) :
(∀ c, c ∈ required_columns → c ∈ columns df) →
"Purchasing Document Number" ∈ columns df →
∀ c, c ∈ analysis_columns "Underbilling Amount" →
     c ∈ columns (underbilling_frame (session_df (tables_of now df))).
Proof.
intros Hall Hpo. apply Forall_forall.
repeat (apply Forall_cons; split;
        [rewrite columns_underbilling_frame; apply elem_of_add_col;
         first [ by left
               | right; apply columns_session_df;
                 first [ left; by apply (bool_decide_unpack _)
                       | right; apply Hall; by apply (bool_decide_unpack _)
                       | right; exact Hpo ] ]|]).
apply Forall_nil_2.
Qed.

Lemma overbilling_analysis_Ok (t : Tables) :
(∀ c, c ∈ analysis_columns "Overbilling Amount" → c ∈ columns (overbilling_df t)) →
∃ o, overbilling_analysis qs t = Ok o.
Proof.
intros H. unfold overbilling_analysis. rewrite select_Ok by done.
cbn [mbind result_bind]. rewrite sort_values_desc_Ok; [eauto|].
by apply (bool_decide_unpack _).
Qed.

Lemma underbilling_analysis_Ok (t : Tables) :
"Overbilling Amount" ∈ columns (session_df t) →
(∀ c, c ∈ analysis_columns "Underbilling Amount" →
      c ∈ columns (underbilling_frame (session_df t))) →
∃ u, underbilling_analysis qs t = Ok u.
Proof.
intros Hin H. unfold underbilling_analysis. rewrite underbilling_df_frame by done.
cbn [mbind result_bind]. rewrite select_Ok by done.
cbn [mbind result_bind]. rewrite sort_values_desc_Ok; [eauto|].
by apply (bool_decide_unpack _).
Qed.

Lemma report_Ok (t : Tables) (o u : DataFrame) :
overbilling_analysis qs t = Ok o → underbilling_analysis qs t = Ok u →
∃ sheets, report qs t = Ok sheets ∧ sheets.*1 = sheet_names.
Proof.
intros Ho Hu. unfold report. rewrite Ho, Hu. cbn [mbind result_bind mret result_ret].
eexists. split; reflexivity.
Qed.

Lemma report_Raise (t : Tables) (c : string) :
c ∉ columns (overbilling_df t) →
analysis_columns "Overbilling Amount" !! 0%nat = Some c →
report qs t = Raise (KeyError c).
Proof.
intros Hc [= <-]. unfold report, overbilling_analysis, analysis_columns.
by rewrite select_first_missing.
Qed.

(** X11.  Lines 438 to 476.  After an upload is processed, the report can be
  generated exactly when the upload has a "Purchasing Document Number"
  column: then the workbook has the eleven sheets, in the order written;
  without that column the report ends with a [KeyError] naming it, although
  the processing block accepted the upload. *)
Theorem report_needs_document_number (now : Z) (df : DataFrame) (t : Tables) :
process now df = Ok t →
("Purchasing Document Number" ∈ columns df →
   ∃ sheets, report qs t = Ok sheets ∧ sheets.*1 = sheet_names) ∧
("Purchasing Document Number" ∉ columns df →
   report qs t = Raise (KeyError "Purchasing Document Number")).
Proof.
intros Hp. pose proof Hp as [-> Hall]%process_Ok_inv. split.
- intros Hpo.
  destruct (overbilling_analysis_Ok (tables_of now df)) as [o Ho];
    [by apply overbilling_columns_present|].
  destruct (underbilling_analysis_Ok (tables_of now df)) as [u Hu];
    [apply amount_in_session|by apply underbilling_columns_present|].
  exact (report_Ok _ o u Ho Hu).
- intros Hpo. apply report_Raise; [|reflexivity].
  intros [Hc|Hc]%columns_overbilling_df; [|done].
  revert Hc. by apply (bool_decide_unpack _).
Qed.

Lemma overbilled_rows_positive (now : Z) (df : DataFrame) :
Forall (λ r, ∃ q, get "Overbilling Amount" r = Num q ∧ 0 < q)
  (project (analysis_columns "Overbilling Amount")
     <$> rows (overbilling_df (tables_of now df))).
Proof.
rewrite rows_overbilling_df.
apply Forall_fmap, Forall_forall. intros r [Hr _]%list_elem_of_filter.
unfold compose. rewrite get_project, decide_True by by apply (bool_decide_unpack _).
by apply positive_amount.
Qed.

Lemma underbilled_row (now : Z) (r0 : Row) :
let r := derive now r0 in
is_true_cell (lt_cell (get "Overbilling Amount" r) (num 0)) →
∃ a b, get invoice_value r = Num a ∧ get ordered_value r = Num b ∧ a < b ∧
       neg_cell (get "Overbilling Amount" r) = Num (b - a).
Proof.
intros r Hr. subst r.
apply negative_amount in Hr as (q & Hq & Hlt). rewrite Hq. revert Hq.
rewrite derived_amount, derived_invoice, derived_ordered.
destruct (to_numeric_cases parse_numeric (get invoice_value r0)) as [->|[a ->]];
  destruct (to_numeric_cases parse_numeric (get ordered_value r0)) as [->|[b ->]];
  try done.
cbn [sub_cell neg_cell]. intros [= <-]. exists a, b. split_and!; [done..| |].
- apply (Qcplus_lt_mono_r _ _ (- b)). by replace (b + - b) with 0 by ring.
- f_equal. ring.
Qed.

Lemma underbilled_rows (now : Z) (df : DataFrame) :
Forall (λ r, ∃ a b, get invoice_value r = Num a ∧ get ordered_value r = Num b ∧
                    a < b ∧ get "Underbilling Amount" r = Num (b - a))
  (project (analysis_columns "Underbilling Amount")
     <$> rows (underbilling_frame (session_df (tables_of now df)))).
Proof.
rewrite rows_underbilling_frame, rows_session_df.
apply Forall_fmap, Forall_fmap, Forall_forall.
intros r [Hr (r0 & -> & _)%list_elem_of_fmap]%list_elem_of_filter.
unfold compose.
rewrite !get_project, !decide_True by by apply (bool_decide_unpack _).
rewrite !get_set_b. cbn [String.eqb Ascii.eqb Bool.eqb invoice_value ordered_value].
by apply underbilled_row.
Qed.

Lemma underbilled_labels (d : DataFrame) (cs : list string) :
label <$> (project cs <$> rows (underbilling_frame d))
= label <$> filter (λ r, amount_sign r = Some Lt) (rows d).
Proof.
rewrite rows_underbilling_frame, <- !list_fmap_compose.
rewrite (list_filter_iff _ (λ r, amount_sign r = Some Lt)) by apply negative_sign.
by apply list_fmap_ext.
Qed.

(** A projected frame sorted by descending [c], when the column holds
  numbers. *)
Lemma analysis_sorted (d : DataFrame) (cs : list string) (c : string) (o : DataFrame) :
Forall (λ r, is_num (get c r) = true) (project cs <$> rows d) →
(d' ← select d cs; sort_values_desc qs d' c) = Ok o →
columns o = cs ∧ rows o ≡ₚ project cs <$> rows d ∧ Sorted (descending c) (rows o).
Proof.
intros Hnum (d' & ->%select_Ok_inv & ->%sort_values_desc_Ok_inv)%bind_Ok_inv.
destruct (sorted_desc_rows qs (projected d cs) c Hnum) as [Hperm Hsorted].
done.
Qed.

Lemma overbilling_analysis_sorted (t : Tables) (o : DataFrame) :
Forall (λ r, is_num (get "Overbilling Amount" r) = true)
  (project (analysis_columns "Overbilling Amount") <$> rows (overbilling_df t)) →
overbilling_analysis qs t = Ok o →
columns o = analysis_columns "Overbilling Amount" ∧
rows o ≡ₚ project (analysis_columns "Overbilling Amount") <$> rows (overbilling_df t) ∧
Sorted (descending "Overbilling Amount") (rows o).
Proof. intros Hnum Ho. by apply (analysis_sorted (overbilling_df t)). Qed.

Lemma underbilling_analysis_sorted (t : Tables) (u : DataFrame) :
"Overbilling Amount" ∈ columns (session_df t) →
Forall (λ r, is_num (get "Underbilling Amount" r) = true)
  (project (analysis_columns "Underbilling Amount")
     <$> rows (underbilling_frame (session_df t))) →
underbilling_analysis qs t = Ok u →
columns u = analysis_columns "Underbilling Amount" ∧
rows u ≡ₚ project (analysis_columns "Underbilling Amount")
            <$> rows (underbilling_frame (session_df t)) ∧
Sorted (descending "Underbilling Amount") (rows u).
Proof.
intros Hin Hnum Hu. apply (analysis_sorted (underbilling_frame (session_df t))); [done|].
revert Hu. unfold underbilling_analysis. by rewrite underbilling_df_frame.
Qed.

(** X12.  Lines 452 to 469.  The overbilling sheet lists the overbilled records,
  cut down to the ten analysis columns, by descending amount; every amount
  is a positive number.  The underbilling sheet lists the records invoiced
  below their ordered value, by descending underbilling amount, which is
  the ordered minus the invoiced value. *)
Theorem billing_sheets_sorted (now : Z) (df : DataFrame) (t : Tables) (o u : DataFrame) :
process now df = Ok t →
overbilling_analysis qs t = Ok o →
underbilling_analysis qs t = Ok u →
(columns o = analysis_columns "Overbilling Amount" ∧
 rows o ≡ₚ project (analysis_columns "Overbilling Amount") <$> rows (overbilling_df t) ∧
 Sorted (descending "Overbilling Amount") (rows o) ∧
 Forall (λ r, ∃ q, get "Overbilling Amount" r = Num q ∧ 0 < q) (rows o)) ∧
(columns u = analysis_columns "Underbilling Amount" ∧
 label <$> rows u
   ≡ₚ label <$> filter (λ r, amount_sign r = Some Lt) (rows (session_df t)) ∧
 Sorted (descending "Underbilling Amount") (rows u) ∧
 Forall (λ r, ∃ a b, get invoice_value r = Num a ∧ get ordered_value r = Num b ∧
                     a < b ∧ get "Underbilling Amount" r = Num (b - a)) (rows u)).
Proof.
intros Hp Ho Hu. apply process_Ok_inv in Hp as [-> Hall].
pose proof (overbilled_rows_positive now df) as Hpos.
pose proof (underbilled_rows now df) as Hneg.
pose proof (underbilled_labels (session_df (tables_of now df))
              (analysis_columns "Underbilling Amount")) as Hlab.
apply overbilling_analysis_sorted in Ho as (Hco & Hpo & Hso).
2:{ eapply Forall_impl; [exact Hpos|]. by intros r (q & -> & _). }
apply underbilling_analysis_sorted in Hu as (Hcu & Hpu & Hsu).
2:{ apply amount_in_session. }
2:{ eapply Forall_impl; [exact Hneg|]. by intros r (a & b & _ & _ & _ & ->). }
split.
- split_and!; [exact Hco|exact Hpo|exact Hso|by rewrite Hpo].
- split_and!; [exact Hcu| |exact Hsu|by rewrite Hpu].
  by rewrite Hpu, Hlab.
Qed.
End report_facts.

(** * The views (lines 189 to 435) *)

(** What a view gives: the frame it charts, or the exception that ends the
    run: one of pandas, or the [TypeError] of comparing values of two
    types. *)
Inductive shown (A : Type) : Type :=
  | Shown (a : A)
  | Failed (e : exn)
  | TypeError.
Arguments Shown {A} a.
Arguments Failed {A} e.
Arguments TypeError {A}.

(** [s.unique()]: the distinct values, in order of first appearance; a
    missing value is one of them. *)
Fixpoint unique (s : Series) : list cell :=
  match s with
  | [] => []
  | x :: s' => x :: filter (λ y, y ≠ x) (unique s')
  end.

(** The Python type of a value of an object column: missing values are
    floats, as numbers are. *)
Definition py_class (c : cell) : nat :=
  match c with
  | NA | Num _ | Bool _ => 0
  | Str _ => 1
  | Ts _ => 2
  | Td _ => 3
  | Per _ => 4
  end.

Definition same_class (l : list cell) : bool :=
  match l with
  | [] => true
  | x :: l' => forallb (λ y, Nat.eqb (py_class y) (py_class x)) l'
  end.

Definition cell_le (a b : cell) : Prop := not_gt (cell_cmp a b) = true.

Global Instance cell_le_dec : RelDecision cell_le.
Proof. intros a b. unfold cell_le. apply _. Defined.

(** [sorted(values)]: a sort by comparisons, which raises [TypeError] when
    it has to compare a string with a number or a missing value. *)
Definition py_sorted (l : list cell) : option (list cell) :=
  if same_class l then Some (merge_sort cell_le l) else None.

(** [st.selectbox(label, options)]: the option chosen, the first one unless
    the user picks another; [None] when there is no option. *)
Definition selectbox (options : list cell) (choice : nat) : cell :=
  default NA (options !! choice).

(** Lines 315 to 317, for the month chosen in the select box. *)
Definition monthly_data (qs : Quicksort) (t : Tables) (selected_month : cell)
    : result DataFrame :=
  let tm := top_10_vendors_monthly t in
  s ← getitem tm "Month";
  let monthly_data := loc tm ((λ x, eq_cell x selected_month) <$> s) in
  sort_values_desc qs monthly_data "Total PO Ordered Value".

(** "Monthly Top Vendors Trend", lines 313 to 317; [choice] is the position
    the user picks in the select box. *)
Definition monthly_top_view (qs : Quicksort) (t : Tables) (choice : nat)
    : shown DataFrame :=
  match getitem (top_10_vendors_monthly t) "Month" with
  | Raise e => Failed e
  | Ok all_months =>
      match py_sorted (unique all_months) with
      | None => TypeError
      | Some options =>
          match monthly_data qs t (selectbox options choice) with
          | Ok v => Shown v
          | Raise e => Failed e
          end
      end
  end.

Lemma elem_of_unique (x : cell) (s : Series) : x ∈ unique s ↔ x ∈ s.
Proof.
  induction s as [|y s IH]; simpl; [done|].
  rewrite !elem_of_cons, list_elem_of_filter, IH.
  destruct (decide (x = y)); tauto.
Qed.

Lemma same_class_strings (l : list cell) :
  Forall (λ x, ∃ s, x = Str s) l → same_class l = true.
Proof.
  intros [|x l' [s ->] Hl]; [done|]. simpl. apply forallb_forall.
  intros y Hy%list_elem_of_In. rewrite Forall_forall in Hl.
  by destruct (Hl y Hy) as [s' ->].
Qed.

Lemma same_class_mixed (l : list cell) (s : string) :
  NA ∈ l → Str s ∈ l → same_class l = false.
Proof.
  destruct l as [|x l']; [by intros []%not_elem_of_nil|]. simpl.
  intros Hna Hstr. apply not_true_is_false. intros Hall.
  rewrite forallb_forall in Hall.
  assert (∀ y, y ∈ x :: l' → py_class y = py_class x) as Hc.
  { intros y [->|Hy]%elem_of_cons; [done|].
    apply Nat.eqb_eq, Hall. by apply list_elem_of_In. }
  pose proof (Hc _ Hna) as H1. pose proof (Hc _ Hstr) as H2.
  simpl in H1, H2. congruence.
Qed.

Lemma group_head_rows_subset (n : nat) (c : string) (seen : list cell) (rs : list Row) :
  ∀ r, r ∈ group_head_rows n c seen rs → r ∈ rs.
Proof.
  revert seen. induction rs as [|r0 rs IH]; intros seen r; simpl; [done|].
  destruct (isna (get c r0)); [right; by eapply IH|].
  case_decide as Hn.
  - intros [->|Hr]%elem_of_cons; [left|right; by eapply IH].
  - right. by eapply IH.
Qed.

Lemma group_head_rows_keyed (n : nat) (c : string) (seen : list cell) (rs : list Row) :
  Forall (λ r, get c r ≠ NA) (group_head_rows n c seen rs).
Proof.
  revert seen. induction rs as [|r0 rs IH]; intros seen; simpl; [done|].
  destruct (isna (get c r0)) eqn:E; [apply IH|].
  case_decide as Hn; [|apply IH]. constructor; [|apply IH]. intros Hk. by rewrite Hk in E.
Qed.

Lemma Forall_imap {A B : Type} (P : B → Prop) (f : nat → A → B) (l : list A) :
  (∀ i x, x ∈ l → P (f i x)) → Forall P (imap f l).
Proof.
  revert f. induction l as [|x l IH]; intros f H; simpl; constructor.
  - apply H. left.
  - apply IH. intros i y Hy. apply H. by right.
Qed.

Lemma length_filter_imap {A B : Type} (P : B → Prop) (Q : A → Prop)
    `{!∀ x, Decision (P x), !∀ x, Decision (Q x)} (f : nat → A → B) (l : list A) :
  (∀ i x, P (f i x) ↔ Q x) → length (filter P (imap f l)) = length (filter Q l).
Proof.
  revert f. induction l as [|x l IH]; intros f Hf; simpl; [done|].
  rewrite !filter_cons.
  destruct (decide (P (f 0%nat x))) as [HP|HP], (decide (Q x)) as [HQ|HQ]; simpl.
  - f_equal. apply IH. intros i y. apply Hf.
  - by apply Hf in HP.
  - destruct HP. by apply Hf.
  - apply IH. intros i y. apply Hf.
Qed.

Lemma eq_cell_true (a b : cell) : is_true_cell (eq_cell a b) ↔ a = b ∧ a ≠ NA.
Proof.
  destruct a, b; cbn [eq_cell is_true_cell];
    try (split; [intros [] | intros [? ?]; congruence]);
    case_bool_decide; (split; [try done; intros _; by split | try done; by intros [? _]]).
Qed.

(** Lines 98 to 101 on the monthly totals [monthly]. *)
Definition monthly_top (monthly : DataFrame) : DataFrame :=
  renamed (reset_index (group_heads
             (sorted_lex monthly [("Month", true); (ordered_value, false)]) "Month" 10))
          ("Month" :: vendor_keys ++ total_names).

Definition monthly_heads (monthly : DataFrame) : list Row :=
  group_head_rows 10 "Month" []
    (stable_sort (by_leb [("Month", true); (ordered_value, false)]) (rows monthly)).

Lemma rows_monthly_top (monthly : DataFrame) :
  rows (monthly_top monthly)
  = imap (λ i r, rename_row (columns monthly) ("Month" :: vendor_keys ++ total_names)
                   (mkRow i (cells r)))
         (monthly_heads monthly).
Proof. unfold monthly_top. rewrite rows_renamed. cbn [rows reset_index group_heads sorted_lex
  columns]. by rewrite fmap_imap. Qed.

Lemma monthly_top_cells (monthly : DataFrame) (i : nat) (r : Row) :
  columns monthly = ("Month" :: vendor_keys) ++ spend_sums.*1 →
  let r' := rename_row (columns monthly) ("Month" :: vendor_keys ++ total_names)
              (mkRow i (cells r)) in
  get "Month" r' = get "Month" r ∧
  get "Total PO Ordered Value" r' = get ordered_value r.
Proof.
  intros Hc r'. subst r'. rewrite Hc. split.
  - by rewrite (get_rename_row _ _ _ 0 "Month") by by apply (bool_decide_unpack _).
  - by rewrite (get_rename_row _ _ _ 5 ordered_value) by by apply (bool_decide_unpack _).
Qed.

Lemma monthly_heads_in (monthly : DataFrame) (r : Row) :
  r ∈ monthly_heads monthly → r ∈ rows monthly ∧ get "Month" r ≠ NA.
Proof.
  intros Hr. split.
  - apply group_head_rows_subset in Hr. by rewrite stable_sort_perm in Hr.
  - pose proof (group_head_rows_keyed 10 "Month" []
                  (stable_sort (by_leb [("Month", true); (ordered_value, false)])
                     (rows monthly))) as Hk.
    rewrite Forall_forall in Hk. by apply Hk.
Qed.

Lemma monthly_top_selection (monthly : DataFrame) (m : cell) :
  columns monthly = ("Month" :: vendor_keys) ++ spend_sums.*1 →
  Forall (λ r, is_num (get ordered_value r) = true) (rows monthly) →
  let selected := filter (λ r, is_true_cell (eq_cell (get "Month" r) m))
                         (rows (monthly_top monthly)) in
  selected = filter (λ r, get "Month" r = m) (rows (monthly_top monthly)) ∧
  (length selected ≤ 10)%nat ∧
  Forall (λ r, is_num (get "Total PO Ordered Value" r) = true) selected.
Proof.
  intros Hc Hnum selected.
  assert (Forall (λ r, get "Month" r ≠ NA ∧ is_num (get "Total PO Ordered Value" r) = true)
            (rows (monthly_top monthly))) as Hrows.
  { rewrite rows_monthly_top. apply Forall_imap. intros i r Hr.
    destruct (monthly_top_cells monthly i r Hc) as [-> ->].
    apply monthly_heads_in in Hr as [Hr Hk]. split; [done|].
    rewrite Forall_forall in Hnum. by apply Hnum. }
  assert (selected = filter (λ r, get "Month" r = m) (rows (monthly_top monthly))) as Hsel.
  { subst selected. apply filter_ext_in. intros r Hr. rewrite eq_cell_true.
    rewrite Forall_forall in Hrows. destruct (Hrows r Hr) as [Hk _]. tauto. }
  split_and!; [done| |].
  - rewrite Hsel, rows_monthly_top.
    rewrite (length_filter_imap _ (λ r, get "Month" r = m)).
    2:{ intros i r. by destruct (monthly_top_cells monthly i r Hc) as [-> _]. }
    destruct (decide (m = NA)) as [->|Hm].
    + rewrite filter_none; [simpl; lia|].
      apply Forall_forall. intros r Hr. by apply monthly_heads_in in Hr as [_ Hk].
    + unfold monthly_heads. rewrite filter_group_head_rows by done.
      rewrite length_take. lia.
  - subst selected. apply Forall_forall. intros r [_ Hr]%list_elem_of_filter.
    rewrite Forall_forall in Hrows. by destruct (Hrows r Hr).
Qed.

Lemma monthly_data_inv (qs : Quicksort) (t : Tables) (m : cell) (v : DataFrame) :
  monthly_data qs t m = Ok v →
  v = sorted_desc qs
        (loc (top_10_vendors_monthly t)
           ((λ x, eq_cell x m) <$> col (top_10_vendors_monthly t) "Month"))
        "Total PO Ordered Value".
Proof.
  unfold monthly_data.
  intros (s & [_ ->]%getitem_Ok_inv & ->%sort_values_desc_Ok_inv)%bind_Ok_inv. done.
Qed.

Lemma monthly_view_rows (qs : Quicksort) (monthly : DataFrame) (m : cell) :
  columns monthly = ("Month" :: vendor_keys) ++ spend_sums.*1 →
  Forall (λ r, is_num (get ordered_value r) = true) (rows monthly) →
  let tm := monthly_top monthly in
  let v := sorted_desc qs (loc tm ((λ x, eq_cell x m) <$> col tm "Month"))
             "Total PO Ordered Value" in
  (length (rows v) ≤ 10)%nat ∧
  Forall (λ r, get "Month" r = m) (rows v) ∧
  Sorted (descending "Total PO Ordered Value") (rows v) ∧
  rows v ≡ₚ filter (λ r, get "Month" r = m) (rows tm).
Proof.
  intros Hc Hnum tm v. subst v.
  destruct (monthly_top_selection monthly m Hc Hnum) as (Hsel & Hlen & Hn).
  fold tm in Hsel, Hlen, Hn.
  assert (rows (loc tm ((λ x, eq_cell x m) <$> col tm "Month"))
          = filter (λ r, is_true_cell (eq_cell (get "Month" r) m)) (rows tm)) as Hloc.
  { unfold col. rewrite <- list_fmap_compose.
    apply (rows_loc tm (λ r, eq_cell (get "Month" r) m)). }
  destruct (sorted_desc_rows qs (loc tm ((λ x, eq_cell x m) <$> col tm "Month"))
              "Total PO Ordered Value") as [Hperm Hsorted].
  { by rewrite Hloc. }
  rewrite Hloc in Hperm. split_and!.
  - by rewrite Hperm.
  - rewrite Hperm, Hsel. apply Forall_forall. by intros r [? _]%list_elem_of_filter.
  - done.
  - by rewrite Hperm, Hsel.
Qed.

Lemma monthly_data_Ok (qs : Quicksort) (t : Tables) (m : cell) :
  "Month" ∈ columns (top_10_vendors_monthly t) →
  "Total PO Ordered Value" ∈ columns (top_10_vendors_monthly t) →
  monthly_data qs t m
  = Ok (sorted_desc qs
          (loc (top_10_vendors_monthly t)
             ((λ x, eq_cell x m) <$> col (top_10_vendors_monthly t) "Month"))
          "Total PO Ordered Value").
Proof.
  intros Hm Ht. unfold monthly_data. rewrite (getitem_Ok _ _ Hm).
  cbn [mbind result_bind]. by rewrite sort_values_desc_Ok by by rewrite columns_loc.
Qed.

Lemma monthly_top_view_Shown (qs : Quicksort) (t : Tables) (choice : nat) :
  "Month" ∈ columns (top_10_vendors_monthly t) →
  "Total PO Ordered Value" ∈ columns (top_10_vendors_monthly t) →
  Forall (λ x, ∃ s, x = Str s) (col (top_10_vendors_monthly t) "Month") →
  let options := merge_sort cell_le (unique (col (top_10_vendors_monthly t) "Month")) in
  let m := selectbox options choice in
  monthly_top_view qs t choice
  = Shown (sorted_desc qs
             (loc (top_10_vendors_monthly t)
                ((λ x, eq_cell x m) <$> col (top_10_vendors_monthly t) "Month"))
             "Total PO Ordered Value") ∧
  ((choice < length options)%nat → m ∈ col (top_10_vendors_monthly t) "Month").
Proof.
  intros Hm Ht Hstr options m. split.
  - unfold monthly_top_view. rewrite (getitem_Ok _ _ Hm). unfold py_sorted.
    rewrite same_class_strings.
    + fold options. fold m. by rewrite (monthly_data_Ok qs t m Hm Ht).
    + apply Forall_forall. intros x Hx. apply (proj1 (elem_of_unique _ _)) in Hx.
      rewrite Forall_forall in Hstr. by apply Hstr.
  - intros Hlt. destruct (lookup_lt_is_Some_2 options choice Hlt) as [x Hx].
    subst m. unfold selectbox. rewrite Hx. cbn [default from_option].
    apply list_elem_of_lookup_2 in Hx. subst options.
    rewrite merge_sort_Permutation in Hx. by apply (proj1 (elem_of_unique _ _)).
Qed.

Lemma monthly_top_months (monthly : DataFrame) :
  columns monthly = ("Month" :: vendor_keys) ++ spend_sums.*1 →
  Forall (λ h, ∃ s, get "Month" h = Str s) (rows monthly) →
  Forall (λ x, ∃ s, x = Str s) (col (monthly_top monthly) "Month").
Proof.
  intros Hc Hstr. unfold col. rewrite rows_monthly_top. apply Forall_fmap, Forall_imap.
  intros i h Hh. unfold compose.
  destruct (monthly_top_cells monthly i h Hc) as [-> _].
  apply monthly_heads_in in Hh as [Hh _]. rewrite Forall_forall in Hstr. by apply Hstr.
Qed.

Lemma grouped_key_cell (d : DataFrame) keys aggs (c : string) (P : cell → Prop) :
  NoDup keys → c ∈ keys →
  Forall (λ r, P (get c r)) (rows d) →
  Forall (λ r, P (get c r)) (rows (grouped d keys aggs)).
Proof.
  intros Hnd Hc HP. unfold grouped; cbn [rows]. apply Forall_imap. intros i k Hk.
  apply elem_of_group_keys in Hk as (_ & r0 & Hr0 & <-).
  apply list_elem_of_lookup_1 in Hc as [j Hj].
  destruct (lookup_lt_is_Some_2 (key_of keys r0) j) as [v Hv].
  { rewrite key_of_length. by eapply lookup_lt_Some. }
  rewrite (get_group_row_key _ _ _ _ _ j c v); [|apply key_of_length|done..].
  unfold key_of in Hv. rewrite list_lookup_fmap, Hj in Hv. injection Hv as <-.
  rewrite Forall_forall in HP. by apply HP.
Qed.

Lemma monthly_view_spec (qs : Quicksort) (t : Tables) (monthly : DataFrame) (choice : nat) :
  top_10_vendors_monthly t = monthly_top monthly →
  columns monthly = ("Month" :: vendor_keys) ++ spend_sums.*1 →
  Forall (λ r, is_num (get ordered_value r) = true) (rows monthly) →
  Forall (λ h, ∃ s, get "Month" h = Str s) (rows monthly) →
  ∃ options v,
    py_sorted (unique (col (top_10_vendors_monthly t) "Month")) = Some options ∧
    monthly_top_view qs t choice = Shown v ∧
    let m := selectbox options choice in
    (length (rows v) ≤ 10)%nat ∧
    Forall (λ r, get "Month" r = m) (rows v) ∧
    Sorted (descending "Total PO Ordered Value") (rows v) ∧
    rows v ≡ₚ filter (λ r, get "Month" r = m) (rows (top_10_vendors_monthly t)) ∧
    ((choice < length options)%nat → rows v ≠ []).
Proof.
  intros Ht Hc Hnum Hstr.
  pose proof (monthly_top_months monthly Hc Hstr) as Hmonths.
  destruct (monthly_top_view_Shown qs t choice) as [Hshown Hin].
  { rewrite Ht. by apply (bool_decide_unpack _). }
  { rewrite Ht. by apply (bool_decide_unpack _). }
  { by rewrite Ht. }
  rewrite Ht in *.
  set (options := merge_sort cell_le (unique (col (monthly_top monthly) "Month"))) in *.
  set (m := selectbox options choice) in *.
  exists options. eexists. split; [|split; [exact Hshown|]].
  - unfold py_sorted. rewrite same_class_strings; [done|].
    apply Forall_forall. intros x Hx. apply (proj1 (elem_of_unique _ _)) in Hx.
    rewrite Forall_forall in Hmonths. by apply Hmonths.
  - destruct (monthly_view_rows qs monthly m Hc Hnum) as (Hlen & Hall & Hsorted & Hperm).
    cbv zeta. fold m. split_and!; [done..|].
    intros Hlt Hnil. rewrite Hnil in Hperm. symmetry in Hperm.
    apply Permutation_nil_r in Hperm.
    specialize (Hin Hlt). unfold col in Hin.
    apply list_elem_of_fmap in Hin as (r & Hm & Hr).
    assert (r ∈ filter (λ r, get "Month" r = m) (rows (monthly_top monthly))) as Hf
      by by apply list_elem_of_filter.
    rewrite Hperm in Hf. by apply not_elem_of_nil in Hf.
Qed.

Section views.
Context (parse_datetime : cell → option Z).
Context (parse_numeric : cell → option Qc).
Context (qs : Quicksort).

Local Abbreviation process := (process parse_datetime parse_numeric qs).
Local Abbreviation tables_of := (tables_of parse_datetime parse_numeric qs).
Local Abbreviation derive := (derive parse_datetime parse_numeric).
Local Abbreviation frame57 := (frame57 parse_datetime parse_numeric).

Lemma months_are_strings (now : Z) (df : DataFrame) :
Forall (λ h, ∃ s, get "Month" h = Str s)
  (rows (grouped (frame57 now df) ("Month" :: vendor_keys) spend_sums)).
Proof.
apply (grouped_key_cell _ _ _ "Month" (λ x, ∃ s, x = Str s)).
- by apply (bool_decide_unpack _).
- left.
- rewrite rows_frame57. apply Forall_fmap, Forall_forall. intros r _.
  apply month_is_a_string.
Qed.

(** X13.  Lines 313 to 317.  After an upload is processed the monthly view never
  raises an exception: the months offered are strings, so sorting them
  compares strings only.  For the month picked it shows at most ten rows and
  at least one, all of that month, by descending total ordered value: the
  rows the monthly Top-10 table has for the month. *)
Theorem monthly_view_at_most_ten (now : Z) (df : DataFrame) (t : Tables) (choice : nat) :
process now df = Ok t →
∃ options v,
  py_sorted (unique (col (top_10_vendors_monthly t) "Month")) = Some options ∧
  monthly_top_view qs t choice = Shown v ∧
  let m := selectbox options choice in
  (length (rows v) ≤ 10)%nat ∧
  Forall (λ r, get "Month" r = m) (rows v) ∧
  Sorted (descending "Total PO Ordered Value") (rows v) ∧
  rows v ≡ₚ filter (λ r, get "Month" r = m) (rows (top_10_vendors_monthly t)) ∧
  ((choice < length options)%nat → rows v ≠ []).
Proof.
intros Hp. apply process_Ok_inv in Hp as [-> _].
apply (monthly_view_spec qs _
         (grouped (frame57 now df) ("Month" :: vendor_keys) spend_sums)).
- reflexivity.
- reflexivity.
- apply (grouped_num _ _ _ ordered_value ordered_value); by apply (bool_decide_unpack _).
- apply months_are_strings.
Qed.
End views.

(** ** The pending-deliveries view *)

(** The session with its frame ['df'] replaced. *)
Definition with_session_df (t : Tables) (df : DataFrame) : Tables :=
  {| total_spend_by_vendor := total_spend_by_vendor t;
     total_spend_by_material := total_spend_by_material t;
     total_spend_by_service_area := total_spend_by_service_area t;
     top_10_vendors := top_10_vendors t;
     top_10_materials := top_10_materials t;
     top_10_vendors_monthly := top_10_vendors_monthly t;
     vendor_summary := vendor_summary t;
     delayed_pos := delayed_pos t;
     quantity_errors := quantity_errors t;
     overbilling_cases := overbilling_cases t;
     session_df := df;
     spend_trend := spend_trend t;
     vendor_spend := vendor_spend t;
     entity_spend := entity_spend t;
     overbilling_df := overbilling_df t |}.

(** Lines 368 and 369.  [df] is the frame stored in the session, not a copy
    of it: the assignment of line 369 adds the column to the stored frame. *)
Definition add_pending (df : DataFrame) : result DataFrame :=
  o ← getitem df "Ordered Quantity";
  d ← getitem df "Delivery Quantity";
  mret (setitem df "Pending Deliveries" (zip_with sub_cell o d)).

(** "Pending Deliveries by Vendor", lines 368 to 370: the session after the
    view, and the table charted or the exception raised. *)
Definition pending_view (t : Tables) : Tables * result DataFrame :=
  match add_pending (session_df t) with
  | Raise e => (t, Raise e)
  | Ok df =>
      (with_session_df t df,
       groupby_sum df ["Vendor Name"] [("Pending Deliveries", "Pending Deliveries")])
  end.

Definition pending (r : Row) : Row :=
  set "Pending Deliveries"
    (sub_cell (get "Ordered Quantity" r) (get "Delivery Quantity" r)) r.

Definition with_pending (d : DataFrame) : DataFrame :=
  setitem d "Pending Deliveries"
    (zip_with sub_cell (col d "Ordered Quantity") (col d "Delivery Quantity")).

Lemma add_pending_Ok (d : DataFrame) :
  "Ordered Quantity" ∈ columns d → "Delivery Quantity" ∈ columns d →
  add_pending d = Ok (with_pending d).
Proof.
  intros Ho Hd. unfold add_pending. rewrite (getitem_Ok _ _ Ho). cbn [mbind result_bind].
  by rewrite (getitem_Ok _ _ Hd).
Qed.

Lemma rows_with_pending (d : DataFrame) : rows (with_pending d) = pending <$> rows d.
Proof.
  unfold with_pending, col. rewrite zip_with_fmap_same.
  apply (rows_setitem d "Pending Deliveries"
           (λ r, sub_cell (get "Ordered Quantity" r) (get "Delivery Quantity" r))).
Qed.

Lemma columns_with_pending (d : DataFrame) :
  columns (with_pending d) = add_col "Pending Deliveries" (columns d).
Proof. done. Qed.

Lemma add_col_idemp (c : string) (cs : list string) : add_col c (add_col c cs) = add_col c cs.
Proof.
  unfold add_col. destruct (decide (c ∈ cs)) as [Hin|Hout].
  - by rewrite decide_True.
  - rewrite decide_True; [done|]. apply elem_of_app. right. left.
Qed.

Lemma pending_idemp (r : Row) : pending (pending r) = pending r.
Proof.
  unfold pending. rewrite !get_set_ne by done.
  unfold set; cbn [label cells]. by rewrite insert_insert_eq.
Qed.

Lemma with_pending_idemp (d : DataFrame) : with_pending (with_pending d) = with_pending d.
Proof.
  apply DataFrame_eq.
  - by rewrite !columns_with_pending, add_col_idemp.
  - rewrite !rows_with_pending, <- list_fmap_compose.
    apply list_fmap_ext. intros i r _. apply pending_idemp.
Qed.

Lemma with_session_df_idemp (t : Tables) (d1 d2 : DataFrame) :
  with_session_df (with_session_df t d1) d2 = with_session_df t d2.
Proof. done. Qed.

Lemma project_ext (cs : list string) (r r' : Row) :
  label r = label r' → (∀ c, c ∈ cs → cells r !! c = cells r' !! c) →
  project cs r = project cs r'.
Proof.
  intros Hl Hc. unfold project. rewrite Hl. f_equal. apply map_eq. intros c.
  destruct (decide (c ∈ cs)) as [Hin|Hout].
  - rewrite !map_lookup_filter. rewrite (Hc c Hin). done.
  - rewrite !(proj2 (map_lookup_filter_None _ _ c)); [done|right; by intros|right; by intros].
Qed.

Lemma groupby_sum_Ok (d : DataFrame) keys aggs :
  (∀ c, c ∈ keys ++ aggs.*2 → c ∈ columns d) →
  groupby_sum d keys aggs = Ok (grouped d keys aggs).
Proof.
  intros H. unfold groupby_sum.
  rewrite (require_Ok d keys) by (intros c Hc; apply H, elem_of_app; by left).
  cbn [mbind result_bind].
  by rewrite (require_Ok d aggs.*2) by (intros c Hc; apply H, elem_of_app; by right).
Qed.

Lemma pending_view_Ok (t : Tables) :
  "Ordered Quantity" ∈ columns (session_df t) →
  "Delivery Quantity" ∈ columns (session_df t) →
  "Vendor Name" ∈ columns (session_df t) →
  pending_view t
  = (with_session_df t (with_pending (session_df t)),
     Ok (grouped (with_pending (session_df t)) ["Vendor Name"]
           [("Pending Deliveries", "Pending Deliveries")])).
Proof.
  intros Ho Hd Hv. unfold pending_view. rewrite add_pending_Ok by done. f_equal.
  apply groupby_sum_Ok. intros c. rewrite columns_with_pending, elem_of_add_col.
  cbn [fmap list_fmap app snd]. rewrite !elem_of_cons.
  intros [->|[->|[]%not_elem_of_nil]]; auto.
Qed.

Lemma pending_view_again (t : Tables) :
  "Ordered Quantity" ∈ columns (session_df t) →
  "Delivery Quantity" ∈ columns (session_df t) →
  "Vendor Name" ∈ columns (session_df t) →
  pending_view (pending_view t).1 = pending_view t.
Proof.
  intros Ho Hd Hv. rewrite (pending_view_Ok t) by done. cbn [fst].
  rewrite pending_view_Ok; cbn [session_df with_session_df].
  - by rewrite with_session_df_idemp, with_pending_idemp.
  - rewrite columns_with_pending. apply elem_of_add_col. by right.
  - rewrite columns_with_pending. apply elem_of_add_col. by right.
  - rewrite columns_with_pending. apply elem_of_add_col. by right.
Qed.

Lemma cells_set (c c' : string) (v : cell) (r : Row) :
  c ≠ c' → cells (set c' v r) !! c = cells r !! c.
Proof. intros H. unfold set; cbn [cells]. by rewrite lookup_insert_ne. Qed.

Lemma select_underbilling_with_pending (d : DataFrame) (cs : list string) :
  "Pending Deliveries" ∉ cs →
  select (underbilling_frame (with_pending d)) cs = select (underbilling_frame d) cs.
Proof.
  intros Hp.
  assert (∀ c, c ∈ cs → c ≠ "Pending Deliveries") as Hne by (by intros c Hc ->).
  unfold select.
  assert (require (underbilling_frame (with_pending d)) cs
          = require (underbilling_frame d) cs) as ->.
  { unfold require. rewrite !columns_underbilling_frame, columns_with_pending.
    rewrite (filter_ext_in _ (λ c, c ∉ add_col "Underbilling Amount" (columns d))); [done|].
    intros c Hc. rewrite !elem_of_add_col. specialize (Hne c Hc). tauto. }
  destruct (require (underbilling_frame d) cs); [|done]. cbn [mbind result_bind].
  f_equal. unfold projected. f_equal.
  rewrite !rows_underbilling_frame, rows_with_pending.
  rewrite <- !list_fmap_compose.
  rewrite <- (list_fmap_id (rows d)) at 2.
  apply (fmap_filter_ext _ _ pending id).
  - intros r. unfold pending, id. by rewrite get_set_ne.
  - intros r. unfold id, compose. apply project_ext; [done|].
    intros c Hc. specialize (Hne c Hc). unfold pending. rewrite get_set_ne by done.
    destruct (decide (c = "Underbilling Amount")) as [->|Hu].
    + unfold set; cbn [cells]. by rewrite !lookup_insert_eq.
    + by rewrite !cells_set by done.
Qed.

Lemma report_with_pending (qs : Quicksort) (t : Tables) :
  "Overbilling Amount" ∈ columns (session_df t) →
  report qs (with_session_df t (with_pending (session_df t))) = report qs t.
Proof.
  intros Hin.
  assert (underbilling_analysis qs (with_session_df t (with_pending (session_df t)))
          = underbilling_analysis qs t) as Hu.
  { unfold underbilling_analysis.
    rewrite (underbilling_df_frame t) by done.
    rewrite underbilling_df_frame; cbn [session_df with_session_df].
    - cbn [mbind result_bind]. rewrite select_underbilling_with_pending; [done|].
      by apply (bool_decide_unpack _).
    - rewrite columns_with_pending. apply elem_of_add_col. by right. }
  unfold report. rewrite Hu. reflexivity.
Qed.

Section pending_deliveries.
Context (parse_datetime : cell → option Z).
Context (parse_numeric : cell → option Qc).
Context (qs : Quicksort).

Local Abbreviation process := (process parse_datetime parse_numeric qs).
Local Abbreviation tables_of := (tables_of parse_datetime parse_numeric qs).

(** X14.  Lines 368 to 370.  After an upload is processed, the pending-deliveries
  view raises no exception and changes the frame stored in the session: it
  gains the column "Pending Deliveries", ordered minus delivered quantity
  (missing when either is), and nothing else in the session changes.
  Opening the view again changes nothing more, and the report is the same
  with and without the view having been opened. *)
Theorem pending_view_changes_stored_frame (now : Z) (df : DataFrame) (t : Tables) :
process now df = Ok t →
let t' := (pending_view t).1 in
(∃ g, (pending_view t).2 = Ok g) ∧
rows (session_df t') = pending <$> rows (session_df t) ∧
(∀ c, c ∈ columns (session_df t') ↔
      c = "Pending Deliveries" ∨ c ∈ columns (session_df t)) ∧
t' = with_session_df t (session_df t') ∧
pending_view t' = pending_view t ∧
report qs t' = report qs t.
Proof.
intros [-> Hall]%process_Ok_inv.
assert (∀ c, bool_decide (c ∈ required_columns ∨ c ∈ assigned57) = true →
             c ∈ columns (session_df (tables_of now df))) as Hin.
{ intros c [Hc|Hc]%bool_decide_eq_true; apply columns_session_df; auto. }
cbv zeta. rewrite pending_view_again by (apply Hin; reflexivity).
rewrite (pending_view_Ok (tables_of now df)) by (apply Hin; reflexivity).
cbn [fst snd]. split_and!.
- eauto.
- apply rows_with_pending.
- intros c. cbn [session_df with_session_df].
  rewrite columns_with_pending. apply elem_of_add_col.
- done.
- done.
- apply report_with_pending. apply Hin. reflexivity.
Qed.
End pending_deliveries.

(** ** The overbilling and underbilling views *)

Definition amount_by (c : string) (amount : string) (d : DataFrame) : result DataFrame :=
  groupby_sum d [c] [(amount, amount)].

(** "Overbilling Analysis", lines 391, 392 and 402. *)
Definition vendor_overbilling (qs : Quicksort) (t : Tables) : result DataFrame :=
  g ← amount_by "Vendor Name" "Overbilling Amount" (overbilling_df t);
  sort_values_desc qs g "Overbilling Amount".

Definition month_positive_overbilling (t : Tables) : result DataFrame :=
  amount_by "Month" "Overbilling Amount" (overbilling_df t).

(** "Underbilling Analysis", lines 413 to 418 and 427. *)
Definition vendor_underbilling (qs : Quicksort) (t : Tables) : result DataFrame :=
  u ← underbilling_df t;
  g ← amount_by "Vendor Name" "Underbilling Amount" u;
  sort_values_desc qs g "Underbilling Amount".

Definition month_underbilling (t : Tables) : result DataFrame :=
  u ← underbilling_df t;
  amount_by "Month" "Underbilling Amount" u.

Definition positive_in (c : string) (r : Row) : Prop := ∃ q, get c r = Num q ∧ 0 < q.

Lemma sum_q_nonneg (l : list Qc) : Forall (λ q, 0 < q) l → 0 ≤ sum_q l.
Proof.
  induction 1 as [|x l Hx Hl IH]; simpl; [done|].
  qc2q. lra.
Qed.

Lemma sum_q_pos (l : list Qc) : l ≠ [] → Forall (λ q, 0 < q) l → 0 < sum_q l.
Proof.
  intros Hne Hl. destruct Hl as [|x l Hx Hl]; [done|]. simpl.
  pose proof (sum_q_nonneg l Hl) as Hs. qc2q. lra.
Qed.

Lemma grouped_positive (d : DataFrame) (k c : string) :
  c ≠ k → Forall (positive_in c) (rows d) →
  Forall (positive_in c) (rows (grouped d [k] [(c, c)])).
Proof.
  intros Hne Hpos. unfold grouped; cbn [rows]. apply Forall_forall.
  intros r (i & key & -> & Hk)%elem_of_lookup_imap.
  apply list_elem_of_lookup_2, elem_of_group_keys in Hk as (_ & r0 & Hr0 & <-).
  rewrite Forall_forall in Hpos.
  unfold positive_in. rewrite (get_group_row_agg _ _ _ _ _ c c).
  - eexists. split; [reflexivity|]. unfold agg_sum. apply sum_q_pos.
    + assert (r0 ∈ group_rows [k] (rows d) (key_of [k] r0)) as Hin
        by by apply list_elem_of_filter.
      intros Hnil. destruct (group_rows [k] (rows d) (key_of [k] r0)); [|done].
      by apply not_elem_of_nil in Hin.
    + apply Forall_fmap, Forall_forall. intros r [_ Hr]%list_elem_of_filter.
      unfold compose. by destruct (Hpos r Hr) as (q & -> & Hq).
  - apply key_of_length.
  - by intros ->%list_elem_of_singleton.
  - repeat constructor. by intros []%not_elem_of_nil.
  - left.
Qed.

Lemma amount_by_Ok_inv (k c : string) (d g : DataFrame) :
  amount_by k c d = Ok g → g = grouped d [k] [(c, c)].
Proof.
  unfold amount_by, groupby_sum.
  destruct (require d [k]); [|discriminate]. cbn [mbind result_bind].
  destruct (require d _); [|discriminate]. by intros [= <-].
Qed.

Lemma sorted_positive (qs : Quicksort) (g : DataFrame) (c : string) :
  Forall (positive_in c) (rows g) →
  Forall (positive_in c) (rows (sorted_desc qs g c)) ∧
  Sorted (descending c) (rows (sorted_desc qs g c)).
Proof.
  intros Hpos. destruct (sorted_desc_rows qs g c) as [Hperm Hsorted].
  - eapply Forall_impl; [exact Hpos|]. by intros r (q & -> & _).
  - split; [by rewrite Hperm|done].
Qed.

Lemma vendor_overbilling_positive (qs : Quicksort) (t : Tables) (g : DataFrame) :
  Forall (positive_in "Overbilling Amount") (rows (overbilling_df t)) →
  vendor_overbilling qs t = Ok g →
  Forall (positive_in "Overbilling Amount") (rows g) ∧
  Sorted (descending "Overbilling Amount") (rows g).
Proof.
  intros Hpos. unfold vendor_overbilling.
  intros (g0 & ->%amount_by_Ok_inv & ->%sort_values_desc_Ok_inv)%bind_Ok_inv.
  by apply sorted_positive, grouped_positive.
Qed.

Lemma month_overbilling_positive (t : Tables) (g : DataFrame) :
  Forall (positive_in "Overbilling Amount") (rows (overbilling_df t)) →
  month_positive_overbilling t = Ok g →
  Forall (positive_in "Overbilling Amount") (rows g).
Proof.
  intros Hpos ->%amount_by_Ok_inv. by apply grouped_positive.
Qed.

Lemma vendor_underbilling_positive (qs : Quicksort) (t : Tables) (g : DataFrame) :
  "Overbilling Amount" ∈ columns (session_df t) →
  Forall (positive_in "Underbilling Amount") (rows (underbilling_frame (session_df t))) →
  vendor_underbilling qs t = Ok g →
  Forall (positive_in "Underbilling Amount") (rows g) ∧
  Sorted (descending "Underbilling Amount") (rows g).
Proof.
  intros Hin Hpos. unfold vendor_underbilling. rewrite underbilling_df_frame by done.
  cbn [mbind result_bind].
  intros (g0 & ->%amount_by_Ok_inv & ->%sort_values_desc_Ok_inv)%bind_Ok_inv.
  by apply sorted_positive, grouped_positive.
Qed.

Lemma month_underbilling_positive (t : Tables) (g : DataFrame) :
  "Overbilling Amount" ∈ columns (session_df t) →
  Forall (positive_in "Underbilling Amount") (rows (underbilling_frame (session_df t))) →
  month_underbilling t = Ok g →
  Forall (positive_in "Underbilling Amount") (rows g).
Proof.
  intros Hin Hpos. unfold month_underbilling. rewrite underbilling_df_frame by done.
  cbn [mbind result_bind]. intros ->%amount_by_Ok_inv. by apply grouped_positive.
Qed.

Section billing_views.
Context (parse_datetime : cell → option Z).
Context (parse_numeric : cell → option Qc).
Context (qs : Quicksort).

Local Abbreviation process := (process parse_datetime parse_numeric qs).
Local Abbreviation tables_of := (tables_of parse_datetime parse_numeric qs).
Local Abbreviation derive := (derive parse_datetime parse_numeric).

Lemma overbilled_positive (now : Z) (df : DataFrame) :
Forall (positive_in "Overbilling Amount") (rows (overbilling_df (tables_of now df))).
Proof.
rewrite rows_overbilling_df. apply Forall_forall.
intros r [Hr _]%list_elem_of_filter. by apply positive_amount.
Qed.

Lemma underbilled_positive (now : Z) (df : DataFrame) :
Forall (positive_in "Underbilling Amount")
  (rows (underbilling_frame (session_df (tables_of now df)))).
Proof.
rewrite rows_underbilling_frame, rows_session_df.
apply Forall_fmap, Forall_forall.
intros r [Hr (r0 & -> & _)%list_elem_of_fmap]%list_elem_of_filter.
unfold compose, positive_in. rewrite get_set_eq.
destruct (underbilled_row parse_datetime parse_numeric now r0 Hr)
  as (a & b & _ & _ & Hlt & ->).
eexists. split; [reflexivity|]. qc2q. lra.
Qed.

(** X15.  Lines 391 to 427.  In the overbilling and underbilling views every
  vendor and every month shown has a positive total, and the vendor tables
  come by descending total: no vendor or month with a zero or negative
  total is charted. *)
Theorem billing_views_positive (now : Z) (df : DataFrame) (t : Tables)
  (vo mo vu mu : DataFrame) :
process now df = Ok t →
vendor_overbilling qs t = Ok vo →
month_positive_overbilling t = Ok mo →
vendor_underbilling qs t = Ok vu →
month_underbilling t = Ok mu →
(Forall (positive_in "Overbilling Amount") (rows vo) ∧
 Sorted (descending "Overbilling Amount") (rows vo)) ∧
Forall (positive_in "Overbilling Amount") (rows mo) ∧
(Forall (positive_in "Underbilling Amount") (rows vu) ∧
 Sorted (descending "Underbilling Amount") (rows vu)) ∧
Forall (positive_in "Underbilling Amount") (rows mu).
Proof.
intros Hp Hvo Hmo Hvu Hmu. apply process_Ok_inv in Hp as [-> _].
pose proof (overbilled_positive now df) as Ho.
pose proof (underbilled_positive now df) as Hu.
pose proof (amount_in_session parse_datetime parse_numeric qs now df) as Hin.
split; [exact (vendor_overbilling_positive qs _ _ Ho Hvo)|].
split; [exact (month_overbilling_positive _ _ Ho Hmo)|].
split; [exact (vendor_underbilling_positive qs _ _ Hin Hu Hvu)|].
exact (month_underbilling_positive _ _ Hin Hu Hmu).
Qed.
End billing_views.

(** ** The top vendor of each month *)

(** [g.first()] on one column of a group: the first value that is not
    missing. *)
Definition first_valid (c : string) (rs : list Row) : cell :=
  default NA (filter (λ x, x ≠ NA) ((λ r, get c r) <$> rs) !! 0%nat).

Definition first_row (keys cols : list string) (rs : list Row) (i : nat) (k : list cell)
    : Row :=
  mkRow i (list_to_map
    (zip keys k ++ ((λ c, (c, first_valid c (group_rows keys rs k))) <$> cols))%list).

(** [df.groupby(keys).first().reset_index()]: one row per key, the keys in
    ascending order, then every other column. *)
Definition grouped_first (df : DataFrame) (keys : list string) : DataFrame :=
  let cols := filter (λ c, c ∉ keys) (columns df) in
  {| columns := (keys ++ cols)%list;
     rows := imap (first_row keys cols (rows df)) (group_keys keys (rows df)) |}.

Definition groupby_first (df : DataFrame) (keys : list string) : result DataFrame :=
  _ ← require df keys;
  mret (grouped_first df keys).

(** "Top Vendor Monthly Trend", line 335. *)
Definition top_vendor_monthly (t : Tables) : result DataFrame :=
  groupby_first (top_10_vendors_monthly t) ["Month"].

Lemma get_first_row_key keys cols rs i k j c v :
  length k = length keys → NoDup keys → keys !! j = Some c → k !! j = Some v →
  get c (first_row keys cols rs i k) = v.
Proof.
  intros Hlen Hnd Hc Hv. unfold first_row, get; simpl.
  apply lookup_total_correct. rewrite list_to_map_app.
  apply lookup_union_Some_l. apply elem_of_list_to_map_1.
  - rewrite fst_zip by lia. done.
  - exact (elem_of_lookup_zip_with_2 pair _ _ _ _ (c, v) j Hc Hv).
Qed.

Lemma get_first_row_col keys cols rs i k c :
  length k = length keys → c ∉ keys → NoDup cols → c ∈ cols →
  get c (first_row keys cols rs i k) = first_valid c (group_rows keys rs k).
Proof.
  intros Hlen Hout Hnd Hin. unfold first_row, get; simpl.
  apply lookup_total_correct. rewrite list_to_map_app.
  rewrite lookup_union_r.
  - apply elem_of_list_to_map_1.
    + rewrite <- list_fmap_compose. by rewrite list_fmap_id.
    + apply list_elem_of_fmap. by exists c.
  - apply not_elem_of_list_to_map_1. rewrite fst_zip by lia. done.
Qed.

Lemma first_valid_cons (c : string) (r : Row) (rs : list Row) :
  get c r ≠ NA → first_valid c (r :: rs) = get c r.
Proof. intros H. unfold first_valid. cbn [fmap list_fmap]. by rewrite filter_cons, decide_True. Qed.

Lemma fmap_filter_imap {A B C : Type} (P : B → Prop) (Q : A → Prop)
    `{!∀ x, Decision (P x), !∀ x, Decision (Q x)} (f : nat → A → B)
    (g : B → C) (g' : A → C) (l : list A) :
  (∀ i x, P (f i x) ↔ Q x) → (∀ i x, g (f i x) = g' x) →
  g <$> filter P (imap f l) = g' <$> filter Q l.
Proof.
  revert f. induction l as [|x l IH]; intros f HP Hg; simpl; [done|].
  rewrite !filter_cons.
  destruct (decide (P (f 0%nat x))) as [H1|H1], (decide (Q x)) as [H2|H2]; csimpl.
  - rewrite Hg. f_equal. apply IH; intros i y; [apply HP|apply Hg].
  - by apply HP in H1.
  - destruct H1. by apply HP.
  - apply IH; intros i y; [apply HP|apply Hg].
Qed.

Lemma first_valid_ext (c c' : string) (rs rs' : list Row) :
  (λ r, get c r) <$> rs = (λ r, get c' r) <$> rs' → first_valid c rs = first_valid c' rs'.
Proof. intros H. unfold first_valid. by rewrite H. Qed.

(** The head of a descending list is its largest element. *)
Lemma descending_head (c : string) (h0 : Row) (l : list Row) :
  Sorted (descending c) (h0 :: l) → ∀ h, h ∈ h0 :: l → value c h ≤ value c h0.
Proof.
  intros Hs. apply Sorted_StronglySorted in Hs.
  - apply StronglySorted_inv in Hs as [_ Hall]. rewrite Forall_forall in Hall.
    intros h [->|Hh]%elem_of_cons; [apply Qcle_refl|]. by apply Hall.
  - intros x y z Hxy Hyz. unfold descending in *. by eapply Qcle_trans.
Qed.

Lemma heads_of_period (monthly : DataFrame) (m : cell) :
  m ≠ NA →
  filter (λ r, get "Month" r = m) (monthly_heads monthly)
  = take 10 (stable_sort (by_leb [(ordered_value, false)])
               (filter (λ r, get "Month" r = m) (rows monthly))).
Proof.
  intros Hm. unfold monthly_heads.
  rewrite filter_group_head_rows by done. cbn [filter list_filter length Nat.sub].
  rewrite filter_stable_sort by (apply by_leb_total || apply by_leb_trans).
  rewrite (stable_sort_within_period _ m); [done|].
  apply Forall_forall. by intros r [? _]%list_elem_of_filter.
Qed.

Lemma period_ranked (monthly : DataFrame) (m : cell) :
  Forall (λ r, is_num (get ordered_value r) = true) (rows monthly) →
  ranked ordered_value (filter (λ r, get "Month" r = m) (rows monthly))
    (stable_sort (by_leb [(ordered_value, false)])
       (filter (λ r, get "Month" r = m) (rows monthly))).
Proof.
  intros Hnum. split; [apply stable_sort_perm|].
  eapply (Sorted_weaken_in (λ r, is_num (get ordered_value r) = true)).
  - rewrite stable_sort_perm. apply Forall_forall.
    intros r [_ Hr]%list_elem_of_filter. revert r Hr. by apply Forall_forall.
  - intros x y Hx Hy H. exact (by_leb_desc_value _ _ _ Hx Hy H).
  - apply stable_sort_sorted. apply by_leb_total.
Qed.

Lemma grouped_key_present (df : DataFrame) keys aggs (r : Row) (c : string) :
  NoDup keys → r ∈ rows (grouped df keys aggs) → c ∈ keys → get c r ≠ NA.
Proof.
  intros Hnd (i & k & -> & Hk)%elem_of_lookup_imap Hc.
  apply list_elem_of_lookup_2, elem_of_group_keys in Hk as (Hcomplete & r0 & _ & <-).
  apply list_elem_of_lookup_1 in Hc as [j Hj].
  destruct (lookup_lt_is_Some_2 (key_of keys r0) j) as [v Hv].
  { rewrite key_of_length. by eapply lookup_lt_Some. }
  rewrite (get_group_row_key _ _ _ _ _ j c v); [|apply key_of_length|done..].
  intros ->. apply Hcomplete. by eapply list_elem_of_lookup_2.
Qed.

Definition monthly_old : list string := ("Month" :: vendor_keys) ++ spend_sums.*1.
Definition monthly_names : list string := "Month" :: vendor_keys ++ total_names.

(** The rows of the monthly totals carry a value in every column. *)
Definition filled (h : Row) : Prop := ∀ c, c ∈ monthly_old → get c h ≠ NA.

Lemma monthly_top_cell (monthly : DataFrame) (i j : nat) (h : Row) (c c' : string) :
  columns monthly = monthly_old →
  monthly_names !! j = Some c' → monthly_old !! j = Some c →
  get c' (rename_row (columns monthly) monthly_names (mkRow i (cells h))) = get c h.
Proof.
  intros -> Hn Ho. rewrite (get_rename_row _ _ _ j c); [done| |done|done|done].
  by apply (bool_decide_unpack _).
Qed.

Lemma month_key (r : Row) (m : cell) : key_of ["Month"] r = [m] ↔ get "Month" r = m.
Proof. unfold key_of; cbn [fmap list_fmap]. split; [by intros [= ->]|by intros ->]. Qed.

Lemma period_head (monthly : DataFrame) (m : cell) (h1 : Row) :
  Forall (λ r, is_num (get ordered_value r) = true) (rows monthly) →
  m ≠ NA → h1 ∈ rows monthly → get "Month" h1 = m →
  ∃ h0 rest,
    filter (λ r, get "Month" r = m) (monthly_heads monthly) = h0 :: rest ∧
    h0 ∈ rows monthly ∧ get "Month" h0 = m ∧
    ∀ h, h ∈ rows monthly → get "Month" h = m →
         value ordered_value h ≤ value ordered_value h0.
Proof.
  intros Hnum Hm Hh1 Hm1. rewrite heads_of_period by done.
  destruct (period_ranked monthly m Hnum) as [Hperm Hsorted].
  destruct (stable_sort (by_leb [(ordered_value, false)])
              (filter (λ r, get "Month" r = m) (rows monthly))) as [|h0 rest] eqn:E.
  { apply Permutation_nil_l in Hperm.
    assert (h1 ∈ filter (λ r, get "Month" r = m) (rows monthly)) as Hin
      by by apply list_elem_of_filter.
    rewrite <- Hperm in Hin. by apply not_elem_of_nil in Hin. }
  exists h0, (take 9 rest). split; [done|].
  assert (h0 ∈ filter (λ r, get "Month" r = m) (rows monthly)) as [Hm0 Hin0]%list_elem_of_filter
    by (rewrite <- Hperm; left).
  split_and!; [done..|].
  intros h Hh Hmh. apply (descending_head _ _ _ Hsorted).
  rewrite Hperm. by apply list_elem_of_filter.
Qed.

Lemma first_rows_are_top (monthly : DataFrame) (r : Row) :
  columns monthly = monthly_old →
  Forall filled (rows monthly) →
  Forall (λ r, is_num (get ordered_value r) = true) (rows monthly) →
  r ∈ rows (grouped_first (monthly_top monthly) ["Month"]) →
  ∃ h0, h0 ∈ rows monthly ∧
    (∀ j c c', monthly_names !! j = Some c' → monthly_old !! j = Some c →
               get c' r = get c h0) ∧
    ∀ h, h ∈ rows monthly → get "Month" h = get "Month" h0 →
         value ordered_value h ≤ value ordered_value h0.
Proof.
  intros Hc Hfilled Hnum. unfold grouped_first; cbn [rows].
  intros (i & k & -> & Hk)%elem_of_lookup_imap.
  apply list_elem_of_lookup_2, elem_of_group_keys in Hk as (Hcomplete & r1 & Hr1 & <-).
  rewrite rows_monthly_top in Hr1.
  change ("Month" :: vendor_keys ++ total_names) with monthly_names in Hr1.
  apply elem_of_lookup_imap in Hr1 as (j1 & h1 & -> & Hh1).
  apply list_elem_of_lookup_2 in Hh1.
  set (m := get "Month" h1).
  assert (key_of ["Month"]
            (rename_row (columns monthly) monthly_names (mkRow j1 (cells h1))) = [m]) as Hkey.
  { apply month_key.
    exact (monthly_top_cell monthly j1 0 h1 "Month" "Month" Hc eq_refl eq_refl). }
  rewrite Hkey in *.
  destruct (monthly_heads_in monthly h1 Hh1) as [Hin1 Hm].
  destruct (period_head monthly m h1 Hnum Hm Hin1 eq_refl)
    as (h0 & rest & Hheads & Hin0 & Hm0 & Hmax).
  exists h0. split; [done|]. split; [|by rewrite Hm0].
  intros j c c' Hn Ho.
  destruct j as [|j].
  - injection Hn as <-. injection Ho as <-.
    rewrite (get_first_row_key _ _ _ _ _ 0 "Month" m); [done|done| |done|done].
    repeat constructor. by intros []%not_elem_of_nil.
  - assert (c' ∉ ["Month"]) as Hne.
    { intros ->%list_elem_of_singleton.
      assert (S j = 0%nat) as Hj; [|discriminate Hj].
      apply (NoDup_lookup monthly_names (S j) 0 "Month");
        [by apply (bool_decide_unpack _)|exact Hn|reflexivity]. }
    rewrite get_first_row_col; [|done|done| |].
    + rewrite (first_valid_ext c' c _ (h0 :: rest)).
      * apply first_valid_cons. rewrite Forall_forall in Hfilled.
        apply (Hfilled h0 Hin0). by eapply list_elem_of_lookup_2.
      * rewrite <- Hheads. unfold group_rows. rewrite rows_monthly_top.
        change ("Month" :: vendor_keys ++ total_names) with monthly_names.
        apply fmap_filter_imap.
        -- intros i' x. rewrite month_key.
           by rewrite (monthly_top_cell monthly i' 0 x "Month" "Month" Hc eq_refl eq_refl).
        -- intros i' x. exact (monthly_top_cell monthly i' (S j) x c c' Hc Hn Ho).
    + by apply (bool_decide_unpack _).
    + apply list_elem_of_filter. split; [done|].
      cbn [columns monthly_top renamed]. by eapply list_elem_of_lookup_2.
Qed.

Lemma every_month_has_row (monthly : DataFrame) (h : Row) :
  columns monthly = monthly_old →
  Forall (λ r, is_num (get ordered_value r) = true) (rows monthly) →
  h ∈ rows monthly → get "Month" h ≠ NA →
  ∃ r, r ∈ rows (grouped_first (monthly_top monthly) ["Month"]) ∧
       get "Month" r = get "Month" h.
Proof.
  intros Hc Hnum Hh Hm.
  destruct (period_head monthly (get "Month" h) h Hnum Hm Hh eq_refl)
    as (h0 & rest & Hheads & _ & Hm0 & _).
  assert (h0 ∈ monthly_heads monthly) as Hin0.
  { assert (h0 ∈ filter (λ r, get "Month" r = get "Month" h) (monthly_heads monthly)) as Hf
      by (rewrite Hheads; left).
    by apply list_elem_of_filter in Hf as [_ ?]. }
  apply list_elem_of_lookup_1 in Hin0 as [j Hj].
  assert ([get "Month" h] ∈ group_keys ["Month"] (rows (monthly_top monthly))) as Hk.
  { apply elem_of_group_keys. split.
    - intros Hna%list_elem_of_singleton. by apply Hm.
    - exists (rename_row (columns monthly) monthly_names (mkRow j (cells h0))). split.
      + rewrite rows_monthly_top. apply elem_of_lookup_imap. by exists j, h0.
      + apply month_key.
        by rewrite (monthly_top_cell monthly j 0 h0 "Month" "Month" Hc eq_refl eq_refl). }
  apply list_elem_of_lookup_1 in Hk as [i Hi].
  eexists. split.
  - unfold grouped_first; cbn [rows]. apply elem_of_lookup_imap. by eexists i, _.
  - rewrite (get_first_row_key _ _ _ _ _ 0 "Month" (get "Month" h)); [done|done| |done|done].
    repeat constructor. by intros []%not_elem_of_nil.
Qed.

Lemma top_vendor_monthly_inv (t : Tables) (v : DataFrame) :
  top_vendor_monthly t = Ok v → v = grouped_first (top_10_vendors_monthly t) ["Month"].
Proof.
  unfold top_vendor_monthly, groupby_first.
  destruct (require _ _); [|discriminate]. by intros [= <-].
Qed.

Lemma monthly_spend_filled (d : DataFrame) :
  Forall filled (rows (monthly_spend d)) ∧
  Forall (λ r, is_num (get ordered_value r) = true) (rows (monthly_spend d)).
Proof.
  unfold monthly_spend.
  assert (∀ c, c ∈ spend_sums.*1 →
            Forall (λ r, is_num (get c r) = true)
                   (rows (grouped d ("Month" :: vendor_keys) spend_sums))) as Hnum.
  { intros c Hc. apply (grouped_num _ _ _ c c).
    - revert Hc. unfold spend_sums, same_name. cbn [fmap list_fmap fst].
      rewrite !elem_of_cons. intros [->|[->|[->|[]%not_elem_of_nil]]];
        by apply (bool_decide_unpack _).
    - by apply (bool_decide_unpack _).
    - revert Hc. unfold spend_sums, same_name. cbn [fmap list_fmap fst].
      rewrite !elem_of_cons. intros [->|[->|[->|[]%not_elem_of_nil]]];
        by apply (bool_decide_unpack _). }
  split; [|apply Hnum; by apply (bool_decide_unpack _)].
  apply Forall_forall. intros h Hh c [Hc|Hc]%elem_of_app.
  - apply (grouped_key_present d ("Month" :: vendor_keys) spend_sums); [|done..].
    by apply (bool_decide_unpack _).
  - specialize (Hnum c Hc). rewrite Forall_forall in Hnum. specialize (Hnum h Hh).
    intros E. by rewrite E in Hnum.
Qed.

Section top_vendor.
Context (parse_datetime : cell → option Z).
Context (parse_numeric : cell → option Qc).
Context (qs : Quicksort).

Local Abbreviation process := (process parse_datetime parse_numeric qs).
Local Abbreviation tables_of := (tables_of parse_datetime parse_numeric qs).
Local Abbreviation frame57 := (frame57 parse_datetime parse_numeric).

(** X16.  Line 335.  The monthly trend of the top vendor has a row for every month
  of the monthly totals, and the row of a month is, column by column, the
  row of the monthly totals with the largest ordered value of that
  month. *)
Theorem top_vendor_of_month (now : Z) (df : DataFrame) (t : Tables) (v : DataFrame) :
process now df = Ok t →
top_vendor_monthly t = Ok v →
let monthly := rows (monthly_spend (session_df t)) in
(∀ r, r ∈ rows v →
   ∃ h0, h0 ∈ monthly ∧
     (∀ j c c', monthly_names !! j = Some c' → monthly_old !! j = Some c →
                get c' r = get c h0) ∧
     ∀ h, h ∈ monthly → get "Month" h = get "Month" h0 →
          value ordered_value h ≤ value ordered_value h0) ∧
(∀ h, h ∈ monthly → ∃ r, r ∈ rows v ∧ get "Month" r = get "Month" h).
Proof.
intros Hp ->%top_vendor_monthly_inv. apply process_Ok_inv in Hp as [-> _].
unfold tables_of. cbn [top_10_vendors_monthly session_df]. cbv zeta.
destruct (monthly_spend_filled (frame57 now df)) as [Hfilled Hnum].
split.
- intros r Hr.
  exact (first_rows_are_top (monthly_spend (frame57 now df)) r eq_refl Hfilled Hnum Hr).
- intros h Hh.
  apply (every_month_has_row (monthly_spend (frame57 now df)) h eq_refl Hnum Hh).
  rewrite Forall_forall in Hfilled. apply (Hfilled h Hh). by apply (bool_decide_unpack _).
Qed.
End top_vendor.

(** ** The entity view *)

(** Lines 207 to 213, for the entity chosen in the select box. *)
Definition entity_data (qs : Quicksort) (t : Tables) (selected_entity : cell)
    : result DataFrame :=
  let df := session_df t in
  s ← getitem df "Entity Name";
  let df_entity := loc df ((λ x, eq_cell x selected_entity) <$> s) in
  service_area_spend ←
    groupby_sum df_entity ["Service Area"] (same_name [ordered_value; invoice_value]);
  sort_values_desc qs service_area_spend ordered_value.

(** "Entity-wise Spend Analysis", lines 205 to 213; [choice] is the position
    the user picks in the select box. *)
Definition entity_view (qs : Quicksort) (t : Tables) (choice : nat) : shown DataFrame :=
  match getitem (session_df t) "Entity Name" with
  | Raise e => Failed e
  | Ok entities =>
      match py_sorted (unique entities) with
      | None => TypeError
      | Some options =>
          match entity_data qs t (selectbox options choice) with
          | Ok v => Shown v
          | Raise e => Failed e
          end
      end
  end.

(** The records of entity [e] that have a service area. *)
Definition of_entity (e : cell) (r : Row) : Prop :=
  get "Service Area" r ≠ NA ∧ get "Entity Name" r = e ∧ e ≠ NA.

Global Instance of_entity_dec (e : cell) (r : Row) : Decision (of_entity e r).
Proof. unfold of_entity. apply _. Defined.

Lemma sum_q_perm (l1 l2 : list Qc) : l1 ≡ₚ l2 → sum_q l1 = sum_q l2.
Proof.
  induction 1 as [|x l1 l2 _ IH|x y l|l1 l2 l3 _ IH1 _ IH2]; simpl.
  - done.
  - by rewrite IH.
  - ring.
  - by rewrite IH1.
Qed.

Lemma column_sum_perm (c : string) (d1 d2 : DataFrame) :
  rows d1 ≡ₚ rows d2 → column_sum c d1 = column_sum c d2.
Proof. intros H. unfold column_sum. apply sum_q_perm. by rewrite H. Qed.

Lemma entity_data_inv (qs : Quicksort) (t : Tables) (e : cell) (v : DataFrame) :
  entity_data qs t e = Ok v →
  v = sorted_desc qs
        (grouped (loc (session_df t)
                    ((λ x, eq_cell x e) <$> col (session_df t) "Entity Name"))
           ["Service Area"] (same_name [ordered_value; invoice_value]))
        ordered_value.
Proof.
  unfold entity_data.
  intros (s & [_ ->]%getitem_Ok_inv & Hg)%bind_Ok_inv.
  apply bind_Ok_inv in Hg as (g & Hg & ->%sort_values_desc_Ok_inv).
  f_equal. revert Hg. unfold groupby_sum.
  destruct (require _ ["Service Area"]); [|discriminate]. cbn [mbind result_bind].
  destruct (require _ _); [|discriminate]. by intros [= <-].
Qed.

Lemma entity_view_rows (qs : Quicksort) (d : DataFrame) (e : cell) :
  let g := grouped (loc d ((λ x, eq_cell x e) <$> col d "Entity Name"))
             ["Service Area"] (same_name [ordered_value; invoice_value]) in
  let v := sorted_desc qs g ordered_value in
  Sorted (descending ordered_value) (rows v) ∧
  (∀ src, src ∈ [ordered_value; invoice_value] →
     column_sum src v = sum_q ((λ r, num0 (get src r)) <$> filter (of_entity e) (rows d))) ∧
  ∀ r, r ∈ rows v →
       ∃ r0, r0 ∈ rows d ∧ of_entity e r0 ∧ get "Service Area" r0 = get "Service Area" r.
Proof.
  intros g v.
  assert (rows (loc d ((λ x, eq_cell x e) <$> col d "Entity Name"))
          = filter (λ r, is_true_cell (eq_cell (get "Entity Name" r) e)) (rows d)) as Hloc.
  { unfold col. rewrite <- list_fmap_compose.
    apply (rows_loc d (λ r, eq_cell (get "Entity Name" r) e)). }
  destruct (sorted_desc_rows qs g ordered_value) as [Hperm Hsorted].
  { apply (grouped_num _ _ _ ordered_value ordered_value); by apply (bool_decide_unpack _). }
  fold v in Hperm, Hsorted. split_and!; [done| |].
  - intros src Hsrc. rewrite (column_sum_perm src v g Hperm). unfold column_sum. subst g.
    rewrite (grouped_rows_sum _ _ _ src src).
    + rewrite Hloc, list_filter_filter. do 2 f_equal. apply list_filter_iff.
      intros r. unfold of_entity, complete_key, key_of. cbn [fmap list_fmap].
      rewrite eq_cell_true, not_elem_of_cons. split.
      * intros [[Hk _] [He Hn]]. split_and!; [by intros E|done|by rewrite <- He].
      * intros [Hk [He Hn]].
        split_and!; [by intros E|apply not_elem_of_nil|done|by rewrite He].
    + revert Hsrc. rewrite !elem_of_cons.
      intros [->|[->|[]%not_elem_of_nil]]; by apply (bool_decide_unpack _).
    + by apply (bool_decide_unpack _).
    + revert Hsrc. unfold same_name. cbn [fmap list_fmap]. rewrite !elem_of_cons.
      intros [->|[->|[]%not_elem_of_nil]]; auto.
  - intros r Hr. rewrite Hperm in Hr. subst g. unfold grouped in Hr; cbn [rows] in Hr.
    apply elem_of_lookup_imap in Hr as (i & k & -> & Hk).
    apply list_elem_of_lookup_2, elem_of_group_keys in Hk as (Hc & r0 & Hr0 & <-).
    rewrite Hloc in Hr0. apply list_elem_of_filter in Hr0 as [He Hr0].
    apply eq_cell_true in He as [He Hn].
    exists r0. split; [done|]. split.
    + unfold of_entity. split_and!; [|done|by rewrite <- He].
      intros E. apply Hc. unfold key_of. cbn [fmap list_fmap]. rewrite E. left.
    + symmetry.
      apply (get_group_row_key _ _ _ _ _ 0 "Service Area"); [done| |done|done].
      repeat constructor. by intros []%not_elem_of_nil.
Qed.

Lemma entity_data_Ok (qs : Quicksort) (t : Tables) (e : cell) :
  (∀ c, c ∈ ["Entity Name"; "Service Area"; ordered_value; invoice_value] →
        c ∈ columns (session_df t)) →
  entity_data qs t e
  = Ok (sorted_desc qs
          (grouped (loc (session_df t)
                      ((λ x, eq_cell x e) <$> col (session_df t) "Entity Name"))
             ["Service Area"] (same_name [ordered_value; invoice_value]))
          ordered_value).
Proof.
  intros Hc. unfold entity_data.
  rewrite getitem_Ok by (apply Hc; by apply (bool_decide_unpack _)).
  cbn [mbind result_bind]. rewrite groupby_sum_Ok.
  - cbn [mbind result_bind]. apply sort_values_desc_Ok.
    by apply (bool_decide_unpack _).
  - intros c Hin. rewrite columns_loc. apply Hc. revert Hin.
    unfold same_name. cbn [fmap list_fmap app snd]. rewrite !elem_of_cons. tauto.
Qed.

Lemma entity_view_cases (qs : Quicksort) (t : Tables) (choice : nat) :
  (∀ c, c ∈ ["Entity Name"; "Service Area"; ordered_value; invoice_value] →
        c ∈ columns (session_df t)) →
  let entities := col (session_df t) "Entity Name" in
  ((∃ s, NA ∈ entities ∧ Str s ∈ entities) → entity_view qs t choice = TypeError) ∧
  (Forall (λ x, ∃ s, x = Str s) entities →
     ∃ options v,
       py_sorted (unique entities) = Some options ∧
       entity_view qs t choice = Shown v ∧
       entity_data qs t (selectbox options choice) = Ok v).
Proof.
  intros Hc entities. subst entities.
  assert (getitem (session_df t) "Entity Name" = Ok (col (session_df t) "Entity Name"))
    as Hget by (apply getitem_Ok, Hc; by apply (bool_decide_unpack _)).
  split.
  - intros (s & Hna & Hstr). unfold entity_view. rewrite Hget. unfold py_sorted.
    by rewrite (same_class_mixed _ s) by by apply elem_of_unique.
  - intros Hstr. unfold entity_view. rewrite Hget. unfold py_sorted.
    rewrite same_class_strings.
    + rewrite (entity_data_Ok qs t _ Hc). eexists _, _.
      split; [reflexivity|]. split; [reflexivity|]. apply (entity_data_Ok qs t _ Hc).
    + apply Forall_forall. intros x Hx. apply (proj1 (elem_of_unique _ _)) in Hx.
      rewrite Forall_forall in Hstr. by apply Hstr.
Qed.

Section entity.
Context (parse_datetime : cell → option Z).
Context (parse_numeric : cell → option Qc).
Context (qs : Quicksort).

Local Abbreviation process := (process parse_datetime parse_numeric qs).
Local Abbreviation tables_of := (tables_of parse_datetime parse_numeric qs).

Lemma entity_columns_present (now : Z) (df : DataFrame) :
(∀ c, c ∈ required_columns → c ∈ columns df) →
∀ c, c ∈ ["Entity Name"; "Service Area"; ordered_value; invoice_value] →
     c ∈ columns (session_df (tables_of now df)).
Proof.
intros Hall c Hc. apply columns_session_df. right. apply Hall. revert Hc.
rewrite !elem_of_cons. intros [->|[->|[->|[->|[]%not_elem_of_nil]]]];
  by apply (bool_decide_unpack _).
Qed.

End entity.

(** ** The down-payment view and the re-sorted spend views *)

(** "Down Payment Analysis by Vendor", lines 379 and 380. *)
Definition down_payment_view (t : Tables) : result DataFrame :=
  groupby_sum (session_df t) ["Vendor Name"] [(down_payment, down_payment)].

(** Lines 192, 262, 273 and 286: a spend table sorted again for its chart. *)
Definition df_plot (qs : Quicksort) (table : DataFrame) : result DataFrame :=
  sort_values_desc qs table "Total PO Ordered Value".

Lemma down_payment_view_Ok (t : Tables) :
  "Vendor Name" ∈ columns (session_df t) → down_payment ∈ columns (session_df t) →
  down_payment_view t
  = Ok (grouped (session_df t) ["Vendor Name"] [(down_payment, down_payment)]).
Proof.
  intros Hv Hd. apply groupby_sum_Ok. intros c.
  cbn [fmap list_fmap app snd]. rewrite !elem_of_cons.
  intros [->|[->|[]%not_elem_of_nil]]; auto.
Qed.

Lemma down_payment_view_with_pending (t : Tables) :
  "Vendor Name" ∈ columns (session_df t) → down_payment ∈ columns (session_df t) →
  down_payment_view (with_session_df t (with_pending (session_df t)))
  = down_payment_view t.
Proof.
  intros Hv Hd. rewrite (down_payment_view_Ok t) by done.
  rewrite down_payment_view_Ok; cbn [session_df with_session_df].
  - f_equal. apply (grouped_ext _ _ _ _ pending id (rows (session_df t))).
    + apply rows_with_pending.
    + by rewrite list_fmap_id.
    + intros r c. cbn [fmap list_fmap app snd]. rewrite !elem_of_cons.
      intros [->|[->|[]%not_elem_of_nil]]; unfold pending, id; by rewrite get_set_ne.
  - rewrite columns_with_pending. apply elem_of_add_col. by right.
  - rewrite columns_with_pending. apply elem_of_add_col. by right.
Qed.

Lemma df_plot_ranked (qs : Quicksort) (table : DataFrame) :
  "Total PO Ordered Value" ∈ columns table →
  Forall (λ r, is_num (get "Total PO Ordered Value" r) = true) (rows table) →
  ∃ v, df_plot qs table = Ok v ∧ columns v = columns table ∧
       ranked "Total PO Ordered Value" (rows table) (rows v).
Proof.
  intros Hc Hnum. eexists. split; [by apply sort_values_desc_Ok|].
  split; [done|]. by apply sorted_desc_rows.
Qed.

Lemma totals_plot (qs : Quicksort) (d : DataFrame) (keys : list string) :
  NoDup (keys ++ total_names) → ordered_value ∉ keys →
  let table := renamed (grouped d keys spend_sums) (keys ++ total_names) in
  ∃ v, df_plot qs table = Ok v ∧ columns v = columns table ∧
       ranked "Total PO Ordered Value" (rows table) (rows v).
Proof.
  intros Hnd Hk table. apply df_plot_ranked.
  - subst table. rewrite columns_renamed. apply elem_of_app. right. left.
  - by apply renamed_totals_num.
Qed.

Lemma top_plot (qs : Quicksort) (d : DataFrame) (keys : list string) :
  NoDup (keys ++ total_names) → ordered_value ∉ keys →
  let table := head 10 (sorted_desc qs (renamed (grouped d keys spend_sums)
                                          (keys ++ total_names))
                          "Total PO Ordered Value") in
  ∃ v, df_plot qs table = Ok v ∧ columns v = columns table ∧
       ranked "Total PO Ordered Value" (rows table) (rows v).
Proof.
  intros Hnd Hk table. apply df_plot_ranked.
  - subst table. cbn [head columns sorted_desc renamed]. apply elem_of_app. right. left.
  - subst table. cbn [head rows]. apply Forall_take.
    destruct (sorted_desc_rows qs (renamed (grouped d keys spend_sums)
                                     (keys ++ total_names))
                "Total PO Ordered Value") as [Hperm _];
      [by apply renamed_totals_num|].
    rewrite Hperm. by apply renamed_totals_num.
Qed.

Section more_views.
Context (parse_datetime : cell → option Z).
Context (parse_numeric : cell → option Qc).
Context (qs : Quicksort).

Local Abbreviation process := (process parse_datetime parse_numeric qs).
Local Abbreviation tables_of := (tables_of parse_datetime parse_numeric qs).
Local Abbreviation derive := (derive parse_datetime parse_numeric).
Local Abbreviation records_sum := (records_sum parse_numeric).


(** X19.  Lines 192, 262, 273 and 286.  After an upload is processed, each of the
  four views that sort a spend table again raises no exception and charts
  the rows of its table, all of them and no other, in descending order of
  the total ordered value. *)
Theorem spend_views_ranked (now : Z) (df : DataFrame) (t : Tables) (table : DataFrame) :
process now df = Ok t →
table ∈ [total_spend_by_service_area t; total_spend_by_material t;
         top_10_materials t; top_10_vendors t] →
∃ v, df_plot qs table = Ok v ∧ columns v = columns table ∧
     ranked "Total PO Ordered Value" (rows table) (rows v).
Proof.
intros [-> _]%process_Ok_inv. unfold tables_of.
cbn [total_spend_by_service_area total_spend_by_material top_10_materials
     top_10_vendors].
rewrite !elem_of_cons.
intros [->|[->|[->|[->|[]%not_elem_of_nil]]]].
- apply totals_plot; by apply (bool_decide_unpack _).
- apply totals_plot; by apply (bool_decide_unpack _).
- apply top_plot; by apply (bool_decide_unpack _).
- apply top_plot; by apply (bool_decide_unpack _).
Qed.
End more_views.

Global Instance DataFrame_eq_dec : EqDecision DataFrame.
Proof. solve_decision. Defined.
Global Instance Tables_eq_dec : EqDecision Tables.
Proof. solve_decision. Defined.
Global Instance exn_eq_dec : EqDecision exn.
Proof. solve_decision. Defined.
Global Instance result_eq_dec {A : Type} `{EqDecision A} : EqDecision (result A).
Proof. solve_decision. Defined.
Global Instance session_state_eq_dec : EqDecision session_state.
Proof. solve_decision. Defined.

(** The tables of the sample run and its one stored record. *)
Definition tables_late : Tables := Eval vm_compute in
  tables_of no_dates no_numbers stable_quicksort 0 (read_excel sheet_late).

Definition row_late : Row :=
  derive no_dates no_numbers 0
    (mkRow 0 (list_to_map (zip all_columns
       (po_line "A" (day 19797) (day 19796) (num 1) (num 500) (num 500))))).

(** C4, a record against the claim: a delivery the day before the document
    date has delay -1 although its delivery date is present. *)
Lemma delay_sentinel_not_only_null :
  run 0 sheet_late = Ok tables_late ∧
  rows (session_df tables_late) !! 0%nat = Some row_late ∧
  ¬ (get "Delivery Delay" row_late = num (-1) ↔ get "Delivery Date" row_late = NA).
Proof.
  split; [by_compute|]. split; [by_compute|].
  intros [H _].
  assert (get "Delivery Delay" row_late = num (-1)) as Hd by by_compute.
  assert (get "Delivery Date" row_late ≠ NA) as Hn by by_compute.
  exact (Hn (H Hd)).
Qed.

Lemma delivery_delay_days_witness :
  run 0 sheet_late = Ok tables_late ∧
  rows (session_df tables_late) !! 0%nat = Some row_late ∧
  (get "Delivery Delay" row_late = num (-1) ↔
     get "Delivery Date" row_late = NA ∨ get "Document Date" row_late = NA ∨
     ∃ t1 t0, get "Delivery Date" row_late = Ts t1 ∧ get "Document Date" row_late = Ts t0 ∧
              ((t1 - t0) / ns_per_day = -1)%Z).
Proof.
  assert (run 0 sheet_late = Ok tables_late) as Hp by by_compute.
  assert (rows (session_df tables_late) !! 0%nat = Some row_late) as Hr
    by by_compute.
  split; [exact Hp|]. split; [exact Hr|].
  apply (delivery_delay_days no_dates no_numbers stable_quicksort 0 _ _ 0%nat _ Hp Hr).
Defined.

(** ** The run on the upload with an undated line *)

Definition tables_undated : Tables := Eval vm_compute in
  tables_of no_dates no_numbers stable_quicksort 0 (read_excel sheet_undated).

(** C6.  On the upload with two lines of March 2024 and one line without a
    document date, the month of the undated line is the string NaT; the
    monthly spend trend and the monthly Top-10 table each have a row for
    the period NaT, holding the value of the undated line. *)
Theorem undated_records_form_a_period :
  run 0 sheet_undated = Ok tables_undated ∧
  col (session_df tables_undated) "Document Date" = [day 19797; day 19797; NA] ∧
  col (session_df tables_undated) "Month" = [Str "2024-03"; Str "2024-03"; Str "NaT"] ∧
  (λ r, (get "Month" r, get ordered_value r)) <$> rows (spend_trend tables_undated)
    = [(Str "2024-03", num 1500); (Str "NaT", num 300)] ∧
  (λ r, (get "Month" r, get "Vendor Name" r, get "Total PO Ordered Value" r))
      <$> rows (top_10_vendors_monthly tables_undated)
    = [(Str "2024-03", Str "A", num 1500); (Str "NaT", Str "B", num 300)].
Proof. split_and!; by_compute. Qed.


Definition summary_undated : Row :=
  default (mkRow 0 ∅) (rows (vendor_summary tables_undated) !! 0%nat).


Lemma top_n_tables_witness :
  run 0 sheet_undated = Ok tables_undated ∧
  (top_of "Total PO Ordered Value" (total_spend_by_vendor tables_undated)
          (top_10_vendors tables_undated) ∧
   top_of "Total PO Ordered Value" (total_spend_by_material tables_undated)
          (top_10_materials tables_undated) ∧
   top_per_period (monthly_spend (session_df tables_undated))
                  (top_10_vendors_monthly tables_undated)).
Proof.
  assert (run 0 sheet_undated = Ok tables_undated) as Hp by by_compute.
  split; [exact Hp|].
  exact (top_n_tables no_dates no_numbers stable_quicksort 0 _ _ Hp).
Defined.

Lemma overbilling_tables_agree_witness :
  run 0 sheet_undated = Ok tables_undated ∧
  (drop_column "Overbilling Amount" <$> rows (overbilling_df tables_undated)
   = drop_column "Overbilling Amount" <$> rows (overbilling_cases tables_undated)
   ∧ label <$> rows (overbilling_df tables_undated)
     = label <$> rows (overbilling_cases tables_undated)
   ∧ ∀ c, c ∈ columns (overbilling_df tables_undated)
          ↔ c = "Overbilling Amount" ∨ c ∈ columns (overbilling_cases tables_undated)).
Proof.
  assert (run 0 sheet_undated = Ok tables_undated) as Hp by by_compute.
  split; [exact Hp|].
  exact (overbilling_tables_agree no_dates no_numbers stable_quicksort 0 _ _ Hp).
Defined.

(** ** An upload without an invoiced value *)

Definition tables_null_invoice : Tables := Eval vm_compute in
  tables_of no_dates no_numbers stable_quicksort 0 (read_excel sheet_null_invoice).

(** C5, a record against the claim: the one record of the upload has no
    invoiced value, and is in none of the three sets. *)
Lemma null_value_record_in_no_set :
  run 0 sheet_null_invoice = Ok tables_null_invoice ∧
  label <$> rows (session_df tables_null_invoice) = [0%nat] ∧
  rows (overbilling_df tables_null_invoice) = [] ∧
  underbilling_df tables_null_invoice
    = Ok (mkDF (columns (session_df tables_null_invoice) ++ ["Underbilling Amount"]) []) ∧
  exact_matches tables_null_invoice
    = Ok (mkDF (columns (session_df tables_null_invoice)) []).
Proof. split_and!; by_compute. Qed.

Lemma billing_partition_witness :
  run 0 sheet_null_invoice = Ok tables_null_invoice ∧
  ∃ u e, underbilling_df tables_null_invoice = Ok u ∧
    exact_matches tables_null_invoice = Ok e ∧
    label <$> rows (overbilling_df tables_null_invoice)
      = label <$> filter (λ r, amount_sign r = Some Gt) (rows (session_df tables_null_invoice)) ∧
    label <$> rows u
      = label <$> filter (λ r, amount_sign r = Some Lt) (rows (session_df tables_null_invoice)) ∧
    label <$> rows e
      = label <$> filter (λ r, amount_sign r = Some Eq) (rows (session_df tables_null_invoice)) ∧
    ∀ i r, rows (session_df tables_null_invoice) !! i = Some r →
      (amount_sign r = None
         ↔ get invoice_value r = NA ∨ get ordered_value r = NA) ∧
      (amount_sign r = None ∨ amount_sign r = Some Gt
         ∨ amount_sign r = Some Lt ∨ amount_sign r = Some Eq).
Proof.
  assert (run 0 sheet_null_invoice = Ok tables_null_invoice) as Hp by by_compute.
  split; [exact Hp|].
  exact (billing_partition no_dates no_numbers stable_quicksort 0 _ _ Hp).
Defined.

(** ** A run at the instant a delivery is due *)

Definition midnight_19797 : Z := 19797 * ns_per_day.

Definition tables_due : Tables := Eval vm_compute in
  tables_of no_dates no_numbers stable_quicksort midnight_19797 (read_excel sheet_due).

Definition row_due : Row :=
  default (mkRow 0 ∅) (rows (session_df tables_due) !! 0%nat).

(** C8, a record against the claim: at the very instant of its delivery
    date, with one unit still to deliver, the record is flagged on time
    although its delivery date is not in the future. *)
Lemma due_now_is_on_time :
  run midnight_19797 sheet_due = Ok tables_due ∧
  rows (session_df tables_due) !! 0%nat = Some row_due ∧
  ¬ (get "On_Time" row_due = Bool true
       ↔ (∃ d, get "Delivery Date" row_due = Ts d ∧ (midnight_19797 < d)%Z)
         ∨ get "Still to Deliver" row_due = num 0).
Proof.
  split; [by_compute|]. split; [by_compute|].
  intros [H _].
  assert (get "On_Time" row_due = Bool true) as Ht by by_compute.
  assert (get "Delivery Date" row_due = Ts midnight_19797) as Hd by by_compute.
  assert (get "Still to Deliver" row_due ≠ num 0) as Hs by by_compute.
  destruct (H Ht) as [(d & Hd' & Hlt)|Hz]; [|exact (Hs Hz)].
  rewrite Hd in Hd'. injection Hd' as <-. lia.
Qed.

Lemma on_time_flag_witness :
  run midnight_19797 sheet_due = Ok tables_due ∧
  rows (session_df tables_due) !! 0%nat = Some row_due ∧
  (get "On_Time" row_due = Bool true
     ↔ (∃ d, get "Delivery Date" row_due = Ts d ∧ (midnight_19797 ≤ d)%Z)
       ∨ get "Still to Deliver" row_due = num 0) ∧
  (get "On_Time" row_due = Bool true ∨ get "On_Time" row_due = Bool false).
Proof.
  assert (run midnight_19797 sheet_due = Ok tables_due) as Hp by by_compute.
  assert (rows (session_df tables_due) !! 0%nat = Some row_due) as Hr by by_compute.
  split; [exact Hp|]. split; [exact Hr|].
  exact (on_time_flag no_dates no_numbers stable_quicksort _ _ _ 0%nat _ Hp Hr).
Defined.

(** ** Two runs on one upload, a day apart *)

Definition midnight_19798 : Z := 19798 * ns_per_day.

Definition tables_due_day : Tables := Eval vm_compute in
  tables_of no_dates no_numbers stable_quicksort midnight_19797
    (read_excel sheet_over_delivered).

Definition tables_next_day : Tables := Eval vm_compute in
  tables_of no_dates no_numbers stable_quicksort midnight_19798
    (read_excel sheet_over_delivered).

(** C9, two runs against the claim: processed at midnight of the due day
    and one day later, the same upload gives two different quantity-error
    tables; the record is on time in the first and late in the second. *)
Lemma rerun_next_day_differs :
  run midnight_19797 sheet_over_delivered = Ok tables_due_day ∧
  run midnight_19798 sheet_over_delivered = Ok tables_next_day ∧
  col (quantity_errors tables_due_day) "On_Time" = [Bool true] ∧
  col (quantity_errors tables_next_day) "On_Time" = [Bool false] ∧
  quantity_errors tables_due_day
    ≠ quantity_errors tables_next_day.
Proof.
  assert (col (quantity_errors tables_due_day) "On_Time" = [Bool true])
    as H1 by by_compute.
  assert (col (quantity_errors tables_next_day) "On_Time" = [Bool false])
    as H2 by by_compute.
  split; [by_compute|]. split; [by_compute|].
  split; [exact H1|]. split; [exact H2|].
  intros Heq. rewrite Heq, H2 in H1. discriminate H1.
Qed.

Lemma rerun_same_but_on_time_witness :
  run midnight_19797 sheet_over_delivered = Ok tables_due_day ∧
  ∃ t2, run midnight_19798 sheet_over_delivered = Ok t2 ∧
        same_but_on_time tables_due_day t2.
Proof.
  assert (run midnight_19797 sheet_over_delivered = Ok tables_due_day)
    as Hp by by_compute.
  split; [exact Hp|].
  exact (rerun_same_but_on_time no_dates no_numbers stable_quicksort _ midnight_19798 _ _ Hp).
Defined.

(** ** Uploads without a column *)



(** ** The further properties on the sample uploads *)

Lemma delay_reason_witness :
  run midnight_19797 sheet_due = Ok tables_due ∧
  rows (session_df tables_due) !! 0%nat = Some row_due ∧
  (get "Why PO Delay" row_due = Str "PO raised after delivery" ↔
     get "Delivery Date" row_due = NA ∨ get "Document Date" row_due = NA ∨
     ∃ t1 t0, get "Delivery Date" row_due = Ts t1 ∧ get "Document Date" row_due = Ts t0 ∧
              (t1 < t0)%Z) ∧
  (get "Why PO Delay" row_due = Str "PO raised after delivery" ∨
   get "Why PO Delay" row_due = Str "").
Proof.
  assert (run midnight_19797 sheet_due = Ok tables_due) as Hp by by_compute.
  assert (rows (session_df tables_due) !! 0%nat = Some row_due) as Hr by by_compute.
  split; [exact Hp|]. split; [exact Hr|].
  exact (delay_reason no_dates no_numbers stable_quicksort _ _ _ 0%nat _ Hp Hr).
Defined.

Lemma date_anomaly_witness :
  run 0 sheet_late = Ok tables_late ∧
  rows (session_df tables_late) !! 0%nat = Some row_late ∧
  (get "Delivery_Date_Anomaly" row_late = Bool true ↔
     ∃ t1 t0, get "Delivery Date" row_late = Ts t1 ∧ get "Document Date" row_late = Ts t0 ∧
              (t1 < t0)%Z) ∧
  (get "Date_Difference" row_late = NA ↔
     get "Delivery Date" row_late = NA ∨ get "Document Date" row_late = NA) ∧
  (∀ q, get "Date_Difference" row_late = Num q → get "Delivery Delay" row_late = Num q) ∧
  (get "Delivery_Date_Anomaly" row_late = Bool true →
     get "Why PO Delay" row_late = Str "PO raised after delivery").
Proof.
  assert (run 0 sheet_late = Ok tables_late) as Hp by by_compute.
  assert (rows (session_df tables_late) !! 0%nat = Some row_late) as Hr by by_compute.
  split; [exact Hp|]. split; [exact Hr|].
  exact (date_anomaly no_dates no_numbers stable_quicksort _ _ _ 0%nat _ Hp Hr).
Defined.

Lemma stored_frame_keeps_upload_witness :
  run 0 sheet_undated = Ok tables_undated ∧
  label <$> rows (session_df tables_undated) = label <$> rows (read_excel sheet_undated) ∧
  (∀ c, c ∈ columns (session_df tables_undated) ↔
        c ∈ columns (read_excel sheet_undated) ∨ c ∈ added_columns) ∧
  (∀ i r0, rows (read_excel sheet_undated) !! i = Some r0 →
     ∃ r, rows (session_df tables_undated) !! i = Some r ∧
          ∀ c, c ∉ added_columns → c ∉ coerced_columns → get c r = get c r0).
Proof.
  assert (run 0 sheet_undated = Ok tables_undated) as Hp by by_compute.
  split; [exact Hp|].
  exact (stored_frame_keeps_upload no_dates no_numbers stable_quicksort _ _ _ Hp).
Defined.

Lemma delayed_pos_records_witness :
  run 0 sheet_undated = Ok tables_undated ∧
  columns (delayed_pos tables_undated)
    = (if decide ("Purchasing Document Number" ∈ columns (read_excel sheet_undated))
       then output_columns else tail output_columns) ∧
  rows (delayed_pos tables_undated)
    = project (columns (delayed_pos tables_undated))
        <$> filter incomplete (rows (session_df tables_undated)) ∧
  label <$> rows (delayed_pos tables_undated)
    = label <$> filter incomplete (rows (read_excel sheet_undated)).
Proof.
  assert (run 0 sheet_undated = Ok tables_undated) as Hp by by_compute.
  split; [exact Hp|].
  exact (delayed_pos_records no_dates no_numbers stable_quicksort _ _ _ Hp).
Defined.

Lemma quantity_error_records_witness :
  run midnight_19797 sheet_over_delivered = Ok tables_due_day ∧
  columns (quantity_errors tables_due_day) = columns (session_df tables_due_day) ∧
  rows (quantity_errors tables_due_day) `sublist_of` rows (session_df tables_due_day) ∧
  ∀ r, r ∈ rows (quantity_errors tables_due_day) ↔
       r ∈ rows (session_df tables_due_day) ∧
       ∃ o d : Qc, get "Ordered Quantity" r = Num o ∧
                   get "Delivery Quantity" r = Num d ∧ o < d.
Proof.
  assert (run midnight_19797 sheet_over_delivered = Ok tables_due_day) as Hp by by_compute.
  split; [exact Hp|].
  exact (quantity_error_records no_dates no_numbers stable_quicksort _ _ _ Hp).
Defined.

Lemma one_row_per_key_witness :
  run 0 sheet_undated = Ok tables_undated ∧
  let records := rows (session_df tables_undated) in
  keyed_by vendor_keys records (total_spend_by_vendor tables_undated) ∧
  keyed_by ["Material Description"; "IT/NON-IT"] records
    (total_spend_by_material tables_undated) ∧
  keyed_by ["Service Area"; "IT/NON-IT"] records
    (total_spend_by_service_area tables_undated) ∧
  keyed_by ["Month"] records (spend_trend tables_undated) ∧
  keyed_by ["Vendor Name"] records (vendor_spend tables_undated) ∧
  keyed_by ["Entity Name"] records (entity_spend tables_undated).
Proof.
  assert (run 0 sheet_undated = Ok tables_undated) as Hp by by_compute.
  split; [exact Hp|].
  exact (one_row_per_key no_dates no_numbers stable_quicksort _ _ _ Hp).
Defined.



(** An upload with the header line only. *)
Definition sheet_empty : Sheet := {| header := all_columns; body := [] |}.

Definition tables_empty : Tables := Eval vm_compute in
  tables_of no_dates no_numbers stable_quicksort 0 (read_excel sheet_empty).

Lemma empty_upload_gives_empty_tables_witness :
  run 0 sheet_empty = Ok tables_empty ∧ rows (read_excel sheet_empty) = [] ∧
  rows (total_spend_by_vendor tables_empty) = [] ∧
  rows (total_spend_by_material tables_empty) = [] ∧
  rows (total_spend_by_service_area tables_empty) = [] ∧
  rows (top_10_vendors tables_empty) = [] ∧
  rows (top_10_materials tables_empty) = [] ∧
  rows (top_10_vendors_monthly tables_empty) = [] ∧
  rows (vendor_summary tables_empty) = [] ∧ rows (delayed_pos tables_empty) = [] ∧
  rows (quantity_errors tables_empty) = [] ∧ rows (overbilling_cases tables_empty) = [] ∧
  rows (session_df tables_empty) = [] ∧ rows (spend_trend tables_empty) = [] ∧
  rows (vendor_spend tables_empty) = [] ∧ rows (entity_spend tables_empty) = [] ∧
  rows (overbilling_df tables_empty) = [].
Proof.
  assert (run 0 sheet_empty = Ok tables_empty) as Hp by by_compute.
  assert (rows (read_excel sheet_empty) = []) as Hr by reflexivity.
  split; [exact Hp|]. split; [exact Hr|].
  exact (empty_upload_gives_empty_tables no_dates no_numbers stable_quicksort _ _ _ Hp Hr).
Defined.


Lemma report_needs_document_number_witness :
  run 0 sheet_undated = Ok tables_undated ∧
  ("Purchasing Document Number" ∈ columns (read_excel sheet_undated) →
     ∃ sheets, report stable_quicksort tables_undated = Ok sheets ∧
               sheets.*1 = sheet_names) ∧
  ("Purchasing Document Number" ∉ columns (read_excel sheet_undated) →
     report stable_quicksort tables_undated
     = Raise (KeyError "Purchasing Document Number")).
Proof.
  assert (run 0 sheet_undated = Ok tables_undated) as Hp by by_compute.
  split; [exact Hp|].
  exact (report_needs_document_number no_dates no_numbers stable_quicksort _ _ _ Hp).
Defined.

Definition over_sheet_undated : DataFrame :=
  sorted_desc stable_quicksort
    (projected (overbilling_df tables_undated) (analysis_columns "Overbilling Amount"))
    "Overbilling Amount".

Definition under_sheet_undated : DataFrame :=
  sorted_desc stable_quicksort
    (projected (underbilling_frame (session_df tables_undated))
       (analysis_columns "Underbilling Amount"))
    "Underbilling Amount".

Lemma billing_sheets_sorted_witness :
  run 0 sheet_undated = Ok tables_undated ∧
  overbilling_analysis stable_quicksort tables_undated = Ok over_sheet_undated ∧
  underbilling_analysis stable_quicksort tables_undated = Ok under_sheet_undated ∧
  (columns over_sheet_undated = analysis_columns "Overbilling Amount" ∧
   rows over_sheet_undated
     ≡ₚ project (analysis_columns "Overbilling Amount")
          <$> rows (overbilling_df tables_undated) ∧
   Sorted (descending "Overbilling Amount") (rows over_sheet_undated) ∧
   Forall (λ r, ∃ q, get "Overbilling Amount" r = Num q ∧ 0 < q)
          (rows over_sheet_undated)) ∧
  (columns under_sheet_undated = analysis_columns "Underbilling Amount" ∧
   label <$> rows under_sheet_undated
     ≡ₚ label <$> filter (λ r, amount_sign r = Some Lt) (rows (session_df tables_undated)) ∧
   Sorted (descending "Underbilling Amount") (rows under_sheet_undated) ∧
   Forall (λ r, ∃ a b, get invoice_value r = Num a ∧ get ordered_value r = Num b ∧
                       a < b ∧ get "Underbilling Amount" r = Num (b - a))
          (rows under_sheet_undated)).
Proof.
  assert (run 0 sheet_undated = Ok tables_undated) as Hp by by_compute.
  assert (overbilling_analysis stable_quicksort tables_undated = Ok over_sheet_undated)
    as Ho by by_compute.
  assert (underbilling_analysis stable_quicksort tables_undated = Ok under_sheet_undated)
    as Hu by by_compute.
  split; [exact Hp|]. split; [exact Ho|]. split; [exact Hu|].
  exact (billing_sheets_sorted no_dates no_numbers stable_quicksort _ _ _ _ _ Hp Ho Hu).
Defined.

Lemma monthly_view_at_most_ten_witness :
  run 0 sheet_undated = Ok tables_undated ∧
  ∃ options v,
    py_sorted (unique (col (top_10_vendors_monthly tables_undated) "Month"))
      = Some options ∧
    monthly_top_view stable_quicksort tables_undated 0 = Shown v ∧
    let m := selectbox options 0 in
    (length (rows v) ≤ 10)%nat ∧
    Forall (λ r, get "Month" r = m) (rows v) ∧
    Sorted (descending "Total PO Ordered Value") (rows v) ∧
    rows v ≡ₚ filter (λ r, get "Month" r = m)
                (rows (top_10_vendors_monthly tables_undated)) ∧
    ((0 < length options)%nat → rows v ≠ []).
Proof.
  assert (run 0 sheet_undated = Ok tables_undated) as Hp by by_compute.
  split; [exact Hp|].
  exact (monthly_view_at_most_ten no_dates no_numbers stable_quicksort _ _ _ 0%nat Hp).
Defined.

Lemma pending_view_changes_stored_frame_witness :
  run 0 sheet_undated = Ok tables_undated ∧
  let t' := (pending_view tables_undated).1 in
  (∃ g, (pending_view tables_undated).2 = Ok g) ∧
  rows (session_df t') = pending <$> rows (session_df tables_undated) ∧
  (∀ c, c ∈ columns (session_df t') ↔
        c = "Pending Deliveries" ∨ c ∈ columns (session_df tables_undated)) ∧
  t' = with_session_df tables_undated (session_df t') ∧
  pending_view t' = pending_view tables_undated ∧
  report stable_quicksort t' = report stable_quicksort tables_undated.
Proof.
  assert (run 0 sheet_undated = Ok tables_undated) as Hp by by_compute.
  split; [exact Hp|].
  exact (pending_view_changes_stored_frame no_dates no_numbers stable_quicksort _ _ _ Hp).
Defined.

Definition vendor_over_undated : DataFrame :=
  sorted_desc stable_quicksort
    (grouped (overbilling_df tables_undated) ["Vendor Name"]
       [("Overbilling Amount", "Overbilling Amount")])
    "Overbilling Amount".

Definition month_over_undated : DataFrame :=
  grouped (overbilling_df tables_undated) ["Month"]
    [("Overbilling Amount", "Overbilling Amount")].

Definition vendor_under_undated : DataFrame :=
  sorted_desc stable_quicksort
    (grouped (underbilling_frame (session_df tables_undated)) ["Vendor Name"]
       [("Underbilling Amount", "Underbilling Amount")])
    "Underbilling Amount".

Definition month_under_undated : DataFrame :=
  grouped (underbilling_frame (session_df tables_undated)) ["Month"]
    [("Underbilling Amount", "Underbilling Amount")].

Lemma billing_views_positive_witness :
  run 0 sheet_undated = Ok tables_undated ∧
  vendor_overbilling stable_quicksort tables_undated = Ok vendor_over_undated ∧
  month_positive_overbilling tables_undated = Ok month_over_undated ∧
  vendor_underbilling stable_quicksort tables_undated = Ok vendor_under_undated ∧
  month_underbilling tables_undated = Ok month_under_undated ∧
  (Forall (positive_in "Overbilling Amount") (rows vendor_over_undated) ∧
   Sorted (descending "Overbilling Amount") (rows vendor_over_undated)) ∧
  Forall (positive_in "Overbilling Amount") (rows month_over_undated) ∧
  (Forall (positive_in "Underbilling Amount") (rows vendor_under_undated) ∧
   Sorted (descending "Underbilling Amount") (rows vendor_under_undated)) ∧
  Forall (positive_in "Underbilling Amount") (rows month_under_undated).
Proof.
  assert (run 0 sheet_undated = Ok tables_undated) as Hp by by_compute.
  assert (vendor_overbilling stable_quicksort tables_undated = Ok vendor_over_undated)
    as Hvo by by_compute.
  assert (month_positive_overbilling tables_undated = Ok month_over_undated)
    as Hmo by by_compute.
  assert (vendor_underbilling stable_quicksort tables_undated = Ok vendor_under_undated)
    as Hvu by by_compute.
  assert (month_underbilling tables_undated = Ok month_under_undated)
    as Hmu by by_compute.
  split; [exact Hp|]. split; [exact Hvo|]. split; [exact Hmo|]. split; [exact Hvu|].
  split; [exact Hmu|].
  exact (billing_views_positive no_dates no_numbers stable_quicksort _ _ _ _ _ _ _
           Hp Hvo Hmo Hvu Hmu).
Defined.

Definition trend_undated : DataFrame :=
  grouped_first (top_10_vendors_monthly tables_undated) ["Month"].

Lemma top_vendor_of_month_witness :
  run 0 sheet_undated = Ok tables_undated ∧
  top_vendor_monthly tables_undated = Ok trend_undated ∧
  let monthly := rows (monthly_spend (session_df tables_undated)) in
  (∀ r, r ∈ rows trend_undated →
     ∃ h0, h0 ∈ monthly ∧
       (∀ j c c', monthly_names !! j = Some c' → monthly_old !! j = Some c →
                  get c' r = get c h0) ∧
       ∀ h, h ∈ monthly → get "Month" h = get "Month" h0 →
            value ordered_value h ≤ value ordered_value h0) ∧
  (∀ h, h ∈ monthly → ∃ r, r ∈ rows trend_undated ∧ get "Month" r = get "Month" h).
Proof.
  assert (run 0 sheet_undated = Ok tables_undated) as Hp by by_compute.
  assert (top_vendor_monthly tables_undated = Ok trend_undated) as Hv by by_compute.
  split; [exact Hp|]. split; [exact Hv|].
  exact (top_vendor_of_month no_dates no_numbers stable_quicksort _ _ _ _ Hp Hv).
Defined.



Lemma spend_views_ranked_witness :
  run 0 sheet_undated = Ok tables_undated ∧
  ∃ v, df_plot stable_quicksort (top_10_vendors tables_undated) = Ok v ∧
       columns v = columns (top_10_vendors tables_undated) ∧
       ranked "Total PO Ordered Value" (rows (top_10_vendors tables_undated)) (rows v).
Proof.
  assert (run 0 sheet_undated = Ok tables_undated) as Hp by by_compute.
  split; [exact Hp|].
  apply (spend_views_ranked no_dates no_numbers stable_quicksort _ _ _ _ Hp).
  rewrite !elem_of_cons. right. right. right. left. reflexivity.
Defined.
